(** * GameHub API proxy worker

    A shallow embedding of the worker's [fetch] handler (token interception,
    signature regeneration, path dispatch and the per-endpoint response
    shaping) and of [generateSignature].

    Conventions of the embedding.
    - A JavaScript string is a [string]: each character stands for one
      UTF-16 code unit below 256, so the order on strings used by
      [Array.prototype.sort] is the order on code units.
    - A JavaScript number is an integer [Z] in the safe range; JSON texts
      with fractions, exponents or larger integers lie outside the
      embedding and are reported as [Outside], never as an error of the
      program.
    - An exception is the outcome [Throw]; the outermost [try]/[catch] of
      [fetch] turns it into the generic 500 response.
    - The collaborators (the two key-value stores, the network, the clock)
      are the fields of a [World]; every outbound [fetch] call is recorded
      in the log that the computation returns.
    - [Headers.set] strips the whitespace around the value and throws on a
      value that holds NUL, a line feed or a carriage return; the header
      values of a request or of a response that the worker receives are
      legal. The [Request]/[Response] constructors are total where the
      worker calls them: statuses are in range, and only a POST is given a
      body.
    - [md5] comes from [./md5.js], which is not part of the sources at
      hand; it is a variable of the development. *)

From Stdlib Require Import Ascii.
From stdpp Require Import base option list sorting strings pretty gmap.

Open Scope string_scope.

(** ** Strings *)

Module Str.

(** [String.prototype.includes]. *)
Fixpoint includes (s sub : string) : bool :=
  if String.prefix sub s then true
  else match s with
       | EmptyString => false
       | String _ s' => includes s' sub
       end.

Fixpoint drop (n : nat) (s : string) : string :=
  match n, s with
  | S n', String _ s' => drop n' s'
  | _, _ => s
  end.

(** The text before and after the first occurrence of [pat] in [s]. *)
Fixpoint split_first (pat s : string) : option (string * string) :=
  if String.prefix pat s then Some (EmptyString, drop (String.length pat) s)
  else match s with
       | EmptyString => None
       | String c s' =>
           match split_first pat s' with
           | Some (b, a) => Some (String c b, a)
           | None => None
           end
       end.

(** [GetSubstitution] for a string pattern (no captures): [$$], [$&],
    [$`] and [$'] are expanded, every other character is copied. *)
Fixpoint GetSubstitution (matched before after template : string) : string :=
  match template with
  | EmptyString => EmptyString
  | String c t =>
      if Ascii.eqb c "$"%char then
        match t with
        | String d t' =>
            if Ascii.eqb d "$"%char then
              String "$"%char (GetSubstitution matched before after t')
            else if Ascii.eqb d "&"%char then
              matched +:+ GetSubstitution matched before after t'
            else if Ascii.eqb d "`"%char then
              before +:+ GetSubstitution matched before after t'
            else if Ascii.eqb d "'"%char then
              after +:+ GetSubstitution matched before after t'
            else String c (GetSubstitution matched before after t)
        | EmptyString => String c EmptyString
        end
      else String c (GetSubstitution matched before after t)
  end.

(** [String.prototype.replace] with a string pattern: the first
    occurrence only. *)
Definition replace (s pat rep : string) : string :=
  match split_first pat s with
  | Some (b, a) => b +:+ GetSubstitution pat b a rep +:+ a
  | None => s
  end.

Definition lower_char (c : ascii) : ascii :=
  let n := Ascii.N_of_ascii c in
  if ((65 <=? n)%N && (n <=? 90)%N)
     || ((192 <=? n)%N && (n <=? 222)%N && negb (n =? 215)%N)
  then Ascii.ascii_of_N (n + 32) else c.

(** [String.prototype.toLowerCase] on code units below 256. *)
Fixpoint toLowerCase (s : string) : string :=
  match s with
  | EmptyString => EmptyString
  | String c s' => String (lower_char c) (toLowerCase s')
  end.

(** [Array.prototype.join] on an array of strings. *)
Definition join (sep : string) (l : list string) : string :=
  String.concat sep l.

End Str.

(** ** Outcomes

    [Ret] is normal completion, [Throw] an exception with its message,
    [Outside] marks behaviour of the runtime that the embedding does not
    cover. *)

Inductive result (A : Type) : Type :=
  | Ret (a : A)
  | Throw (message : string)
  | Outside.
Arguments Ret {A} a.
Arguments Throw {A} message.
Arguments Outside {A}.

#[global] Instance result_ret : MRet result := @Ret.
#[global] Instance result_bind : MBind result := λ A B f m,
  match m with
  | Ret a => f a
  | Throw e => Throw e
  | Outside => Outside
  end.

(** ** Values *)

#[local] Set Warnings "-register-all".

Inductive value : Type :=
  | VUndefined
  | VNull
  | VBool (b : bool)
  | VNum (n : Z)
  | VStr (s : string)
  | VArr (elems : list value)
  | VObj (props : list (string * value)).

(** An ordinary object: its own properties in property order. *)
Abbreviation object := (list (string * value)).

Definition truthy (v : value) : bool :=
  match v with
  | VUndefined | VNull => false
  | VBool b => b
  | VNum n => negb (n =? 0)%Z
  | VStr s => negb (String.eqb s EmptyString)
  | VArr _ | VObj _ => true
  end.

(** [a || b]. *)
Definition or_else (a b : value) : value := if truthy a then a else b.

Definition has_key (o : object) (k : string) : bool :=
  bool_decide (k ∈ o.*1).

(** [o[k]] on an ordinary object whose prototype is [Object.prototype]:
    the own property, if any. None of the names that the worker reads is a
    member of [Object.prototype]. *)
Fixpoint obj_get (o : object) (k : string) : value :=
  match o with
  | [] => VUndefined
  | (k', v) :: o' => if String.eqb k' k then v else obj_get o' k
  end.

(** [v.k] for a data name [k]: a [TypeError] on [undefined] and [null],
    the own property of an object, [undefined] on anything else. *)
Definition get (v : value) (k : string) : result value :=
  match v with
  | VUndefined | VNull =>
      Throw ("Cannot read properties of null or undefined (reading '"
             +:+ k +:+ "')")
  | VObj o => Ret (obj_get o k)
  | _ => Ret VUndefined
  end.

Definition digit_val (c : ascii) : option N :=
  let n := Ascii.N_of_ascii c in
  if (48 <=? n)%N && (n <=? 57)%N then Some (n - 48)%N else None.

Fixpoint digits_val (s : string) (acc : N) : option N :=
  match s with
  | EmptyString => Some acc
  | String c r => d ← digit_val c; digits_val r (acc * 10 + d)%N
  end.

(** A property name that is an array index: a canonical numeric string
    below 2^32 - 1. *)
Definition array_index (k : string) : option N :=
  match k with
  | EmptyString => None
  | String c r =>
      if Ascii.eqb c "0"%char && negb (String.eqb r EmptyString) then None
      else n ← digits_val k 0; if (n <? 2 ^ 32 - 1)%N then Some n else None
  end.

Fixpoint obj_replace (o : object) (k : string) (v : value) : object :=
  match o with
  | [] => []
  | (k', v') :: o' =>
      if String.eqb k' k then (k, v) :: o' else (k', v') :: obj_replace o' k v
  end.

Fixpoint obj_insert_index (o : object) (i : N) (k : string) (v : value) : object :=
  match o with
  | [] => [(k, v)]
  | (k', v') :: o' =>
      match array_index k' with
      | Some j => if (j <? i)%N then (k', v') :: obj_insert_index o' i k v
                  else (k, v) :: o
      | None => (k, v) :: o
      end
  end.

(** Defining the own data property [k]: an existing property keeps its
    place; a new one goes among the array indices, in ascending order, when
    its name is one, and after every other property otherwise. *)
Definition obj_define (o : object) (k : string) (v : value) : object :=
  if has_key o k then obj_replace o k v
  else match array_index k with
       | Some i => obj_insert_index o i k v
       | None => o ++ [(k, v)]
       end.

(** [delete o[k]]. *)
Definition obj_delete (o : object) (k : string) : object :=
  filter (λ kv, kv.1 ≠ k) o.

(** [Object.keys]. *)
Definition Object_keys (o : object) : list string := o.*1.

(** [ToString] of a value, as a template literal applies it. An object
    with an own [toString] property (never callable in a value read from
    JSON) cannot be converted. *)
Fixpoint ToString (v : value) : result string :=
  match v with
  | VUndefined => Ret "undefined"
  | VNull => Ret "null"
  | VBool b => Ret (if b then "true" else "false")
  | VNum n => Ret (pretty n)
  | VStr s => Ret s
  | VArr l =>
      parts ← (fix elements (l : list value) : result (list string) :=
                 match l with
                 | [] => Ret []
                 | x :: r =>
                     s ← match x with
                         | VUndefined | VNull => Ret EmptyString
                         | _ => ToString x
                         end;
                     ss ← elements r;
                     Ret (s :: ss)
                 end) l;
      Ret (Str.join "," parts)
  | VObj o =>
      if has_key o "toString"
      then Throw "Cannot convert object to primitive value"
      else Ret "[object Object]"
  end.

(** ** JSON

    [JSON.stringify] and [JSON.parse] on the values of the embedding. *)

Module JSON.

Definition dquote : ascii := "034"%char.
Definition backslash : ascii := "092"%char.

Definition hex_digit (n : N) : ascii :=
  Ascii.ascii_of_N (if (n <? 10)%N then 48 + n else 87 + n).

Definition escape_char (c : ascii) : string :=
  let n := Ascii.N_of_ascii c in
  if (n =? 34)%N then String backslash (String dquote EmptyString)
  else if (n =? 92)%N then String backslash (String backslash EmptyString)
  else if (n =? 8)%N then String backslash "b"
  else if (n =? 12)%N then String backslash "f"
  else if (n =? 10)%N then String backslash "n"
  else if (n =? 13)%N then String backslash "r"
  else if (n =? 9)%N then String backslash "t"
  else if (n <? 32)%N then
    String backslash
      ("u00" +:+ String (hex_digit (n / 16)) (String (hex_digit (n mod 16)) EmptyString))
  else String c EmptyString.

Fixpoint escape (s : string) : string :=
  match s with
  | EmptyString => EmptyString
  | String c r => escape_char c +:+ escape r
  end.

(** [QuoteJSONString]. *)
Definition quote (s : string) : string :=
  String dquote (escape s +:+ String dquote EmptyString).

(** [JSON.stringify(v)]: a property whose value is [undefined] is left
    out, an [undefined] array element is written [null]. No value that the
    worker serialises is [undefined] itself. *)
Fixpoint stringify (v : value) : string :=
  match v with
  | VUndefined => EmptyString
  | VNull => "null"
  | VBool b => if b then "true" else "false"
  | VNum n => pretty n
  | VStr s => quote s
  | VArr l =>
      "[" +:+ Str.join ","
        ((fix elements (l : list value) : list string :=
            match l with
            | [] => []
            | x :: r =>
                match x with
                | VUndefined => "null"
                | _ => stringify x
                end :: elements r
            end) l) +:+ "]"
  | VObj o =>
      "{" +:+ Str.join ","
        ((fix members (o : object) : list string :=
            match o with
            | [] => []
            | (k, x) :: r =>
                match x with
                | VUndefined => members r
                | _ => (quote k +:+ ":" +:+ stringify x) :: members r
                end
            end) o) +:+ "}"
  end.

Definition syntax_error : string := "Unexpected token in JSON".

Definition is_ws (c : ascii) : bool :=
  let n := Ascii.N_of_ascii c in
  (n =? 32)%N || (n =? 9)%N || (n =? 10)%N || (n =? 13)%N.

Fixpoint skip_ws (s : string) : string :=
  match s with
  | String c r => if is_ws c then skip_ws r else s
  | EmptyString => s
  end.

Definition hex_val (c : ascii) : option N :=
  let n := Ascii.N_of_ascii c in
  if (48 <=? n)%N && (n <=? 57)%N then Some (n - 48)%N
  else if (65 <=? n)%N && (n <=? 70)%N then Some (n - 55)%N
  else if (97 <=? n)%N && (n <=? 102)%N then Some (n - 87)%N
  else None.

Definition simple_escape (c : ascii) : option ascii :=
  let n := Ascii.N_of_ascii c in
  if (n =? 34)%N || (n =? 92)%N || (n =? 47)%N then Some c
  else if (n =? 98)%N then Some "008"%char
  else if (n =? 102)%N then Some "012"%char
  else if (n =? 110)%N then Some "010"%char
  else if (n =? 114)%N then Some "013"%char
  else if (n =? 116)%N then Some "009"%char
  else None.

(** The characters of a string literal after its opening quote, and the
    text after its closing quote. An escape above [ÿ] is outside the
    embedding. *)
Fixpoint parse_string (s : string) : result (string * string) :=
  match s with
  | EmptyString => Throw syntax_error
  | String c r =>
      let n := Ascii.N_of_ascii c in
      if (n =? 34)%N then Ret (EmptyString, r)
      else if (n =? 92)%N then
        match r with
        | EmptyString => Throw syntax_error
        | String e r' =>
            match simple_escape e with
            | Some ch =>
                '(t, rest) ← parse_string r'; Ret (String ch t, rest)
            | None =>
                if Ascii.eqb e "u"%char then
                  match r' with
                  | String h1 (String h2 (String h3 (String h4 r''))) =>
                      match hex_val h1, hex_val h2, hex_val h3, hex_val h4 with
                      | Some a, Some b, Some c', Some d =>
                          if (a =? 0)%N && (b =? 0)%N then
                            '(t, rest) ← parse_string r'';
                            Ret (String (Ascii.ascii_of_N (c' * 16 + d)) t, rest)
                          else Outside
                      | _, _, _, _ => Throw syntax_error
                      end
                  | _ => Throw syntax_error
                  end
                else Throw syntax_error
            end
        end
      else if (n <? 32)%N then Throw syntax_error
      else '(t, rest) ← parse_string r; Ret (String c t, rest)
  end.

Fixpoint take_digits (s : string) (acc : N) : N * string :=
  match s with
  | String c r =>
      match digit_val c with
      | Some d => take_digits r (acc * 10 + d)%N
      | None => (acc, s)
      end
  | EmptyString => (acc, s)
  end.

Definition MAX_SAFE_INTEGER : Z := 2 ^ 53 - 1.

(** A number: an integer part without fraction or exponent, in the safe
    range. *)
Definition parse_number (s : string) : result (value * string) :=
  let '(negative, s1) :=
    match s with
    | String c r => if Ascii.eqb c "-"%char then (true, r) else (false, s)
    | EmptyString => (false, s)
    end in
  match s1 with
  | EmptyString => Throw syntax_error
  | String c r =>
      match digit_val c with
      | None => Throw syntax_error
      | Some d =>
          let '(n, rest) := if (d =? 0)%N then (0%N, r) else take_digits s1 0 in
          let fractional :=
            match rest with
            | String c' _ =>
                Ascii.eqb c' "."%char || Ascii.eqb c' "e"%char || Ascii.eqb c' "E"%char
            | EmptyString => false
            end in
          if fractional then Outside
          else if (MAX_SAFE_INTEGER <? Z.of_N n)%Z then Outside
          else Ret (VNum (if negative then - Z.of_N n else Z.of_N n), rest)
      end
  end.

Fixpoint parse_value (fuel : nat) (s : string) : result (value * string) :=
  match fuel with
  | O => Outside
  | S fuel' =>
      match skip_ws s with
      | EmptyString => Throw syntax_error
      | String c r =>
          if Ascii.eqb c "{"%char then
            match skip_ws r with
            | String c' r' =>
                if Ascii.eqb c' "}"%char then Ret (VObj [], r')
                else parse_members fuel' r []
            | EmptyString => Throw syntax_error
            end
          else if Ascii.eqb c "["%char then
            match skip_ws r with
            | String c' r' =>
                if Ascii.eqb c' "]"%char then Ret (VArr [], r')
                else parse_elements fuel' r []
            | EmptyString => Throw syntax_error
            end
          else if Ascii.eqb c dquote then
            '(t, rest) ← parse_string r; Ret (VStr t, rest)
          else if String.prefix "true" (String c r) then
            Ret (VBool true, Str.drop 4 (String c r))
          else if String.prefix "false" (String c r) then
            Ret (VBool false, Str.drop 5 (String c r))
          else if String.prefix "null" (String c r) then
            Ret (VNull, Str.drop 4 (String c r))
          else parse_number (String c r)
      end
  end
with parse_members (fuel : nat) (s : string) (acc : object)
  : result (value * string) :=
  match fuel with
  | O => Outside
  | S fuel' =>
      match skip_ws s with
      | EmptyString => Throw syntax_error
      | String c r =>
          if Ascii.eqb c dquote then
            '(k, rest) ← parse_string r;
            match skip_ws rest with
            | EmptyString => Throw syntax_error
            | String c1 r1 =>
                if Ascii.eqb c1 ":"%char then
                  '(v, rest') ← parse_value fuel' r1;
                  let acc' := obj_define acc k v in
                  match skip_ws rest' with
                  | EmptyString => Throw syntax_error
                  | String c2 r2 =>
                      if Ascii.eqb c2 ","%char then parse_members fuel' r2 acc'
                      else if Ascii.eqb c2 "}"%char then Ret (VObj acc', r2)
                      else Throw syntax_error
                  end
                else Throw syntax_error
            end
          else Throw syntax_error
      end
  end
with parse_elements (fuel : nat) (s : string) (acc : list value)
  : result (value * string) :=
  match fuel with
  | O => Outside
  | S fuel' =>
      '(v, rest) ← parse_value fuel' s;
      let acc' := (acc ++ [v])%list in
      match skip_ws rest with
      | EmptyString => Throw syntax_error
      | String c r =>
          if Ascii.eqb c ","%char then parse_elements fuel' r acc'
          else if Ascii.eqb c "]"%char then Ret (VArr acc', r)
          else Throw syntax_error
      end
  end.

(** [JSON.parse(text)]. *)
Definition parse (text : string) : result value :=
  '(v, rest) ← parse_value (S (String.length text)) text;
  match skip_ws rest with
  | EmptyString => Ret v
  | String _ _ => Throw syntax_error
  end.

(** A JSON text written with ['] in place of the double quote. *)
Fixpoint text (s : string) : string :=
  match s with
  | EmptyString => EmptyString
  | String c r => String (if Ascii.eqb c "'"%char then dquote else c) (text r)
  end.

End JSON.

(** ** Arrays *)

(** The relative index of [Array.prototype.slice]: a negative argument
    counts from the end. *)
Definition relative_index (len i : Z) : Z :=
  if (i <? 0)%Z then Z.max (len + i) 0 else Z.min i len.

(** [l.slice(start, end)]; [None] is an [end] left [undefined]. *)
Definition Array_slice {A} (l : list A) (start : Z) (end_ : option Z) : list A :=
  let len := Z.of_nat (length l) in
  let k := relative_index len start in
  let final := match end_ with
               | Some e => relative_index len e
               | None => len
               end in
  take (Z.to_nat (final - k)) (drop (Z.to_nat k) l).

(** [ToNumber] where it is an integer. The conversion of a string, an
    array or an object is outside the embedding. *)
Definition ToNumber (v : value) : result Z :=
  match v with
  | VNum n => Ret n
  | VBool b => Ret (if b then 1 else 0)%Z
  | VNull => Ret 0%Z
  | _ => Outside
  end.

(** [a + b] with a number on the left: an addition unless [b] is
    converted to a string. *)
Definition add_number (a : Z) (b : value) : result Z :=
  match b with
  | VNum n => Ret (a + n)%Z
  | VBool c => Ret (a + if c then 1 else 0)%Z
  | VNull => Ret a
  | _ => Outside
  end.

(** The [end] argument of [slice]: [undefined] stands for the length. *)
Definition slice_end (v : value) : result (option Z) :=
  match v with
  | VUndefined => Ret None
  | _ => n ← ToNumber v; Ret (Some n)
  end.

Definition not_a_function (name : string) : string :=
  name +:+ " is not a function".

(** [v.slice(start, end)], the method being read from the value. *)
Definition slice (v : value) (start : Z) (end_ : option Z) : result value :=
  match v with
  | VArr l => Ret (VArr (Array_slice l start end_))
  | VStr s =>
      Ret (VStr (String.string_of_list_ascii
                   (Array_slice (String.list_ascii_of_string s) start end_)))
  | VUndefined | VNull =>
      Throw "Cannot read properties of null or undefined (reading 'slice')"
  | _ => Throw (not_a_function "slice")
  end.

(** [v.length]. *)
Definition length_of (v : value) : result value :=
  match v with
  | VArr l => Ret (VNum (Z.of_nat (length l)))
  | VStr s => Ret (VNum (Z.of_nat (String.length s)))
  | _ => get v "length"
  end.

(** [a === b]. Two objects or arrays met by the worker are equal only if
    they are the same object; the operands compared here always come from
    different sources. *)
Definition strict_eq (a b : value) : bool :=
  match a, b with
  | VUndefined, VUndefined => true
  | VNull, VNull => true
  | VBool x, VBool y => bool_decide (x = y)
  | VNum x, VNum y => bool_decide (x = y)
  | VStr x, VStr y => bool_decide (x = y)
  | _, _ => false
  end.

(** ** HTTP *)

Abbreviation Headers := (gmap string string).

Definition ascii_lower_char (c : ascii) : ascii :=
  let n := Ascii.N_of_ascii c in
  if (65 <=? n)%N && (n <=? 90)%N then Ascii.ascii_of_N (n + 32) else c.

(** A header name, in lower case as [Headers] keeps it. *)
Fixpoint header_name (s : string) : string :=
  match s with
  | EmptyString => EmptyString
  | String c r => String (ascii_lower_char c) (header_name r)
  end.

Definition Headers_get (h : Headers) (name : string) : option string :=
  h !! header_name name.

(** HTTP whitespace: tab, line feed, carriage return and space. *)
Definition http_whitespace (c : ascii) : bool :=
  let n := Ascii.N_of_ascii c in
  (n =? 9)%N || (n =? 10)%N || (n =? 13)%N || (n =? 32)%N.

Fixpoint strip_leading (s : string) : string :=
  match s with
  | EmptyString => EmptyString
  | String c r => if http_whitespace c then strip_leading r else s
  end.

Fixpoint strip_trailing (s : string) : string :=
  match s with
  | EmptyString => EmptyString
  | String c r =>
      match strip_trailing r with
      | EmptyString => if http_whitespace c then EmptyString else String c EmptyString
      | r' => String c r'
      end
  end.

(** A header value normalised: without its leading and trailing HTTP
    whitespace. *)
Definition normalize_value (v : string) : string :=
  strip_trailing (strip_leading v).

(** A legal header value holds no NUL, line feed or carriage return. *)
Fixpoint legal_value (v : string) : bool :=
  match v with
  | EmptyString => true
  | String c r =>
      let n := Ascii.N_of_ascii c in
      negb ((n =? 0)%N || (n =? 10)%N || (n =? 13)%N) && legal_value r
  end.

(** The header [name] of a header list set to [v]. *)
Definition header_list_set (h : Headers) (name v : string) : Headers :=
  <[header_name name := v]> h.

(** [headers.set(name, value)]: the value is normalised first, and a
    normalised value that is not legal is refused with a [TypeError]. The
    names that the worker sets are literals, all of them valid header
    names. *)
Definition Headers_set (h : Headers) (name v : string) : result Headers :=
  let v := normalize_value v in
  if legal_value v then Ret (header_list_set h name v)
  else Throw "Invalid header value".

Definition Headers_append (h : Headers) (name v : string) : Headers :=
  match h !! header_name name with
  | Some old => <[header_name name := old +:+ ", " +:+ v]> h
  | None => <[header_name name := v]> h
  end.

(** [new Headers(init)] for a record of names and values. The values that
    the worker passes are literals or the header values of a response it
    received, which are normalised and legal already. *)
Definition Headers_of (init : list (string * string)) : Headers :=
  foldl (λ h nv, Headers_append h nv.1 nv.2) ∅ init.

(** [headers.get(name)?.includes(sub)]. *)
Definition header_includes (h : Headers) (name sub : string) : bool :=
  match Headers_get h name with
  | Some v => Str.includes v sub
  | None => false
  end.

Module URL.
Record t : Type := mk {
  href : string;
  pathname : string;
  searchParams : list (string * string)
}.

(** [url.searchParams.get(name)]: the first value. *)
Fixpoint get (params : list (string * string)) (name : string) : option string :=
  match params with
  | [] => None
  | (k, v) :: r => if String.eqb k name then Some v else get r name
  end.
End URL.

Module Request.
Record t : Type := mk {
  url : URL.t;
  method : string;
  headers : Headers;
  body : option string
}.

(** [request.text()]. *)
Definition text (r : t) : string := default EmptyString (body r).

(** [request.json()]. *)
Definition json (r : t) : result value := JSON.parse (text r).
End Request.

Module Response.
Record t : Type := mk {
  status : Z;
  headers : Headers;
  body : option string
}.
End Response.

(** ** The collaborators *)

(** An outbound [fetch]. *)
Record FetchCall : Type := {
  call_url : string;
  call_method : string;
  call_headers : Headers;
  call_body : option string
}.

(** What an outbound [fetch] resolves to. *)
Record HttpResponse : Type := {
  http_status : Z;
  http_headers : list (string * string);
  http_body : string
}.

Definition http_ok (r : HttpResponse) : bool :=
  (200 <=? http_status r)%Z && (http_status r <=? 299)%Z.

Record World : Type := {
  (** [env.TOKEN_STORE.get(key)], [None] for [null] *)
  TOKEN_STORE_get : string → option string;
  (** [env.FREE_GAMES_KV.get(key)] *)
  FREE_GAMES_KV_get : string → option string;
  (** [env.TOKEN_REFRESHER_URL] *)
  TOKEN_REFRESHER_URL : string;
  (** the network: a response, or [Throw] when [fetch] rejects *)
  network : FetchCall → result HttpResponse;
  (** [Date.now()] *)
  Date_now : Z
}.

(** ** Computations that call out: an outcome and the log of calls *)

Record M (A : Type) : Type := Run { outcome : result A; calls : list FetchCall }.
Arguments Run {A} outcome calls.
Arguments outcome {A} m.
Arguments calls {A} m.

#[global] Instance M_ret : MRet M := λ A a, Run (Ret a) [].
#[global] Instance M_bind : MBind M := λ A B f m,
  match outcome m with
  | Ret a => let next := f a in Run (outcome next) (calls m ++ calls next)
  | Throw e => Run (Throw e) (calls m)
  | Outside => Run Outside (calls m)
  end.

(** A step that calls nothing. *)
Definition lift {A} (r : result A) : M A := Run r [].

(** [await fetch(...)]. *)
Definition fetch_ (w : World) (c : FetchCall) : M HttpResponse :=
  Run (network w c) [c].

(** A plain GET. *)
Definition get_request (u : string) : FetchCall :=
  {| call_url := u; call_method := "GET"; call_headers := ∅; call_body := None |}.

(** [await fetch(url)]. *)
Definition fetch_url (w : World) (u : string) : M HttpResponse :=
  fetch_ w (get_request u).

(** [try { m } catch (error) { handler error.message }]. *)
Definition try_catch {A} (m : M A) (handler : string → M A) : M A :=
  match outcome m with
  | Throw e => let caught := handler e in
               Run (outcome caught) (calls m ++ calls caught)
  | _ => m
  end.

(** [array.filter(pred)], [array.map(f)] and [array.find(pred)] with
    callbacks that may throw. *)
Fixpoint Array_filter (pred : value → result bool) (l : list value)
  : result (list value) :=
  match l with
  | [] => Ret []
  | x :: r =>
      keep ← pred x;
      rest ← Array_filter pred r;
      Ret (if (keep : bool) then x :: rest else rest)
  end.

Fixpoint Array_find (pred : value → result bool) (l : list value)
  : result (option value) :=
  match l with
  | [] => Ret None
  | x :: r => found ← pred x; if (found : bool) then Ret (Some x) else Array_find pred r
  end.

(** The elements of the array on which a method [name] is called. *)
Definition elements_for (name : string) (v : value) : result (list value) :=
  match v with
  | VArr l => Ret l
  | VUndefined | VNull =>
      Throw ("Cannot read properties of null or undefined (reading '"
             +:+ name +:+ "')")
  | _ => Throw (not_a_function name)
  end.

(** The own enumerable properties of an array: its indices. *)
Definition array_props (l : list value) : object :=
  imap (λ i x, (pretty (Z.of_nat i), x)) l.

(** ** The worker *)

Definition GITHUB_BASE : string :=
  "https://raw.githubusercontent.com/gamehublite/gamehub_api/main".
Definition WORKER_URL : string := "https://gamehub-api.secureflex.workers.dev".
Definition NEWS_AGGREGATOR_URL : string :=
  "https://gamehub-news-aggregator.secureflex.workers.dev".
Definition GAMEHUB_SECRET_KEY : string := "all-egg-shell-y7ZatUDk".

Definition TYPE_TO_MANIFEST : list (string * string) :=
  [ ("1", "/components/box64_manifest");
    ("2", "/components/drivers_manifest");
    ("3", "/components/dxvk_manifest");
    ("4", "/components/vkd3d_manifest");
    ("5", "/components/games_manifest");
    ("6", "/components/libraries_manifest");
    ("7", "/components/steam_manifest") ].

(** The names that every object inherits from [Object.prototype]. *)
Definition Object_prototype_names : list string :=
  [ "constructor"; "hasOwnProperty"; "isPrototypeOf"; "propertyIsEnumerable";
    "toLocaleString"; "toString"; "valueOf"; "__proto__";
    "__defineGetter__"; "__defineSetter__"; "__lookupGetter__";
    "__lookupSetter__" ].

(** [TYPE_TO_MANIFEST[type]]: the entry, or [None] for [undefined]. An
    inherited member is outside the embedding. *)
Definition manifest_of (type : value) : result (option string) :=
  key ← ToString type;
  match URL.get TYPE_TO_MANIFEST key with
  | Some m => Ret (Some m)
  | None => if bool_decide (key ∈ Object_prototype_names) then Outside
            else Ret None
  end.

Definition corsHeaders : list (string * string) :=
  [ ("Access-Control-Allow-Origin", "*");
    ("Access-Control-Allow-Methods", "GET, POST, OPTIONS");
    ("Access-Control-Allow-Headers", "Content-Type") ].

Definition noCacheHeaders : list (string * string) :=
  [ ("Cache-Control", "no-cache, no-store, must-revalidate, max-age=0, s-maxage=0");
    ("Pragma", "no-cache");
    ("Expires", "0") ].

Definition allHeaders : list (string * string) := corsHeaders ++ noCacheHeaders.

(** [new Response(JSON.stringify(v), { status, headers: { 'Content-Type':
    'application/json', ...allHeaders } })]. *)
Definition json_response (status : Z) (v : value) : Response.t :=
  {| Response.status := status;
     Response.headers := Headers_of (("Content-Type", "application/json") :: allHeaders);
     Response.body := Some (JSON.stringify v) |}.

(** [{ code, msg, time, data }]. *)
Definition envelope (code : Z) (msg time : string) (data : value) : value :=
  VObj [("code", VNum code); ("msg", VStr msg); ("time", VStr time); ("data", data)].

(** [Math.floor(Date.now() / 1000).toString()]. *)
Definition unix_time (w : World) : string := pretty (Date_now w / 1000)%Z.

(** [!text] for what a key-value store returns. *)
Definition missing (text : option string) : bool :=
  match text with
  | Some s => String.eqb s EmptyString
  | None => true
  end.

Definition PLACEHOLDER : string := "fake-token".

Section Worker.

(** [md5] of [./md5.js]. *)
Variable md5 : string → string.

(** *** The signer *)

(** The template [`${key}=${params[key]}`]. *)
Definition key_value (params : object) (key : string) : result string :=
  s ← ToString (obj_get params key); Ret (key +:+ "=" +:+ s).

Definition generateSignature (params : object) : result string :=
  let sortedKeys :=
    merge_sort String.le (filter (λ k, k ≠ "sign") (Object_keys params)) in
  pairs ← mapM (key_value params) sortedKeys;
  let paramString := Str.join "&" pairs in
  let signString := paramString +:+ "&" +:+ GAMEHUB_SECRET_KEY in
  Ret (Str.toLowerCase (md5 signString)).

(** *** Token interception *)

(** The fallback request to the token refresher. *)
Definition token_request (w : World) : FetchCall :=
  {| call_url := TOKEN_REFRESHER_URL w +:+ "/token";
     call_method := "GET";
     call_headers := Headers_of [("X-Worker-Auth", "gamehub-internal-token-fetch-2025")];
     call_body := None |}.

(** Reading the real token: the shared store first, the token refresher
    over HTTP when the store has nothing. [VUndefined] is the token that was
    never assigned. *)
Definition resolve_token (w : World) : M value :=
  let tokenDataStr := TOKEN_STORE_get w "gamehub_token" in
  if negb (missing tokenDataStr) then
    tokenData ← lift (JSON.parse (default EmptyString tokenDataStr));
    lift (get tokenData "token")
  else
    tokenResponse ← fetch_ w (token_request w);
    if http_ok tokenResponse then
      tokenData ← lift (JSON.parse (http_body tokenResponse));
      lift (get tokenData "token")
    else mret VUndefined.

(** The body with the real token and a fresh signature:
    [bodyJson.token = realToken; bodyJson.sign = generateSignature(bodyJson);
    JSON.stringify(bodyJson)]. Named properties set on an array take part
    in the signature and are not serialised; a primitive cannot take a
    property in strict code. *)
Definition resign (bodyJson realToken : value) : result string :=
  match bodyJson with
  | VObj o =>
      let withToken := obj_define o "token" realToken in
      newSignature ← generateSignature withToken;
      Ret (JSON.stringify (VObj (obj_define withToken "sign" (VStr newSignature))))
  | VArr l =>
      _ ← generateSignature (array_props l ++ [("token", realToken)]);
      Ret (JSON.stringify (VArr l))
  | _ => Throw "Cannot create property 'token'"
  end.

Definition is_json_post (request : Request.t) : bool :=
  String.eqb (Request.method request) "POST"
  && header_includes (Request.headers request) "Content-Type" "application/json".

(** The body text as the interception reads it: only from a JSON POST. *)
Definition json_body_text (request : Request.t) : string :=
  if is_json_post request then Request.text request else EmptyString.

(** Whether the placeholder was found in the headers or in the body. *)
Definition shouldReplaceToken (request : Request.t) : bool :=
  header_includes (Request.headers request) "Authorization" PLACEHOLDER
  || bool_decide (Headers_get (Request.headers request) "token" = Some PLACEHOLDER)
  || Str.includes (json_body_text request) PLACEHOLDER.

(** The request handed to the endpoints, and the body text read so far. *)
Definition token_interception (w : World) (request : Request.t)
  : M (Request.t * string) :=
  let authHeader := Headers_get (Request.headers request) "Authorization" in
  let tokenHeader := Headers_get (Request.headers request) "token" in
  let bodyText := json_body_text request in
  if shouldReplaceToken request then
    realToken ← resolve_token w;
    if truthy realToken then
      let newHeaders := Request.headers request in
      newHeaders ←
        (if header_includes (Request.headers request) "Authorization" PLACEHOLDER then
           replacement ← lift (ToString realToken);
           lift (Headers_set newHeaders "Authorization"
                   (Str.replace (default EmptyString authHeader) PLACEHOLDER replacement))
         else mret newHeaders);
      newHeaders ←
        (if bool_decide (tokenHeader = Some PLACEHOLDER) then
           replacement ← lift (ToString realToken);
           lift (Headers_set newHeaders "token" replacement)
         else mret newHeaders);
      if negb (String.eqb bodyText EmptyString) && Str.includes bodyText PLACEHOLDER then
        bodyJson ← lift (JSON.parse bodyText);
        bodyText ← lift (resign bodyJson realToken);
        mret ({| Request.url := Request.url request;
                 Request.method := Request.method request;
                 Request.headers := newHeaders;
                 Request.body := Some bodyText |}, bodyText)
      else if negb (String.eqb bodyText EmptyString) then
        mret ({| Request.url := Request.url request;
                 Request.method := Request.method request;
                 Request.headers := newHeaders;
                 Request.body := Some bodyText |}, bodyText)
      else
        mret ({| Request.url := Request.url request;
                 Request.method := Request.method request;
                 Request.headers := newHeaders;
                 Request.body := None |}, bodyText)
    else mret (request, bodyText)
  else mret (request, bodyText).

(** *** Endpoints *)

(** The body reused from the interception, or read now. *)
Definition body_text (request : Request.t) (bodyText : string) : string :=
  if String.eqb bodyText EmptyString then Request.text request else bodyText.

(** [bodyParams[key] = value] on an object literal: an assignment to
    [__proto__] reaches the inherited setter, which ignores a string. *)
Definition assign_param (o : object) (key value : string) : object :=
  if String.eqb key "__proto__" then o else obj_define o key (VStr value).

(** The body built from the query of a GET request for a game. *)
Definition bodyParams (appId : string) (query : list (string * string)) : object :=
  foldl (λ o kv, if String.eqb kv.1 "app_id" then o else assign_param o kv.1 kv.2)
        [("app_id", VStr appId)] query.

(** [delete responseData.data.recommend_game; delete
    responseData.data.card_line_data] when [responseData.data] is truthy. *)
Definition strip_recommendations (responseData : value) : result value :=
  data ← get responseData "data";
  match responseData, data with
  | VObj o, VObj d =>
      Ret (VObj (obj_define o "data"
                   (VObj (obj_delete (obj_delete d "recommend_game") "card_line_data"))))
  | _, _ => Ret responseData
  end.

Definition getGameDetail (w : World) (url : URL.t) (request : Request.t)
    (bodyText : string) : M Response.t :=
  let forward (requestBody : string) : M Response.t :=
    forwardHeaders ←
      lift (Headers_set (Request.headers request) "Content-Type" "application/json");
    chineseResponse ← fetch_ w
      {| call_url := "https://landscape-api.vgabc.com/card/getGameDetail";
         call_method := "POST";
         call_headers := forwardHeaders;
         call_body := Some requestBody |};
    let responseText := http_body chineseResponse in
    match JSON.parse responseText with
    | Throw _ =>
        mret (json_response 500
                (envelope 500
                   ("Chinese server returned invalid response: "
                    +:+ String.substring 0 100 responseText)
                   EmptyString VNull))
    | Outside => lift Outside
    | Ret responseData =>
        responseData ← lift (strip_recommendations responseData);
        mret (json_response 200 responseData)
    end in
  if String.eqb (Request.method request) "GET" then
    match URL.get (URL.searchParams url) "app_id" with
    | Some appId =>
        if String.eqb appId EmptyString then
          mret (json_response 400
                  (envelope 400 "Missing app_id parameter" EmptyString VNull))
        else forward (JSON.stringify (VObj (bodyParams appId (URL.searchParams url))))
    | None =>
        mret (json_response 400
                (envelope 400 "Missing app_id parameter" EmptyString VNull))
    end
  else if String.eqb (Request.method request) "POST" then
    forward (body_text request bodyText)
  else
    mret (json_response 405 (envelope 405 "Method not allowed" EmptyString VNull)).

(** The filter of the search list: [game.steam_appid && game.steam_appid
    !== "0" && game.steam_appid !== ""]. *)
Definition is_steam_game (game : value) : result bool :=
  steam_appid ← get game "steam_appid";
  Ret (truthy steam_appid
       && negb (strict_eq steam_appid (VStr "0"))
       && negb (strict_eq steam_appid (VStr EmptyString))).

(** [{ steam_app_id: game.steam_appid, game_id: game.id }]. *)
Definition game_id_entry (game : value) : result value :=
  steam_appid ← get game "steam_appid";
  id ← get game "id";
  Ret (VObj [("steam_app_id", steam_appid); ("game_id", id)]).

(** The rewriting of [responseData.data] once its [list] is truthy. *)
Definition filter_steam_games (d : object) : result object :=
  games ← elements_for "filter" (obj_get d "list");
  filtered ← Array_filter is_steam_game games;
  let d := obj_define d "list" (VArr filtered) in
  let filteredCount := Z.of_nat (length filtered) in
  let d :=
    if truthy (obj_get d "total") then
      obj_define d "total"
        (VArr [VObj [("classify_group_id", VNum 0); ("count", VNum filteredCount)]])
    else d in
  if truthy (obj_get d "all_game_ids") then
    ids ← mapM game_id_entry filtered;
    Ret (obj_define d "all_game_ids" (VArr ids))
  else Ret d.

(** The filtering of a search response. *)
Definition steam_only (responseData : value) : result value :=
  data ← get responseData "data";
  match responseData, data with
  | VObj o, VObj d =>
      if truthy (obj_get d "list") then
        d ← filter_steam_games d;
        Ret (VObj (obj_define o "data" (VObj d)))
      else Ret responseData
  | _, _ => Ret responseData
  end.

Definition getGameList (w : World) (request : Request.t) (bodyText : string)
  : M Response.t :=
  let bodyText := body_text request bodyText in
  chineseResponse ← fetch_ w
    {| call_url := "https://landscape-api.vgabc.com/search/getGameList";
       call_method := "POST";
       call_headers := Request.headers request;
       call_body := Some bodyText |};
  responseData ← lift (JSON.parse (http_body chineseResponse));
  responseData ← lift (steam_only responseData);
  mret (json_response 200 responseData).

Definition getNewsList (w : World) (request : Request.t) : M Response.t :=
  body ← lift (Request.json request);
  page ← lift (get body "page");
  let page := or_else page (VNum 1) in
  pageSize ← lift (get body "page_size");
  let pageSize := or_else pageSize (VNum 4) in
  page ← lift (ToString page);
  pageSize ← lift (ToString pageSize);
  newsResponse ← fetch_url w
    (NEWS_AGGREGATOR_URL +:+ "/api/news/list?page=" +:+ page
     +:+ "&page_size=" +:+ pageSize);
  if negb (http_ok newsResponse) then
    mret (json_response 200
            (envelope 500 "Failed to fetch news" EmptyString (VArr [])))
  else
    newsData ← lift (JSON.parse (http_body newsResponse));
    mret (json_response 200 newsData).

Definition getNewsGuideDetail (w : World) (request : Request.t) : M Response.t :=
  body ← lift (Request.json request);
  newsId ← lift (get body "id");
  if negb (truthy newsId) then
    mret (json_response 400 (envelope 400 "Missing id parameter" EmptyString VNull))
  else
    newsId ← lift (ToString newsId);
    newsDetailResponse ← fetch_url w
      (NEWS_AGGREGATOR_URL +:+ "/api/news/detail/" +:+ newsId);
    if negb (http_ok newsDetailResponse) then
      mret (json_response 404 (envelope 404 "News not found" EmptyString VNull))
    else
      newsDetailData ← lift (JSON.parse (http_body newsDetailResponse));
      mret (json_response 200 newsDetailData).

(** [{ ...topic, card_list: topic.card_list.slice(0, topic.display_card_num) }].
    Only an object has a [card_list] to slice; on anything else the call of
    [slice] throws. *)
Definition initial_cards (topic : value) : result value :=
  card_list ← get topic "card_list";
  match topic, card_list with
  | VObj o, (VArr _ | VStr _) =>
      end_ ← slice_end (obj_get o "display_card_num");
      cards ← slice card_list 0 end_;
      Ret (VObj (obj_define o "card_list" cards))
  | _, _ => slice card_list 0 None
  end.

Fixpoint Array_map (f : value → result value) (l : list value)
  : result (list value) :=
  match l with
  | [] => Ret []
  | x :: r => y ← f x; ys ← Array_map f r; Ret (y :: ys)
  end.

Definition getIndexList (w : World) (request : Request.t) : M Response.t :=
  try_catch
    (let cachedData := FREE_GAMES_KV_get w "free_games_data" in
     if missing cachedData then
       mret (json_response 200
               (VObj [("code", VNum 201);
                      ("msg", VStr "No free games available at the moment, please try again later");
                      ("data", VArr []);
                      ("time", VStr (unix_time w))]))
     else
       freeGamesData ← lift (JSON.parse (default EmptyString cachedData));
       data ← lift (get freeGamesData "data");
       topics ← lift (elements_for "map" data);
       topics ← lift (Array_map initial_cards topics);
       match freeGamesData with
       | VObj o => mret (json_response 200 (VObj (obj_define o "data" (VArr topics))))
       | _ => lift Outside
       end)
    (λ _, mret (json_response 500
                  (VObj [("code", VNum 500);
                         ("msg", VStr "Internal server error");
                         ("data", VArr []);
                         ("time", VStr (unix_time w))]))).

(** [topics.find(t => t.id === topicId)]. *)
Definition find_topic (topicId : value) (topics : list value) : result (option value) :=
  Array_find (λ t, id ← get t "id"; Ret (strict_eq id topicId)) topics.

Definition card_more (w : World) (request : Request.t) : M Response.t :=
  try_catch
    (body ← lift (Request.json request);
     topicId ← lift (get body "id");
     page ← lift (get body "page");
     let page := or_else page (VNum 1) in
     pageSize ← lift (get body "page_size");
     let pageSize := or_else pageSize (VNum 30) in
     if negb (truthy topicId) then
       mret (json_response 400 (envelope 400 "Missing topic ID" (unix_time w) VNull))
     else
       let cachedData := FREE_GAMES_KV_get w "free_games_data" in
       if missing cachedData then
         mret (json_response 200 (envelope 201 "No data available" (unix_time w) VNull))
       else
         freeGamesData ← lift (JSON.parse (default EmptyString cachedData));
         data ← lift (get freeGamesData "data");
         topics ← lift (elements_for "find" data);
         topic ← lift (find_topic topicId topics);
         match topic with
         | None =>
             mret (json_response 404 (envelope 404 "Topic not found" (unix_time w) VNull))
         | Some topic =>
             pageNumber ← lift (ToNumber page);
             size ← lift (ToNumber pageSize);
             let startIndex := ((pageNumber - 1) * size)%Z in
             endIndex ← lift (add_number startIndex pageSize);
             card_list ← lift (get topic "card_list");
             paginatedCards ← lift (slice card_list startIndex (Some endIndex));
             id ← lift (get topic "id");
             title ← lift (get topic "title");
             aspect_ratio ← lift (get topic "aspect_ratio");
             fixed_card_size ← lift (get topic "fixed_card_size");
             is_play_video ← lift (get topic "is_play_video");
             is_vertical ← lift (get topic "is_vertical");
             is_text_outside ← lift (get topic "is_text_outside");
             mret (json_response 200
                     (envelope 0 EmptyString (unix_time w)
                        (VObj [("id", id);
                               ("title", title);
                               ("aspect_ratio", aspect_ratio);
                               ("fixed_card_size", fixed_card_size);
                               ("is_play_video", is_play_video);
                               ("page", page);
                               ("page_size", pageSize);
                               ("is_vertical", is_vertical);
                               ("is_text_outside", is_text_outside);
                               ("card_list", paginatedCards)])))
         end)
    (λ _, mret (json_response 500
                  (envelope 500 "Internal server error" (unix_time w) VNull))).

(** A request forwarded as it is, and the JSON answer returned as it is. *)
Definition forward_as_is (w : World) (upstream : string) (request : Request.t)
    (bodyText : string) : M Response.t :=
  let bodyText := body_text request bodyText in
  chineseResponse ← fetch_ w
    {| call_url := upstream;
       call_method := "POST";
       call_headers := Request.headers request;
       call_body := Some bodyText |};
  responseData ← lift (JSON.parse (http_body chineseResponse));
  mret (json_response 200 responseData).

(** A JSON document of the static host, or a 500 with [failure]. *)
Definition static_json (w : World) (location failure : string) : M Response.t :=
  response ← fetch_url w location;
  if negb (http_ok response) then
    mret (json_response 500 (VObj [("code", VNum 500); ("msg", VStr failure)]))
  else
    data ← lift (JSON.parse (http_body response));
    mret (json_response 200 data).

Definition getSteamHost (w : World) : M Response.t :=
  hostsResponse ← fetch_url w (GITHUB_BASE +:+ "/game/getSteamHost/index");
  if negb (http_ok hostsResponse) then
    mret (json_response 500
            (VObj [("code", VNum 500); ("msg", VStr "Failed to fetch Steam hosts")]))
  else
    mret {| Response.status := 200;
            Response.headers := Headers_of (("Content-Type", "text/plain") :: allHeaders);
            Response.body := Some (http_body hostsResponse) |}.

Definition getGameIcon (w : World) : M Response.t :=
  mret (json_response 200 (envelope 200 EmptyString (unix_time w) (VArr []))).

(** The pagination of a manifest whose [data.list] is truthy. *)
Definition paginate_manifest (d : object) (page pageSize : value) : result object :=
  let allItems := obj_get d "list" in
  total ← (if truthy (obj_get d "total") then Ret (obj_get d "total")
           else length_of allItems);
  pageNumber ← ToNumber page;
  size ← ToNumber pageSize;
  let startIndex := ((pageNumber - 1) * size)%Z in
  endIndex ← add_number startIndex pageSize;
  paginatedItems ← slice allItems startIndex (Some endIndex);
  let d := obj_define d "list" paginatedItems in
  let d := obj_define d "page" page in
  let d := obj_define d "pageSize" pageSize in
  Ret (obj_define d "total" total).

(** [data.list = data.components; delete data.components] when
    [data.components] is truthy. *)
Definition rename_components (d : object) : object :=
  if truthy (obj_get d "components") then
    obj_delete (obj_define d "list" (obj_get d "components")) "components"
  else d.

(** [components] renamed [list], then the pagination. *)
Definition reshape_manifest (manifestData page pageSize : value) : result value :=
  data ← get manifestData "data";
  match manifestData, data with
  | VObj o, VObj d =>
      let d := rename_components d in
      if truthy (obj_get d "list") then
        d ← paginate_manifest d page pageSize;
        Ret (VObj (obj_define o "data" (VObj d)))
      else Ret (VObj (obj_define o "data" (VObj d)))
  | _, _ => Ret manifestData
  end.

Definition getComponentList (w : World) (request : Request.t) : M Response.t :=
  body ← lift (Request.json request);
  type ← lift (get body "type");
  page ← lift (get body "page");
  let page := or_else page (VNum 1) in
  pageSize ← lift (get body "page_size");
  let pageSize := or_else pageSize (VNum 10) in
  manifest ← (if truthy type then lift (manifest_of type) else mret None);
  match manifest with
  | None =>
      mret (json_response 400
              (VObj [("code", VNum 400); ("msg", VStr "Invalid type parameter")]))
  | Some manifest =>
      response ← fetch_url w (GITHUB_BASE +:+ manifest);
      if negb (http_ok response) then
        mret (json_response 500
                (VObj [("code", VNum 500); ("msg", VStr "Failed to fetch manifest")]))
      else
        manifestData ← lift (JSON.parse (http_body response));
        manifestData ← lift (reshape_manifest manifestData page pageSize);
        mret (json_response 200 manifestData)
  end.

(** Every other request goes to the static host, under the same path. *)
Definition proxy_to_github (w : World) (url : URL.t) : M Response.t :=
  githubResponse ← fetch_url w (GITHUB_BASE +:+ URL.pathname url);
  mret {| Response.status := http_status githubResponse;
          Response.headers := Headers_of (http_headers githubResponse ++ allHeaders);
          Response.body := Some (http_body githubResponse) |}.

(** *** Dispatch *)

Definition method_is (request : Request.t) (method : string) : bool :=
  String.eqb (Request.method request) method.

Definition dispatch (w : World) (url : URL.t) (request : Request.t)
    (bodyText : string) : M Response.t :=
  let path := URL.pathname url in
  if String.eqb path "/card/getGameDetail" then
    getGameDetail w url request bodyText
  else if String.eqb path "/search/getGameList" && method_is request "POST" then
    getGameList w request bodyText
  else if String.eqb path "/card/getNewsList" && method_is request "POST" then
    getNewsList w request
  else if String.eqb path "/card/getNewsGuideDetail" && method_is request "POST" then
    getNewsGuideDetail w request
  else if String.eqb path "/card/getIndexList"
          && (method_is request "POST" || method_is request "GET") then
    getIndexList w request
  else if String.eqb path "/card/more" && method_is request "POST" then
    card_more w request
  else if String.eqb path "/simulator/executeScript" && method_is request "POST" then
    forward_as_is w "https://landscape-api.vgabc.com/simulator/executeScript"
      request bodyText
  else if String.eqb path "/base/getBaseInfo" && method_is request "POST" then
    static_json w (GITHUB_BASE +:+ "/base/getBaseInfo") "Failed to fetch base info"
  else if String.eqb path "/cloud/game/check_user_timer" && method_is request "POST" then
    forward_as_is w "https://landscape-api.vgabc.com/cloud/game/check_user_timer"
      request bodyText
  else if String.eqb path "/game/getDnsIpPool" && method_is request "POST" then
    static_json w (GITHUB_BASE +:+ "/game/getDnsIpPool") "Failed to fetch DNS pool"
  else if String.eqb path "/game/getSteamHost" && method_is request "GET" then
    getSteamHost w
  else if String.eqb path "/card/getGameIcon" && method_is request "POST" then
    getGameIcon w
  else if String.eqb path "/simulator/v2/getComponentList" && method_is request "POST" then
    getComponentList w request
  else proxy_to_github w url.

(** *** The handler *)

(** The outermost [catch]: a generic 500 that carries the message. *)
Definition internal_error (message : string) : M Response.t :=
  mret (json_response 500
          (VObj [("code", VNum 500); ("msg", VStr ("Error: " +:+ message))])).

Definition fetch (w : World) (request : Request.t) : M Response.t :=
  let url := Request.url request in
  if method_is request "OPTIONS" then
    mret {| Response.status := 200;
            Response.headers := Headers_of allHeaders;
            Response.body := None |}
  else
    try_catch
      ('(request, bodyText) ← token_interception w request;
       dispatch w url request bodyText)
      internal_error.

End Worker.

(** ** The signature in the words of the specification *)

(** A field rendered [key=value]. *)
Definition render_pair (kv : string * string) : string :=
  kv.1 +:+ "=" +:+ kv.2.

(** The canonical pairs of a parameter map: every field except [sign],
    sorted by key, each value rendered as a string. *)
Definition canonical_pairs (params : object) (kvs : list (string * string)) : Prop :=
  kvs.*1 ≡ₚ filter (λ k, k ≠ "sign") (Object_keys params)
  ∧ StronglySorted String.le kvs.*1
  ∧ Forall (λ kv, ToString (obj_get params kv.1) = Ret kv.2) kvs.

(** The pairs joined with [&], then [&] and the shared secret. *)
Definition sign_string (kvs : list (string * string)) : string :=
  Str.join "&" (render_pair <$> kvs) +:+ "&" +:+ GAMEHUB_SECRET_KEY.

(** A letter that has a lower-case form among the code units below 256:
    [A] to [Z], and the accented capitals [192] to [222] except the
    multiplication sign. *)
Definition upper_case (c : ascii) : bool :=
  let n := Ascii.N_of_ascii c in
  ((65 <=? n)%N && (n <=? 90)%N)
  || ((192 <=? n)%N && (n <=? 222)%N && negb (n =? 215)%N).

(** [b] is [a] in lower case: the letter 32 code units further for an
    upper-case letter, [a] itself otherwise. *)
Definition lower_case_of (a b : ascii) : Prop :=
  if upper_case a then Ascii.N_of_ascii b = (Ascii.N_of_ascii a + 32)%N else b = a.

(** [lowered] is [digest] in lower case, character by character. *)
Definition lower_case (digest lowered : string) : Prop :=
  Forall2 lower_case_of
    (String.list_ascii_of_string digest) (String.list_ascii_of_string lowered).

(** ** The rewritten headers in the words of the specification *)

(** A string of tabs, line feeds, carriage returns and spaces. *)
Definition whitespace_only (s : string) : Prop :=
  Forall (λ c, c ∈ ["009"; "010"; "013"; " "]%char) (String.list_ascii_of_string s).

(** A string that neither starts nor ends with such a character. *)
Definition no_outer_whitespace (s : string) : Prop :=
  (∀ c, head (String.list_ascii_of_string s) = Some c →
        c ∉ ["009"; "010"; "013"; " "]%char)
  ∧ (∀ c, last (String.list_ascii_of_string s) = Some c →
          c ∉ ["009"; "010"; "013"; " "]%char).

(** [stored] is [v] without the whitespace around it. *)
Definition trimmed (v stored : string) : Prop :=
  ∃ before after,
    v = before +:+ stored +:+ after
    ∧ whitespace_only before ∧ whitespace_only after
    ∧ no_outer_whitespace stored.

(** A string without NUL, line feed and carriage return. *)
Definition single_line (s : string) : Prop :=
  Forall (λ c, c ∉ ["000"; "010"; "013"]%char) (String.list_ascii_of_string s).

(** The values that the rewrite writes into the headers: the
    [Authorization] header with its first placeholder replaced, when the
    placeholder occurs there, and the replacement itself, when the [token]
    header is the placeholder. *)
Definition written_values (h : Headers) (replacement : string) : list string :=
  ((if header_includes h "Authorization" PLACEHOLDER then
      [Str.replace (default EmptyString (Headers_get h "Authorization"))
         PLACEHOLDER replacement]
    else [])
   ++ (if bool_decide (Headers_get h "token" = Some PLACEHOLDER) then [replacement]
       else []))%list.

(** The headers can take the replacement: every value written is legal
    once normalised. *)
Definition writable (h : Headers) (replacement : string) : bool :=
  forallb (λ v, legal_value (normalize_value v)) (written_values h replacement).

(** The placeholder replaced in the [Authorization] header when it
    occurs there, and in the [token] header when it is its value, each
    value stored normalised. *)
Definition replaced_headers (h : Headers) (replacement : string) : Headers :=
  let h :=
    if header_includes h "Authorization" PLACEHOLDER then
      header_list_set h "Authorization"
        (normalize_value
           (Str.replace (default EmptyString (Headers_get h "Authorization"))
              PLACEHOLDER replacement))
    else h in
  if bool_decide (Headers_get h "token" = Some PLACEHOLDER) then
    header_list_set h "token" (normalize_value replacement)
  else h.

(** The body of the documented example. *)
Definition example_body : string :=
  JSON.text "{'token':'fake-token','sign':'x','time':'1760032301893','app_id':'585690'}".

(** ** The dispatch table in the words of the specification *)

(** The known paths, each with the methods it is restricted to. *)
Definition dispatch_table : list (string * list string) :=
  [ ("/card/getGameDetail", ["GET"; "POST"]);
    ("/search/getGameList", ["POST"]);
    ("/card/getNewsList", ["POST"]);
    ("/card/getNewsGuideDetail", ["POST"]);
    ("/card/getIndexList", ["POST"; "GET"]);
    ("/card/more", ["POST"]);
    ("/simulator/executeScript", ["POST"]);
    ("/base/getBaseInfo", ["POST"]);
    ("/cloud/game/check_user_timer", ["POST"]);
    ("/game/getDnsIpPool", ["POST"]);
    ("/game/getSteamHost", ["GET"]);
    ("/card/getGameIcon", ["POST"]);
    ("/simulator/v2/getComponentList", ["POST"]) ].

(** The answer to a method that a path does not allow, as the
    specification has it. *)
Definition method_not_allowed : Response.t :=
  json_response 405 (envelope 405 "Method not allowed" EmptyString VNull).

(** The request that the fall-through sends to the static host. *)
Definition github_request (url : URL.t) : FetchCall :=
  get_request (GITHUB_BASE +:+ URL.pathname url).

(** ** Filtering and pagination in the words of the specification *)

(** A value with properties to read: neither [null] nor [undefined]. *)
Definition defined (v : value) : Prop := v ≠ VNull ∧ v ≠ VUndefined.

(** [v.k] where reading cannot throw. *)
Definition prop (v : value) (k : string) : value :=
  match v with
  | VObj o => obj_get o k
  | _ => VUndefined
  end.

(** An item with a present, non-["0"], non-empty [steam_appid]. *)
Definition has_steam_appid (game : value) : bool :=
  let steam_appid := prop game "steam_appid" in
  truthy steam_appid
  && negb (strict_eq steam_appid (VStr "0"))
  && negb (strict_eq steam_appid (VStr EmptyString)).

(** The entry of the id list derived from an item. *)
Definition id_entry (game : value) : value :=
  VObj [("steam_app_id", prop game "steam_appid"); ("game_id", prop game "id")].

(** The total that goes with a filtered list of [n] items. *)
Definition total_of (n : nat) : value :=
  VArr [VObj [("classify_group_id", VNum 0); ("count", VNum (Z.of_nat n))]].

(** [r] is the half-open window [[lo, hi)] of [l]: its element [i] is the
    element of [l] at index [lo + i] as long as [lo + i < hi], and it has
    no other element. *)
Definition half_open_window {A} (l : list A) (lo hi : nat) (r : list A) : Prop :=
  ∀ i : nat, r !! i = if decide (lo + i < hi) then l !! (lo + i) else None.

(** ** A reference digest *)

Module MD5.

(** Modelled from the spec: [md5] of [./md5.js] is not among the sources.
    The spec has it compute a 128-bit digest returned in hexadecimal; this
    is MD5 as RFC 1321 defines it, over the code units of the string taken
    as bytes. It stands for the variable [md5] in the concrete examples;
    no general statement depends on it. *)

Definition wrap (x : Z) : Z := (x mod 2 ^ 32)%Z.

Definition rotl (x c : Z) : Z :=
  Z.lor (wrap (Z.shiftl x c)) (Z.shiftr x (32 - c)).

Definition lnot32 (x : Z) : Z := Z.lxor x 4294967295.

Definition K : list Z :=
  [ 3614090360; 3905402710; 606105819; 3250441966;
    4118548399; 1200080426; 2821735955; 4249261313;
    1770035416; 2336552879; 4294925233; 2304563134;
    1804603682; 4254626195; 2792965006; 1236535329;
    4129170786; 3225465664; 643717713; 3921069994;
    3593408605; 38016083; 3634488961; 3889429448;
    568446438; 3275163606; 4107603335; 1163531501;
    2850285829; 4243563512; 1735328473; 2368359562;
    4294588738; 2272392833; 1839030562; 4259657740;
    2763975236; 1272893353; 4139469664; 3200236656;
    681279174; 3936430074; 3572445317; 76029189;
    3654602809; 3873151461; 530742520; 3299628645;
    4096336452; 1126891415; 2878612391; 4237533241;
    1700485571; 2399980690; 4293915773; 2240044497;
    1873313359; 4264355552; 2734768916; 1309151649;
    4149444226; 3174756917; 718787259; 3951481745 ]%Z.

Definition shifts : list Z :=
  [ 7; 12; 17; 22; 7; 12; 17; 22; 7; 12; 17; 22; 7; 12; 17; 22;
    5; 9; 14; 20; 5; 9; 14; 20; 5; 9; 14; 20; 5; 9; 14; 20;
    4; 11; 16; 23; 4; 11; 16; 23; 4; 11; 16; 23; 4; 11; 16; 23;
    6; 10; 15; 21; 6; 10; 15; 21; 6; 10; 15; 21; 6; 10; 15; 21 ]%Z.

Definition bytes_of (s : string) : list Z :=
  (λ c, Z.of_N (Ascii.N_of_ascii c)) <$> String.list_ascii_of_string s.

(** [n] bytes of [x], least significant first. *)
Fixpoint little_endian (n : nat) (x : Z) : list Z :=
  match n with
  | O => []
  | S n' => (x mod 256)%Z :: little_endian n' (x / 256)%Z
  end.

Definition pad (msg : list Z) : list Z :=
  let len := length msg in
  let zeros := ((55 + 64 - len mod 64) mod 64)%nat in
  msg ++ [128%Z] ++ replicate zeros 0%Z
      ++ little_endian 8 (8 * Z.of_nat len)%Z.

Fixpoint word_of (bytes : list Z) : Z :=
  match bytes with
  | [] => 0
  | b :: r => b + 256 * word_of r
  end%Z.

(** The sixteen words of a block, and the blocks after it. *)
Fixpoint words (n : nat) (bytes : list Z) : list Z :=
  match n with
  | O => []
  | S n' => word_of (take 4 bytes) :: words n' (drop 4 bytes)
  end.

Definition step (m : list Z) (st : Z * Z * Z * Z) (i : nat) : Z * Z * Z * Z :=
  let '(a, b, c, d) := st in
  let '(f, g) :=
    if (i <? 16)%nat then (Z.lor (Z.land b c) (Z.land (lnot32 b) d), i)
    else if (i <? 32)%nat then
      (Z.lor (Z.land d b) (Z.land (lnot32 d) c), ((5 * i + 1) mod 16)%nat)
    else if (i <? 48)%nat then (Z.lxor b (Z.lxor c d), ((3 * i + 5) mod 16)%nat)
    else (Z.lxor c (Z.lor b (lnot32 d)), ((7 * i) mod 16)%nat) in
  let x := wrap (a + f + default 0%Z (K !! i) + default 0%Z (m !! g)) in
  (d, wrap (b + rotl x (default 0%Z (shifts !! i))), b, c).

Definition block (st : Z * Z * Z * Z) (m : list Z) : Z * Z * Z * Z :=
  let '(a0, b0, c0, d0) := st in
  let '(a, b, c, d) := foldl (step m) st (seq 0 64) in
  (wrap (a0 + a), wrap (b0 + b), wrap (c0 + c), wrap (d0 + d)).

Fixpoint blocks (n : nat) (st : Z * Z * Z * Z) (bytes : list Z) : Z * Z * Z * Z :=
  match n with
  | O => st
  | S n' => blocks n' (block st (words 16 (take 64 bytes))) (drop 64 bytes)
  end.

Definition hex_byte (b : Z) : string :=
  String (JSON.hex_digit (Z.to_N (b / 16)))
    (String (JSON.hex_digit (Z.to_N (b mod 16))) EmptyString).

Definition md5 (s : string) : string :=
  let bytes := pad (bytes_of s) in
  let '(a, b, c, d) :=
    blocks (length bytes / 64)
      (1732584193, 4023233417, 2562383102, 271733878)%Z bytes in
  String.concat EmptyString
    (hex_byte <$> (little_endian 4 a ++ little_endian 4 b
                   ++ little_endian 4 c ++ little_endian 4 d)%list).

End MD5.

(** ** Concrete worlds and requests *)

Module Examples.

Definition url (path : string) (query : list (string * string)) : URL.t :=
  {| URL.href := WORKER_URL +:+ path;
     URL.pathname := path;
     URL.searchParams := query |}.

Definition answer (status : Z) (body : string) : result HttpResponse :=
  Ret {| http_status := status;
         http_headers := [("content-type", "application/json")];
         http_body := body |}.

Definition topics : string :=
  JSON.text
    ("{'data':[{'id':7,'title':'Free','display_card_num':2,"
     +:+ "'card_list':[{'n':1},{'n':2},{'n':3},{'n':4},{'n':5},{'n':6},{'n':7}]}]}").

Definition search_answer : string :=
  JSON.text
    ("{'code':0,'data':{'list':[{'id':1,'steam_appid':'730'},"
     +:+ "{'id':2,'steam_appid':'0'},{'id':3,'steam_appid':'570'}],"
     +:+ "'total':[{'classify_group_id':0,'count':3},{'classify_group_id':2,'count':1}],"
     +:+ "'all_game_ids':[{'steam_app_id':'730','game_id':1},"
     +:+ "{'steam_app_id':'0','game_id':2},{'steam_app_id':'570','game_id':3}]}}").

Definition manifest : string :=
  JSON.text
    "{'code':200,'data':{'components':[{'n':1},{'n':2},{'n':3},{'n':4},{'n':5},{'n':6},{'n':7}]}}".

(** A network in which every collaborator answers. *)
Definition online (c : FetchCall) : result HttpResponse :=
  if String.eqb (call_url c) "https://token-refresher.example/token" then
    answer 200 (JSON.text "{'token':'real-token-2'}")
  else if String.eqb (call_url c) "https://landscape-api.vgabc.com/card/getGameDetail" then
    answer 200 (JSON.text "{'code':0,'data':{'name':'g','recommend_game':[1]}}")
  else if String.eqb (call_url c) "https://landscape-api.vgabc.com/search/getGameList" then
    answer 200 search_answer
  else if String.eqb (call_url c) (GITHUB_BASE +:+ "/base/getBaseInfo") then
    answer 200 (JSON.text "{'code':200,'data':{'version':1}}")
  else if String.eqb (call_url c) (GITHUB_BASE +:+ "/components/dxvk_manifest") then
    answer 200 manifest
  else answer 404 "404: Not Found".

(** A network in which the token refresher answers with a page that is not
    JSON. *)
Definition refresher_broken (c : FetchCall) : result HttpResponse :=
  if String.eqb (call_url c) "https://token-refresher.example/token" then
    answer 200 "<html>starting</html>"
  else online c.

(** A network in which the token refresher refuses. *)
Definition refresher_down (c : FetchCall) : result HttpResponse :=
  if String.eqb (call_url c) "https://token-refresher.example/token" then
    answer 503 "unavailable"
  else online c.

Definition token_store (key : string) : option string :=
  if String.eqb key "gamehub_token" then
    Some (JSON.text "{'token':'real-token-1','expires':1760035901}")
  else None.

Definition free_games (key : string) : option string :=
  if String.eqb key "free_games_data" then Some topics else None.

Definition world (store games : string → option string)
    (net : FetchCall → result HttpResponse) : World :=
  {| TOKEN_STORE_get := store;
     FREE_GAMES_KV_get := games;
     TOKEN_REFRESHER_URL := "https://token-refresher.example";
     network := net;
     Date_now := 1760032301893 |}.

Definition empty_store (key : string) : option string := None.

Definition json_headers : Headers :=
  Headers_of [("Content-Type", "application/json"); ("token", "fake-token")].

Definition plain_headers : Headers :=
  Headers_of [("Content-Type", "application/json"); ("token", "client-token")].

Definition post (path body : string) (h : Headers) : Request.t :=
  {| Request.url := url path [];
     Request.method := "POST";
     Request.headers := h;
     Request.body := Some body |}.

Definition get (path : string) (query : list (string * string)) (h : Headers)
  : Request.t :=
  {| Request.url := url path query;
     Request.method := "GET";
     Request.headers := h;
     Request.body := None |}.

(** A network in which the search answers with a list and a zero total. *)
Definition search_zero_total (c : FetchCall) : result HttpResponse :=
  if String.eqb (call_url c) "https://landscape-api.vgabc.com/search/getGameList" then
    answer 200
      (JSON.text
         "{'code':0,'data':{'list':[{'id':1,'steam_appid':'730'},{'id':2,'steam_appid':'0'}],'total':0}}")
  else online c.

Definition w_online : World := world token_store free_games online.
Definition w_refresher_broken : World := world empty_store free_games refresher_broken.
Definition w_refresher_down : World := world empty_store free_games refresher_down.
Definition w_no_games : World := world token_store empty_store online.
Definition w_zero_total : World := world token_store free_games search_zero_total.

Definition signed_post : Request.t :=
  post "/card/getGameDetail" example_body json_headers.
Definition truncated_post : Request.t :=
  post "/card/getGameDetail" (JSON.text "{'token':'fake-token',") json_headers.
Definition search_post : Request.t :=
  post "/search/getGameList" example_body json_headers.
Definition search_plain : Request.t :=
  post "/search/getGameList" (JSON.text "{'keyword':'a'}") plain_headers.
Definition more_post (body : string) : Request.t :=
  post "/card/more" (JSON.text body) plain_headers.
Definition more_page_2 : Request.t := more_post "{'id':7,'page':2,'page_size':3}".
Definition more_page_minus_1 : Request.t := more_post "{'id':7,'page':-1,'page_size':3}".
Definition more_first_page : Request.t := more_post "{'id':7}".
Definition components_post : Request.t :=
  post "/simulator/v2/getComponentList"
    (JSON.text "{'type':3,'page':2,'page_size':3}") plain_headers.
Definition get_base_info : Request.t := get "/base/getBaseInfo" [] plain_headers.
Definition put_game_detail : Request.t :=
  {| Request.url := url "/card/getGameDetail" [];
     Request.method := "PUT";
     Request.headers := plain_headers;
     Request.body := Some "x" |}.
Definition get_game : Request.t :=
  get "/card/getGameDetail" [("app_id", "8870"); ("lang", "en")] plain_headers.
Definition get_game_empty : Request.t :=
  get "/card/getGameDetail" [("app_id", EmptyString)] plain_headers.
Definition get_index : Request.t :=
  get "/card/getIndexList" [("topic_type", "2")] plain_headers.

(** The documented body once re-signed with the token of [token_store]. *)
Definition signed_fields : object :=
  [("token", VStr "real-token-1"); ("sign", VStr "x");
   ("time", VStr "1760032301893"); ("app_id", VStr "585690")].
Definition signed_body : string :=
  JSON.text
    "{'token':'real-token-1','sign':'0a370c273ef7d9eb08346085518094fd','time':'1760032301893','app_id':'585690'}".

Definition card (n : Z) : value := VObj [("n", VNum n)].

(** The data that [/card/more] returns for the stored topic. *)
Definition more_data (page : Z) (cards : list value) : object :=
  [("id", VNum 7);
   ("title", VStr "Free");
   ("aspect_ratio", VUndefined);
   ("fixed_card_size", VUndefined);
   ("is_play_video", VUndefined);
   ("page", VNum page);
   ("page_size", VNum 3);
   ("is_vertical", VUndefined);
   ("is_text_outside", VUndefined);
   ("card_list", VArr cards)].

(** The answer of [online] to a search, parsed. *)
Definition search_object : object :=
  Eval vm_compute in
    match JSON.parse search_answer with
    | Ret (VObj o) => o
    | _ => []
    end.

Definition steam_games : list value :=
  [VObj [("id", VNum 1); ("steam_appid", VStr "730")];
   VObj [("id", VNum 3); ("steam_appid", VStr "570")]].

End Examples.

(** ** Further notions used by the properties of the endpoints *)

(** A response that carries each of the fixed CORS and no-cache headers
    with exactly its fixed value. *)
Definition carries_all_headers (response : Response.t) : Prop :=
  Forall (λ nv, Headers_get (Response.headers response) nv.1 = Some nv.2) allHeaders.

(** A computation all of whose responses carry the fixed headers. *)
Definition uniform (m : M Response.t) : Prop :=
  ∀ response, outcome m = Ret response → carries_all_headers response.


(** ** More concrete worlds and requests *)

Module Samples.

(** A store whose record has no [token] field. *)
Definition store_without_token (key : string) : option string :=
  if String.eqb key "gamehub_token" then Some (JSON.text "{'expires':1760035901}")
  else None.

Definition w_no_token_field : World :=
  Examples.world store_without_token Examples.free_games Examples.online.

(** A GET whose [token] header is the placeholder. *)
Definition get_with_placeholder : Request.t :=
  Examples.get "/card/getGameDetail" [("app_id", "8870")] Examples.json_headers.

(** A POST of plain text whose [token] header is the placeholder. *)
Definition text_post : Request.t :=
  {| Request.url := Examples.url "/simulator/executeScript" [];
     Request.method := "POST";
     Request.headers :=
       Headers_of [("Content-Type", "text/plain"); ("token", "fake-token");
                   ("X-Client", "5.1.0")];
     Request.body := Some "run" |}.

(** A store whose token has spaces around it, and one whose token holds
    a line feed. *)
Definition padded_token (key : string) : option string :=
  if String.eqb key "gamehub_token" then Some (JSON.text "{'token':' real-token-3 '}")
  else None.
Definition broken_token (key : string) : option string :=
  if String.eqb key "gamehub_token" then Some (JSON.text "{'token':'real\ntoken'}")
  else None.

Definition w_padded_token : World :=
  Examples.world padded_token Examples.free_games Examples.online.
Definition w_broken_token : World :=
  Examples.world broken_token Examples.free_games Examples.online.

(** A world with no token in the store, a token refresher that answers
    with a page, and no free games; and the index list asked for with the
    placeholder in the [token] header. *)
Definition w_nothing : World :=
  Examples.world Examples.empty_store Examples.empty_store Examples.refresher_broken.
Definition get_index_placeholder : Request.t :=
  Examples.get "/card/getIndexList" [("topic_type", "2")] Examples.json_headers.

(** A hexadecimal digest with its letters in upper case. *)
Fixpoint upper_hex (s : string) : string :=
  match s with
  | EmptyString => EmptyString
  | String c r =>
      let n := Ascii.N_of_ascii c in
      String (if (97 <=? n)%N && (n <=? 102)%N then Ascii.ascii_of_N (n - 32) else c)
             (upper_hex r)
  end.

(** A network in which the search upstream answers with a page. *)
Definition search_html (c : FetchCall) : result HttpResponse :=
  if String.eqb (call_url c) "https://landscape-api.vgabc.com/search/getGameList" then
    Examples.answer 502 "<html>Bad Gateway</html>"
  else Examples.online c.

Definition w_search_html : World :=
  Examples.world Examples.token_store Examples.free_games search_html.

(** The documented body sent with the placeholder in both headers. *)
Definition bearer_post : Request.t :=
  Examples.post "/card/getGameDetail" example_body
    (Headers_of [("Content-Type", "application/json");
                 ("Authorization", "Bearer fake-token");
                 ("token", "fake-token")]).

(** A GET for a document of the static host, with the placeholder in
    its [token] header. *)
Definition get_manifest : Request.t :=
  Examples.get "/components/dxvk_manifest" [] Examples.json_headers.

(** A POST to the game-detail endpoint that holds no placeholder. *)
Definition detail_body : string := JSON.text "{'app_id':'8870'}".
Definition detail_post : Request.t :=
  Examples.post "/card/getGameDetail" detail_body Examples.plain_headers.

(** A network in which the game-detail upstream answers with a page. *)
Definition detail_html (c : FetchCall) : result HttpResponse :=
  if String.eqb (call_url c) "https://landscape-api.vgabc.com/card/getGameDetail" then
    Examples.answer 502 "<html>Bad Gateway</html>"
  else Examples.online c.

Definition w_detail_html : World :=
  Examples.world Examples.token_store Examples.free_games detail_html.

(** A request for a component type that does not exist. *)
Definition components_type_8 : Request.t :=
  Examples.post "/simulator/v2/getComponentList" (JSON.text "{'type':8}")
    Examples.plain_headers.

(** A request for the news whose page is 0. *)
Definition news_page_0 : Request.t :=
  Examples.post "/card/getNewsList" (JSON.text "{'page':0}") Examples.plain_headers.

(** A network in which the static host has a hosts file. *)
Definition hosts (c : FetchCall) : result HttpResponse :=
  if String.eqb (call_url c) (GITHUB_BASE +:+ "/game/getSteamHost/index") then
    Examples.answer 200 "23.1.2.3 store.steampowered.com"
  else Examples.online c.

Definition w_hosts : World :=
  Examples.world Examples.token_store Examples.free_games hosts.

Definition get_hosts : Request.t :=
  Examples.get "/game/getSteamHost" [] Examples.plain_headers.

End Samples.

(** ** The answer of the static host, relayed *)

(** [response] is the answer [r] of the static host to the plain GET for
    the path of [url], with its status and body, and with the fixed headers
    appended to its own. *)
Definition relayed (w : World) (url : URL.t) (response : Response.t) : Prop :=
  ∃ r, network w (github_request url) = Ret r
       ∧ response = {| Response.status := http_status r;
                       Response.headers := Headers_of (http_headers r ++ allHeaders);
                       Response.body := Some (http_body r) |}.

(** ** Statuses and outbound calls *)

(** A computation whose responses have a status among [statuses]. *)
Definition answers_within (statuses : list Z) (m : M Response.t) : Prop :=
  ∀ response, outcome m = Ret response → Response.status response ∈ statuses.

(** A computation that returns a response whose status is among
    [statuses], or throws, or leaves the embedding. *)
Definition returns_or_throws (statuses : list Z) (m : M Response.t) : Prop :=
  (∃ response, outcome m = Ret response ∧ Response.status response ∈ statuses)
  ∨ (∃ message, outcome m = Throw message)
  ∨ outcome m = Outside.

(** A computation that issues at most [n] outbound calls. *)
Definition issues_at_most {A} (n : nat) (m : M A) : Prop :=
  (length (calls m) ≤ n)%nat.

(** ** The topics of the index list *)

(** A topic with its [card_list] cut to the first [display_card_num]
    cards, all of them when the topic has no [display_card_num]; [None] for
    anything that is not a topic with a list of cards and such a number. *)
Definition first_cards (topic : value) : option value :=
  match topic with
  | VObj t =>
      match obj_get t "card_list", obj_get t "display_card_num" with
      | VArr cards, VNum n =>
          if (0 <=? n)%Z then
            Some (VObj (obj_define t "card_list" (VArr (take (Z.to_nat n) cards))))
          else None
      | VArr cards, VUndefined => Some (VObj (obj_define t "card_list" (VArr cards)))
      | _, _ => None
      end
  | _ => None
  end.

(** ** The rendering of numbers *)

(** A string that starts as the rendering of an integer does: with a
    digit or a minus sign. *)
Definition numeric_head (s : string) : bool :=
  match s with
  | String c _ => bool_decide (is_Some (digit_val c)) || Ascii.eqb c "-"
  | EmptyString => false
  end.

(** * Properties *)

(** Comparisons of string literals, evaluated. *)
Ltac literal_eqb := cbn [String.eqb Ascii.eqb Bool.eqb andb orb negb].

(** ** The outcome monad and the objects *)

Lemma mapM_result_cons {A B} (f : A → result B) (x : A) (l : list A) :
  mapM f (x :: l) = y ← f x; k ← mapM f l; mret (y :: k).
Proof. done. Qed.

Lemma mapM_result_ext {A B} (f g : A → result B) (l : list A) :
  Forall (λ x, f x = g x) l → mapM f l = mapM g l.
Proof.
  induction 1 as [|x l Hx _ IH]; [done|].
  cbn. rewrite Hx. destruct (g x); [|done..]. cbn.
  by rewrite IH.
Qed.

Lemma filter_keys (P : string → Prop) `{!∀ k, Decision (P k)} (o : object) :
  filter P o.*1 = (filter (λ kv, P kv.1) o).*1.
Proof.
  induction o as [|[k v] o IH]; [done|].
  rewrite fmap_cons, !filter_cons. cbn. destruct (decide (P k)); cbn; by rewrite IH.
Qed.

Lemma obj_get_elem (o : object) (k : string) (v : value) :
  NoDup o.*1 → (k, v) ∈ o → obj_get o k = v.
Proof.
  induction o as [|[k' v'] o IH]; intros Hnd Hin.
  - by apply elem_of_nil in Hin.
  - apply NoDup_cons in Hnd as [Hk' Hnd]. cbn.
    apply elem_of_cons in Hin as [Heq|Hin].
    + injection Heq as -> ->. by rewrite String.eqb_refl.
    + destruct (String.eqb_spec k' k) as [->|_]; [|by apply IH].
      exfalso. apply Hk'. apply list_elem_of_fmap. by exists (k, v).
Qed.

Lemma merge_sort_keys_Permutation (l1 l2 : list string) :
  l1 ≡ₚ l2 → merge_sort String.le l1 = merge_sort String.le l2.
Proof.
  intros Hp. apply (StronglySorted_unique String.le).
  - apply (StronglySorted_merge_sort String.le).
  - apply (StronglySorted_merge_sort String.le).
  - by rewrite !(merge_sort_Permutation String.le).
Qed.

Lemma obj_get_notin (o : object) (k : string) :
  k ∉ o.*1 → obj_get o k = VUndefined.
Proof.
  induction o as [|[k' v'] o IH]; [done|]. cbn. intros Hnot.
  apply not_elem_of_cons in Hnot as [Hne Hnot].
  destruct (String.eqb_spec k' k) as [->|_]; [done|]. by apply IH.
Qed.

Lemma obj_get_replace (o : object) (k k' : string) (v : value) :
  k ∈ o.*1 →
  obj_get (obj_replace o k v) k' = if String.eqb k k' then v else obj_get o k'.
Proof.
  induction o as [|[k1 v1] o IH]; cbn; intros Hin.
  - by apply elem_of_nil in Hin.
  - destruct (String.eqb_spec k1 k) as [->|Hne]; cbn.
    + by destruct (String.eqb_spec k k').
    + apply elem_of_cons in Hin as [->|Hin]; [done|]. rewrite (IH Hin).
      destruct (String.eqb_spec k1 k') as [->|_]; [|done].
      by destruct (String.eqb_spec k k').
Qed.

Lemma obj_get_insert_index (o : object) (i : N) (k k' : string) (v : value) :
  k ∉ o.*1 →
  obj_get (obj_insert_index o i k v) k' = if String.eqb k k' then v else obj_get o k'.
Proof.
  induction o as [|[k1 v1] o IH]; cbn; intros Hnot; [done|].
  apply not_elem_of_cons in Hnot as [Hne Hnot].
  destruct (array_index k1) as [j|]; [destruct (j <? i)%N|]; cbn; [|done..].
  rewrite (IH Hnot). destruct (String.eqb_spec k1 k') as [->|_]; [|done].
  by destruct (String.eqb_spec k k').
Qed.

Lemma obj_get_snoc (o : object) (k k' : string) (v : value) :
  k ∉ o.*1 →
  obj_get (o ++ [(k, v)]) k' = if String.eqb k k' then v else obj_get o k'.
Proof.
  induction o as [|[k1 v1] o IH]; cbn; intros Hnot; [done|].
  apply not_elem_of_cons in Hnot as [Hne Hnot].
  rewrite (IH Hnot). destruct (String.eqb_spec k1 k') as [->|_]; [|done].
  by destruct (String.eqb_spec k k').
Qed.

(** Reading a property after one has been defined. *)
Lemma obj_get_define (o : object) (k k' : string) (v : value) :
  obj_get (obj_define o k v) k' = if String.eqb k k' then v else obj_get o k'.
Proof.
  unfold obj_define, has_key. case_bool_decide as Hin.
  - by apply obj_get_replace.
  - destruct (array_index k); [by apply obj_get_insert_index|by apply obj_get_snoc].
Qed.

Lemma URL_get_snoc (params : list (string * string)) (k v name : string) :
  URL.get (params ++ [(k, v)]) name
  = match URL.get params name with
    | Some x => Some x
    | None => if String.eqb k name then Some v else None
    end.
Proof.
  induction params as [|[k1 v1] params IH]; cbn; [done|].
  by destruct (String.eqb k1 name).
Qed.

(** The body built from a query: [app_id] is the value that was read, and
    every other name holds the last value that the query gives it. *)
Lemma bodyParams_get (appId : string) (query : list (string * string)) (k : string) :
  k ≠ "__proto__" →
  obj_get (bodyParams appId query) k
  = if String.eqb k "app_id" then VStr appId
    else from_option VStr VUndefined (URL.get (reverse query) k).
Proof.
  intros Hproto. unfold bodyParams.
  assert (Hgen : ∀ acc,
    obj_get (foldl (λ o kv, if String.eqb kv.1 "app_id" then o
                            else assign_param o kv.1 kv.2) acc query) k
    = if String.eqb k "app_id" then obj_get acc k
      else match URL.get (reverse query) k with
           | Some v => VStr v
           | None => obj_get acc k
           end).
  { induction query as [|[k1 v1] query IH]; intros acc; cbn [foldl].
    - cbn. by destruct (String.eqb k "app_id").
    - rewrite IH, reverse_cons, URL_get_snoc. cbn [fst snd].
      destruct (String.eqb_spec k "app_id") as [->|Hk].
      + destruct (String.eqb_spec k1 "app_id") as [->|Hk1]; [done|].
        unfold assign_param. destruct (String.eqb k1 "__proto__"); [done|].
        rewrite obj_get_define. by destruct (String.eqb_spec k1 "app_id").
      + destruct (URL.get (reverse query) k); [done|].
        destruct (String.eqb_spec k1 "app_id") as [->|Hk1].
        * by destruct (String.eqb_spec "app_id" k).
        * unfold assign_param.
          destruct (String.eqb_spec k1 "__proto__") as [->|_].
          -- by destruct (String.eqb_spec "__proto__" k).
          -- rewrite obj_get_define. by destruct (String.eqb k1 k). }
  rewrite Hgen. cbn [obj_get].
  destruct (String.eqb_spec k "app_id") as [->|Hk]; [done|].
  destruct (String.eqb_spec "app_id" k) as [Heq|_]; [by symmetry in Heq|].
  by destruct (URL.get (reverse query) k).
Qed.

(** ** The signer *)

Section SignerProperties.

Variable md5 : string → string.

Lemma lower_char_lower_case_of (c : ascii) : lower_case_of c (Str.lower_char c).
Proof. by destruct c as [[] [] [] [] [] [] [] []]. Qed.

Lemma toLowerCase_lower_case (s : string) : lower_case s (Str.toLowerCase s).
Proof.
  unfold lower_case. induction s as [|c s IH]; cbn; constructor; [|done].
  apply lower_char_lower_case_of.
Qed.

(** C8. Two parameter maps that hold the same key/value pairs, the [sign]
    field left aside, get the same signature whatever the order in which
    their fields were inserted. *)
Theorem generateSignature_insertion_order (p1 p2 : object) :
  NoDup (Object_keys p1) →
  NoDup (Object_keys p2) →
  filter (λ kv, kv.1 ≠ "sign") p1 ≡ₚ filter (λ kv, kv.1 ≠ "sign") p2 →
  generateSignature md5 p1 = generateSignature md5 p2.
Proof.
  unfold Object_keys. intros Hnd1 Hnd2 Hperm. unfold generateSignature.
  assert (Hkeys : filter (λ k, k ≠ "sign") p1.*1 ≡ₚ filter (λ k, k ≠ "sign") p2.*1).
  { rewrite !(filter_keys (λ k, k ≠ "sign")). by apply fmap_Permutation. }
  unfold Object_keys.
  rewrite (merge_sort_keys_Permutation _ _ Hkeys).
  set (sortedKeys := merge_sort String.le (filter (λ k, k ≠ "sign") p2.*1)).
  assert (Hext : Forall (λ key, key_value p1 key = key_value p2 key) sortedKeys).
  { apply Forall_forall. intros key Hkey. unfold key_value.
    assert (Hin : key ∈ filter (λ k, k ≠ "sign") p1.*1).
    { rewrite Hkeys. subst sortedKeys.
      by rewrite (merge_sort_Permutation String.le) in Hkey. }
    rewrite (filter_keys (λ k, k ≠ "sign")) in Hin.
    apply list_elem_of_fmap in Hin as [[k v] [-> Hkv]]. cbn.
    assert (Hkv2 : (k, v) ∈ filter (λ kv, kv.1 ≠ "sign") p2) by by rewrite <- Hperm.
    apply list_elem_of_filter in Hkv as [_ Hkv].
    apply list_elem_of_filter in Hkv2 as [_ Hkv2].
    by rewrite (obj_get_elem p1 k v), (obj_get_elem p2 k v). }
  by rewrite (mapM_result_ext _ _ _ Hext).
Qed.


Lemma mapM_key_value (params : object) (keys : list string) :
  Forall (λ k, ∃ s, ToString (obj_get params k) = Ret s) keys →
  ∃ kvs, kvs.*1 = keys
         ∧ Forall (λ kv, ToString (obj_get params kv.1) = Ret kv.2) kvs
         ∧ mapM (key_value params) keys = Ret (render_pair <$> kvs).
Proof.
  induction 1 as [|k keys [s Hs] _ (kvs & Hkeys & Hall & Hmap)].
  - by exists [].
  - exists ((k, s) :: kvs). split_and!.
    + cbn. by rewrite Hkeys.
    + by constructor.
    + rewrite mapM_result_cons, Hmap. unfold key_value. by rewrite Hs.
Qed.


End SignerProperties.

(** ** Computations *)

Lemma M_eta {A} (m : M A) : Run (outcome m) (calls m) = m.
Proof. by destruct m. Qed.

Lemma bind_ret {A B} (a : A) (f : A → M B) : mret a ≫= f = f a.
Proof. apply M_eta. Qed.

Lemma bind_lift_ret {A B} (a : A) (f : A → M B) : lift (Ret a) ≫= f = f a.
Proof. apply M_eta. Qed.

Lemma bind_lift_throw {A B} (e : string) (f : A → M B) :
  lift (Throw e) ≫= f = lift (Throw e).
Proof. done. Qed.

Lemma bind_run_ret {A B} (a : A) (cs : list FetchCall) (f : A → M B) :
  Run (Ret a) cs ≫= f = Run (outcome (f a)) (cs ++ calls (f a)).
Proof. done. Qed.

Lemma try_catch_ret {A} (a : A) (cs : list FetchCall) (h : string → M A) :
  try_catch (Run (Ret a) cs) h = Run (Ret a) cs.
Proof. done. Qed.

(** ** Token interception *)

Section InterceptionProperties.

Variable md5 : string → string.

Lemma shouldReplaceToken_false (request : Request.t) :
  header_includes (Request.headers request) "Authorization" PLACEHOLDER = false →
  Headers_get (Request.headers request) "token" ≠ Some PLACEHOLDER →
  Str.includes (json_body_text request) PLACEHOLDER = false →
  shouldReplaceToken request = false.
Proof.
  intros Hauth Htoken Hbody. unfold shouldReplaceToken.
  by rewrite Hauth, (bool_decide_eq_false_2 _ Htoken), Hbody.
Qed.

(** C9. A request in which the placeholder appears nowhere (not in the
    [Authorization] header, not as the value of the [token] header, not in
    the body of a JSON POST) goes through the interception unchanged and
    without any outbound call, and it is that very request that the
    dispatcher receives. *)
Theorem interception_identity_without_placeholder (w : World) (request : Request.t) :
  header_includes (Request.headers request) "Authorization" PLACEHOLDER = false →
  Headers_get (Request.headers request) "token" ≠ Some PLACEHOLDER →
  is_json_post request && Str.includes (Request.text request) PLACEHOLDER = false →
  token_interception md5 w request = mret (request, json_body_text request)
  ∧ (method_is request "OPTIONS" = false →
     fetch md5 w request
     = try_catch (dispatch w (Request.url request) request (json_body_text request))
         internal_error).
Proof.
  intros Hauth Htoken Hbody.
  assert (Hno : shouldReplaceToken request = false).
  { apply shouldReplaceToken_false; [done..|]. unfold json_body_text.
    destruct (is_json_post request); [done|]. by vm_compute. }
  assert (Hident : token_interception md5 w request
                   = mret (request, json_body_text request)).
  { unfold token_interception. by rewrite Hno. }
  split; [done|]. intros Hmethod. unfold fetch.
  by rewrite Hmethod, Hident, bind_ret.
Qed.

Lemma includes_placeholder_nonempty (s : string) :
  Str.includes s PLACEHOLDER = true → String.eqb s EmptyString = false.
Proof. by destruct s. Qed.

Lemma json_body_text_post (request : Request.t) :
  is_json_post request = true → json_body_text request = Request.text request.
Proof. unfold json_body_text. by intros ->. Qed.

Lemma http_whitespace_spec (c : ascii) :
  http_whitespace c = true ↔ c ∈ ["009"; "010"; "013"; " "]%char.
Proof.
  split.
  - destruct c as [[] [] [] [] [] [] [] []]; intros Hc; try done;
      repeat first [by left | right].
  - intros Hin. repeat (apply elem_of_cons in Hin as [->|Hin]; [done|]).
    by apply elem_of_nil in Hin.
Qed.

Lemma strip_leading_spec (s : string) :
  ∃ before, s = before +:+ strip_leading s ∧ whitespace_only before
            ∧ ∀ c, head (String.list_ascii_of_string (strip_leading s)) = Some c →
                   http_whitespace c = false.
Proof.
  induction s as [|c s (before & Heq & Hws & Hhead)].
  - exists EmptyString. split; [done|]. split; [constructor|done].
  - cbn. destruct (http_whitespace c) eqn:Hc.
    + exists (String c before).
      split; [change (String c s = String c (before +:+ strip_leading s)); by f_equal|].
      split; [|done].
      constructor; [by apply http_whitespace_spec|done].
    + exists EmptyString. split; [done|]. split; [constructor|].
      cbn. by intros c' [= <-].
Qed.

Lemma strip_trailing_spec (s : string) :
  ∃ after, s = strip_trailing s +:+ after ∧ whitespace_only after
           ∧ (∀ c, last (String.list_ascii_of_string (strip_trailing s)) = Some c →
                   http_whitespace c = false)
           ∧ (∀ c, head (String.list_ascii_of_string (strip_trailing s)) = Some c →
                   head (String.list_ascii_of_string s) = Some c).
Proof.
  induction s as [|c s (after & Heq & Hws & Hlast & Hhead)].
  - exists EmptyString. split; [done|]. split; [constructor|done].
  - cbn. destruct (strip_trailing s) as [|c' r'] eqn:Hstrip.
    + destruct (http_whitespace c) eqn:Hc.
      * exists (String c after). split; [by rewrite Heq|].
        split; [|done]. constructor; [by apply http_whitespace_spec|done].
      * exists after.
        split; [change (String c s = String c (EmptyString +:+ after)); by f_equal|].
        split; [done|].
        split; [by intros ? [= <-]|done].
    + exists after.
      split; [change (String c s = String c (String c' r' +:+ after)); by f_equal|].
      split; [done|]. split; [|done].
      intros c0 Hc0. apply Hlast. cbn in *. by destruct (String.list_ascii_of_string r').
Qed.

Lemma normalize_value_trimmed (v : string) : trimmed v (normalize_value v).
Proof.
  unfold normalize_value.
  destruct (strip_leading_spec v) as (before & Hbefore & Hws1 & Hhead).
  destruct (strip_trailing_spec (strip_leading v)) as (after & Hafter & Hws2 & Hlast & Hsame).
  exists before, after. split; [by rewrite <- Hafter|]. split; [done|]. split; [done|].
  split.
  - intros c Hc Hin. apply http_whitespace_spec in Hin.
    by rewrite (Hhead c (Hsame c Hc)) in Hin.
  - intros c Hc Hin. apply http_whitespace_spec in Hin. by rewrite (Hlast c Hc) in Hin.
Qed.

Lemma legal_value_single_line (v : string) : legal_value v = true ↔ single_line v.
Proof.
  unfold single_line. induction v as [|c v IH]; cbn.
  - split; [constructor|done].
  - rewrite andb_true_iff, IH, Forall_cons. apply and_iff_compat_r.
    split.
    + destruct c as [[] [] [] [] [] [] [] []]; intros Hc Hin; try done;
        repeat (apply elem_of_cons in Hin as [Hin|Hin]; [done|]);
        by apply elem_of_nil in Hin.
    + destruct c as [[] [] [] [] [] [] [] []]; intros Hc; try done;
        exfalso; apply Hc; repeat first [by left | right].
Qed.

Lemma Headers_set_legal (h : Headers) (name v : string) :
  legal_value (normalize_value v) = true →
  Headers_set h name v = Ret (header_list_set h name (normalize_value v)).
Proof. unfold Headers_set. by intros ->. Qed.

Lemma Headers_set_illegal (h : Headers) (name v : string) :
  legal_value (normalize_value v) = false →
  Headers_set h name v = Throw "Invalid header value".
Proof. unfold Headers_set. by intros ->. Qed.

Lemma Headers_set_content_type (h : Headers) :
  Headers_set h "Content-Type" "application/json"
  = Ret (header_list_set h "Content-Type" "application/json").
Proof. done. Qed.

Lemma Headers_get_set_other (h : Headers) (n v name : string) :
  header_name name ≠ header_name n →
  Headers_get (header_list_set h n v) name = Headers_get h name.
Proof.
  intros Hne. unfold Headers_get, header_list_set. by rewrite lookup_insert_ne.
Qed.

(** Headers that do not hold the placeholder take any token: nothing is
    written into them. *)
Lemma writable_without_header_placeholder (h : Headers) (T : string) :
  header_includes h "Authorization" PLACEHOLDER = false →
  Headers_get h "token" ≠ Some PLACEHOLDER →
  writable h T = true.
Proof.
  intros Hauth Htoken. unfold writable, written_values.
  by rewrite Hauth, (bool_decide_eq_false_2 _ Htoken).
Qed.

(** When only the [token] header holds the placeholder, the headers take
    the tokens that are a single line once trimmed. *)
Lemma writable_token_header (h : Headers) (T : string) :
  header_includes h "Authorization" PLACEHOLDER = false →
  Headers_get h "token" = Some PLACEHOLDER →
  writable h T = true ↔ single_line (normalize_value T).
Proof.
  intros Hauth Htoken. unfold writable, written_values.
  rewrite Hauth, (bool_decide_eq_true_2 _ Htoken). cbn. rewrite andb_true_r.
  apply legal_value_single_line.
Qed.

(** The interception once a truthy token has been read, when a header
    cannot take it: [Headers.set] throws before the body is looked at. *)
Lemma interception_unwritable (w : World) (request : Request.t)
    (realToken : value) (replacement : string) (cs : list FetchCall) :
  shouldReplaceToken request = true →
  resolve_token w = Run (Ret realToken) cs →
  truthy realToken = true →
  ToString realToken = Ret replacement →
  writable (Request.headers request) replacement = false →
  token_interception md5 w request = Run (Throw "Invalid header value") cs.
Proof.
  intros Hshould Hresolve Htruthy Hstring. unfold token_interception.
  rewrite Hshould, Hresolve, !bind_run_ret, Htruthy, Hstring.
  unfold writable, written_values.
  destruct (header_includes (Request.headers request) "Authorization" PLACEHOLDER);
    destruct (bool_decide (Headers_get (Request.headers request) "token" = Some PLACEHOLDER));
    cbn [app forallb]; rewrite ?andb_true_r;
    rewrite ?bind_lift_ret, ?bind_ret, ?bind_lift_ret;
    [|intros Hillegal..|done].
  - destruct (legal_value (normalize_value (Str.replace _ _ _))) eqn:Hlegal;
      cbn [andb]; intros Hillegal.
    + rewrite (Headers_set_legal _ "Authorization" _ Hlegal), !bind_lift_ret.
      rewrite (Headers_set_illegal _ "token" _ Hillegal). cbn. by rewrite app_nil_r.
    + rewrite (Headers_set_illegal _ "Authorization" _ Hlegal). cbn.
      by rewrite app_nil_r.
  - rewrite (Headers_set_illegal _ "Authorization" _ Hillegal). cbn.
    by rewrite app_nil_r.
  - rewrite (Headers_set_illegal _ "token" _ Hillegal). cbn.
    by rewrite app_nil_r.
Qed.

(** The interception once a truthy token has been read that the headers
    can take. *)
Lemma interception_resolved (w : World) (request : Request.t)
    (realToken : value) (replacement : string) (cs : list FetchCall) :
  shouldReplaceToken request = true →
  resolve_token w = Run (Ret realToken) cs →
  truthy realToken = true →
  ToString realToken = Ret replacement →
  writable (Request.headers request) replacement = true →
  token_interception md5 w request
  = Run (Ret realToken) cs ≫= λ realToken,
      let newHeaders := replaced_headers (Request.headers request) replacement in
      let bodyText := json_body_text request in
      if negb (String.eqb bodyText EmptyString) && Str.includes bodyText PLACEHOLDER then
        bodyJson ← lift (JSON.parse bodyText);
        bodyText ← lift (resign md5 bodyJson realToken);
        mret ({| Request.url := Request.url request;
                 Request.method := Request.method request;
                 Request.headers := newHeaders;
                 Request.body := Some bodyText |}, bodyText)
      else if negb (String.eqb bodyText EmptyString) then
        mret ({| Request.url := Request.url request;
                 Request.method := Request.method request;
                 Request.headers := newHeaders;
                 Request.body := Some bodyText |}, bodyText)
      else
        mret ({| Request.url := Request.url request;
                 Request.method := Request.method request;
                 Request.headers := newHeaders;
                 Request.body := None |}, bodyText).
Proof.
  intros Hshould Hresolve Htruthy Hstring. unfold token_interception.
  rewrite Hshould, Hresolve, !bind_run_ret, Htruthy, Hstring.
  unfold replaced_headers, writable, written_values.
  assert (Htoken : ∀ v, Headers_get (header_list_set (Request.headers request) "Authorization" v) "token"
                        = Headers_get (Request.headers request) "token").
  { intros v. by apply Headers_get_set_other. }
  destruct (header_includes (Request.headers request) "Authorization" PLACEHOLDER);
    rewrite ?Htoken;
    destruct (bool_decide (Headers_get (Request.headers request) "token" = Some PLACEHOLDER));
    cbn [app forallb]; rewrite ?andb_true_r; intros Hlegal;
    try (apply andb_prop in Hlegal as [Hlegal1 Hlegal2]);
    rewrite ?bind_lift_ret, ?bind_ret, ?bind_lift_ret;
    repeat match goal with
           | H : legal_value (normalize_value ?v) = true |- context [Headers_set ?h ?n ?v] =>
               rewrite (Headers_set_legal h n v H), ?bind_lift_ret, ?bind_ret
           end;
    done.
Qed.

(** The interception when no truthy token could be read. *)
Lemma interception_unresolved (w : World) (request : Request.t)
    (realToken : value) (cs : list FetchCall) :
  resolve_token w = Run (Ret realToken) cs →
  truthy realToken = false →
  shouldReplaceToken request = true →
  token_interception md5 w request = Run (Ret (request, json_body_text request)) cs.
Proof.
  intros Hresolve Hfalsy Hshould. unfold token_interception.
  rewrite Hshould, Hresolve, bind_run_ret, Hfalsy. cbn. by rewrite app_nil_r.
Qed.

(** The interception when reading the token throws. *)
Lemma interception_throws (w : World) (request : Request.t)
    (message : string) (cs : list FetchCall) :
  resolve_token w = Run (Throw message) cs →
  shouldReplaceToken request = true →
  token_interception md5 w request = Run (Throw message) cs.
Proof.
  intros Hresolve Hshould. unfold token_interception.
  by rewrite Hshould, Hresolve.
Qed.




Lemma calls_try_catch_internal_error (m : M Response.t) :
  calls (try_catch m internal_error) = calls m.
Proof.
  unfold try_catch. destruct (outcome m); [done| |done]. cbn. by rewrite app_nil_r.
Qed.

Lemma calls_fetch_then {A} (w : World) (c : FetchCall) (k : HttpResponse → M A) :
  (∀ r, calls (k r) = []) → calls (fetch_ w c ≫= k) = [c].
Proof.
  intros Hk. unfold fetch_. cbn. destruct (network w c); cbn; [|done..].
  by rewrite Hk.
Qed.

Lemma calls_lift_then {A B} (r : result A) (k : A → M B) :
  (∀ a, calls (k a) = []) → calls (lift r ≫= k) = [].
Proof. intros Hk. destruct r; cbn; [|done..]. by rewrite Hk. Qed.



Lemma shouldReplaceToken_body (request : Request.t) :
  is_json_post request = true →
  Str.includes (Request.text request) PLACEHOLDER = true →
  shouldReplaceToken request = true.
Proof.
  intros Hpost Hinc. unfold shouldReplaceToken.
  rewrite (json_body_text_post _ Hpost), Hinc. by rewrite !orb_true_r.
Qed.


Lemma fetch_interception_throws (w : World) (request : Request.t)
    (message : string) (cs : list FetchCall) :
  method_is request "OPTIONS" = false →
  token_interception md5 w request = Run (Throw message) cs →
  fetch md5 w request
  = Run (Ret (json_response 500
                (VObj [("code", VNum 500); ("msg", VStr ("Error: " +:+ message))]))) cs.
Proof.
  intros Hmethod Hthrow. unfold fetch. rewrite Hmethod, Hthrow. cbn.
  by rewrite app_nil_r.
Qed.

(** C2. The code at a body that holds the placeholder and is not JSON,
    the real token being available: parsing the body throws inside the
    interception, the outermost handler answers 500 with the message, and
    nothing is dispatched; the only outbound calls are those made to read
    the token. (When a header holds the placeholder and cannot take the
    token, [Headers.set] has thrown before the body is parsed, and the
    message of the 500 is that of its exception.) *)
Theorem malformed_body_fails_request (w : World) (request : Request.t)
    (realToken : value) (replacement message : string) (cs : list FetchCall) :
  is_json_post request = true →
  Str.includes (Request.text request) PLACEHOLDER = true →
  resolve_token w = Run (Ret realToken) cs →
  truthy realToken = true →
  ToString realToken = Ret replacement →
  JSON.parse (Request.text request) = Throw message →
  fetch md5 w request
  = Run (Ret (json_response 500
                (VObj [("code", VNum 500);
                       ("msg",
                        VStr ("Error: "
                              +:+ (if writable (Request.headers request) replacement
                                   then message else "Invalid header value")))]))) cs.
Proof.
  intros Hpost Hinc Hresolve Htruthy Hstring Hparse.
  apply fetch_interception_throws.
  { unfold is_json_post in Hpost. apply andb_prop in Hpost as [Hpost _].
    apply String.eqb_eq in Hpost. unfold method_is. by rewrite Hpost. }
  destruct (writable (Request.headers request) replacement) eqn:Hwritable;
    [|by apply (interception_unwritable w request realToken replacement);
         [apply shouldReplaceToken_body|..]].
  rewrite (interception_resolved w request realToken replacement cs);
    [|by apply shouldReplaceToken_body|done..].
  rewrite bind_run_ret. cbn zeta.
  rewrite (json_body_text_post _ Hpost), (includes_placeholder_nonempty _ Hinc), Hinc.
  cbn [negb andb]. rewrite Hparse. cbn. by rewrite app_nil_r.
Qed.

Lemma resolve_token_fallback (w : World) :
  TOKEN_STORE_get w "gamehub_token" = None →
  resolve_token w
  = tokenResponse ← fetch_ w (token_request w);
    if http_ok tokenResponse then
      tokenData ← lift (JSON.parse (http_body tokenResponse));
      lift (get tokenData "token")
    else mret VUndefined.
Proof. unfold resolve_token. by intros ->. Qed.

(** What the code does when the store is empty and the token refresher
    answers with a failure status: the rewrite is a no-op and the original
    request goes on to the dispatcher. *)
Lemma interception_noop_on_failure_status (w : World) (request : Request.t)
    (r : HttpResponse) :
  shouldReplaceToken request = true →
  TOKEN_STORE_get w "gamehub_token" = None →
  network w (token_request w) = Ret r →
  http_ok r = false →
  token_interception md5 w request
  = Run (Ret (request, json_body_text request)) [token_request w].
Proof.
  intros Hshould Hstore Hnet Hok.
  apply (interception_unresolved w request VUndefined); [|done..].
  rewrite (resolve_token_fallback w Hstore). unfold fetch_.
  by rewrite Hnet, bind_run_ret, Hok.
Qed.

(** C3. The code when the store is empty and reading the token from the
    token refresher fails with an exception (the call is rejected, or the
    answer has a success status and a body that is not JSON): the exception
    leaves the interception, the outermost handler answers 500, and the
    request never reaches the dispatcher. *)
Theorem token_exception_fails_request (w : World) (request : Request.t)
    (message : string) :
  method_is request "OPTIONS" = false →
  shouldReplaceToken request = true →
  TOKEN_STORE_get w "gamehub_token" = None →
  (network w (token_request w) = Throw message
   ∨ ∃ r, network w (token_request w) = Ret r
          ∧ http_ok r = true
          ∧ JSON.parse (http_body r) = Throw message) →
  fetch md5 w request
  = Run (Ret (json_response 500
                (VObj [("code", VNum 500); ("msg", VStr ("Error: " +:+ message))])))
        [token_request w].
Proof.
  intros Hmethod Hshould Hstore Hfail.
  apply fetch_interception_throws; [done|].
  apply interception_throws; [|done].
  rewrite (resolve_token_fallback w Hstore). unfold fetch_.
  destruct Hfail as [Hnet|(r & Hnet & Hok & Hparse)]; rewrite Hnet; [done|].
  by rewrite bind_run_ret, Hok, Hparse.
Qed.

End InterceptionProperties.

(** ** Dispatch *)

Section DispatchProperties.

Variable md5 : string → string.

(** The interception keeps the URL and the method of the request. *)
Lemma interception_preserves (w : World) (request request' : Request.t)
    (bodyText : string) (cs : list FetchCall) :
  token_interception md5 w request = Run (Ret (request', bodyText)) cs →
  Request.url request' = Request.url request
  ∧ Request.method request' = Request.method request.
Proof.
  unfold token_interception.
  destruct (shouldReplaceToken request); [|by intros [= <- _ _]].
  destruct (resolve_token w) as [[realToken| |] cs0]; [|done..].
  rewrite bind_run_ret. destruct (truthy realToken); [|by intros [= <- _ _]].
  set (h1 := if header_includes _ _ _ then _ else _).
  destruct h1 as [[h1| |] cs1]; [|done..]. rewrite bind_run_ret.
  set (h2 := if bool_decide _ then _ else _).
  destruct h2 as [[h2| |] cs2]; [|done..]. rewrite bind_run_ret.
  destruct (_ && _).
  - destruct (JSON.parse _) as [bodyJson| |]; [|done..]. rewrite bind_lift_ret.
    destruct (resign md5 bodyJson realToken); [|done..]. by intros [= <- _ _].
  - destruct (negb _); by intros [= <- _ _].
Qed.

(** The handler once the interception has completed. *)
Lemma fetch_after_interception (w : World) (request request' : Request.t)
    (bodyText : string) (cs : list FetchCall) :
  method_is request "OPTIONS" = false →
  token_interception md5 w request = Run (Ret (request', bodyText)) cs →
  fetch md5 w request
  = try_catch
      (Run (outcome (dispatch w (Request.url request) request' bodyText))
           (cs ++ calls (dispatch w (Request.url request) request' bodyText)))
      internal_error.
Proof. intros Hmethod Hrun. unfold fetch. by rewrite Hmethod, Hrun, bind_run_ret. Qed.

Lemma fetch_dispatch_ret (w : World) (request request' : Request.t)
    (bodyText : string) (cs : list FetchCall) (response : Response.t) :
  method_is request "OPTIONS" = false →
  token_interception md5 w request = Run (Ret (request', bodyText)) cs →
  dispatch w (Request.url request) request' bodyText = mret response →
  fetch md5 w request = Run (Ret response) cs.
Proof.
  intros Hmethod Hrun Hdispatch.
  rewrite (fetch_after_interception w request request' bodyText cs), Hdispatch by done.
  cbn. by rewrite app_nil_r.
Qed.

Lemma method_not_in (request : Request.t) (method : string) (methods : list string) :
  Request.method request ∉ methods → method ∈ methods →
  method_is request method = false.
Proof.
  intros Hnot Hin. unfold method_is. apply String.eqb_neq. by intros <-.
Qed.

(** A known path under a method it does not allow: the game-detail path
    answers 405, every other known path is left to the static host. *)
Lemma dispatch_method_mismatch (w : World) (url : URL.t) (request : Request.t)
    (bodyText : string) (methods : list string) :
  (URL.pathname url, methods) ∈ dispatch_table →
  Request.method request ∉ methods →
  dispatch w url request bodyText
  = if String.eqb (URL.pathname url) "/card/getGameDetail"
    then mret method_not_allowed
    else proxy_to_github w url.
Proof.
  intros Hin Hnot. unfold dispatch_table in Hin.
  repeat (apply elem_of_cons in Hin as [[= Hpath ->]|Hin]);
    [..|by apply elem_of_nil in Hin];
    unfold dispatch; rewrite Hpath; literal_eqb.
  - unfold getGameDetail.
    pose proof (method_not_in request "GET" _ Hnot) as HG.
    pose proof (method_not_in request "POST" _ Hnot) as HP.
    unfold method_is in *. rewrite HG, HP by set_solver. done.
  - by rewrite (method_not_in request "POST" _ Hnot) by set_solver.
  - by rewrite (method_not_in request "POST" _ Hnot) by set_solver.
  - by rewrite (method_not_in request "POST" _ Hnot) by set_solver.
  - rewrite (method_not_in request "POST" _ Hnot) by set_solver.
    by rewrite (method_not_in request "GET" _ Hnot) by set_solver.
  - by rewrite (method_not_in request "POST" _ Hnot) by set_solver.
  - by rewrite (method_not_in request "POST" _ Hnot) by set_solver.
  - by rewrite (method_not_in request "POST" _ Hnot) by set_solver.
  - by rewrite (method_not_in request "POST" _ Hnot) by set_solver.
  - by rewrite (method_not_in request "POST" _ Hnot) by set_solver.
  - by rewrite (method_not_in request "GET" _ Hnot) by set_solver.
  - by rewrite (method_not_in request "POST" _ Hnot) by set_solver.
  - by rewrite (method_not_in request "POST" _ Hnot) by set_solver.
Qed.

(** C4, as the code has it. A request other than a preflight, on which
    the token interception completes, whose path is in the dispatch table
    and whose method is not among the methods of that path, gets the 405
    answer (status 405 and the envelope with code 405, the message
    [Method not allowed], an empty [time] and [null] data) on the
    game-detail path only; on every other known path it falls through to
    the static host, and the status and the body of the host's answer are
    those of the response. *)
Theorem method_mismatch_response (w : World) (request request' : Request.t)
    (bodyText : string) (cs : list FetchCall) (methods : list string) :
  method_is request "OPTIONS" = false →
  token_interception md5 w request = Run (Ret (request', bodyText)) cs →
  (URL.pathname (Request.url request), methods) ∈ dispatch_table →
  Request.method request ∉ methods →
  (URL.pathname (Request.url request) = "/card/getGameDetail" →
   fetch md5 w request
   = Run (Ret {| Response.status := 405;
                 Response.headers :=
                   Headers_of (("Content-Type", "application/json") :: allHeaders);
                 Response.body :=
                   Some (JSON.text
                           "{'code':405,'msg':'Method not allowed','time':'','data':null}") |})
         cs)
  ∧ (URL.pathname (Request.url request) ≠ "/card/getGameDetail" →
     ∀ r, network w (github_request (Request.url request)) = Ret r →
          fetch md5 w request
          = Run (Ret {| Response.status := http_status r;
                        Response.headers := Headers_of (http_headers r ++ allHeaders);
                        Response.body := Some (http_body r) |})
                (cs ++ [github_request (Request.url request)])).
Proof.
  intros Hmethod Hrun Hin Hnot.
  destruct (interception_preserves w request request' bodyText cs Hrun) as [_ Hsame].
  rewrite <- Hsame in Hnot.
  pose proof (dispatch_method_mismatch w (Request.url request) request' bodyText
                methods Hin Hnot) as Hdispatch.
  split.
  - intros Hpath. rewrite Hpath in Hdispatch.
    apply (fetch_dispatch_ret w request request' bodyText); [done..|].
    rewrite Hdispatch. by vm_compute.
  - intros Hpath r Hnet.
    apply String.eqb_neq in Hpath. rewrite Hpath in Hdispatch.
    rewrite (fetch_after_interception w request request' bodyText cs), Hdispatch by done.
    unfold proxy_to_github, fetch_url, fetch_.
    fold (github_request (Request.url request)).
    by rewrite Hnet.
Qed.

(** C10. The code when the free-content store has no record under its
    key. A GET or POST to [/card/getIndexList] and a POST to [/card/more]
    that names a topic are answered with HTTP status 200 and an envelope
    whose code is 201, with a message and empty data ([[]] for the index
    list, [null] for [/card/more]) as long as the token interception
    completes. When the request holds the placeholder and reading the token
    throws, the same request is answered 500 and never reaches the
    endpoint. *)
Theorem empty_store_answers_201 (w : World) (request : Request.t) :
  FREE_GAMES_KV_get w "free_games_data" = None →
  (∀ (request' : Request.t) (bodyText : string) (cs : list FetchCall),
     token_interception md5 w request = Run (Ret (request', bodyText)) cs →
     (URL.pathname (Request.url request) = "/card/getIndexList" →
      Request.method request = "GET" ∨ Request.method request = "POST" →
      fetch md5 w request
      = Run (Ret {| Response.status := 200;
                    Response.headers :=
                      Headers_of (("Content-Type", "application/json") :: allHeaders);
                    Response.body :=
                      Some (JSON.stringify
                              (VObj [("code", VNum 201);
                                     ("msg", VStr "No free games available at the moment, please try again later");
                                     ("data", VArr []);
                                     ("time", VStr (unix_time w))])) |}) cs)
     ∧ (URL.pathname (Request.url request) = "/card/more" →
        Request.method request = "POST" →
        ∀ body topicId,
          Request.json request' = Ret body →
          get body "id" = Ret topicId →
          truthy topicId = true →
          fetch md5 w request
          = Run (Ret {| Response.status := 200;
                        Response.headers :=
                          Headers_of (("Content-Type", "application/json") :: allHeaders);
                        Response.body :=
                          Some (JSON.stringify
                                  (VObj [("code", VNum 201);
                                         ("msg", VStr "No data available");
                                         ("time", VStr (unix_time w));
                                         ("data", VNull)])) |}) cs))
  ∧ (method_is request "OPTIONS" = false →
     shouldReplaceToken request = true →
     TOKEN_STORE_get w "gamehub_token" = None →
     ∀ message,
       (network w (token_request w) = Throw message
        ∨ ∃ r, network w (token_request w) = Ret r
               ∧ http_ok r = true
               ∧ JSON.parse (http_body r) = Throw message) →
       fetch md5 w request
       = Run (Ret {| Response.status := 500;
                     Response.headers :=
                       Headers_of (("Content-Type", "application/json") :: allHeaders);
                     Response.body :=
                       Some (JSON.stringify
                               (VObj [("code", VNum 500);
                                      ("msg", VStr ("Error: " +:+ message))])) |})
             [token_request w]).
Proof.
  intros Hstore. split.
  - intros request' bodyText cs Hrun.
    destruct (interception_preserves w request request' bodyText cs Hrun) as [_ Hsame].
    split.
    + intros Hpath Hmethod.
      apply (fetch_dispatch_ret w request request' bodyText); [|done|].
      { unfold method_is. by destruct Hmethod as [-> | ->]. }
      unfold dispatch, method_is. rewrite Hpath, Hsame. literal_eqb.
      assert (String.eqb (Request.method request) "POST"
              || String.eqb (Request.method request) "GET" = true) as ->.
      { by destruct Hmethod as [-> | ->]. }
      unfold getIndexList. by rewrite Hstore.
    + intros Hpath Hmethod body topicId Hjson Hid Htruthy.
      apply (fetch_dispatch_ret w request request' bodyText); [|done|].
      { unfold method_is. by rewrite Hmethod. }
      unfold dispatch, method_is. rewrite Hpath, Hsame, Hmethod. literal_eqb.
      unfold card_more. rewrite Hjson, bind_lift_ret, Hid, bind_lift_ret.
      destruct body; try done; cbn [get]; rewrite !bind_lift_ret, Htruthy;
        cbn [negb]; by rewrite Hstore.
  - intros Hmethod Hshould Htokens message Hfail.
    rewrite (fetch_interception_throws md5 w request message [token_request w]);
      [done..|].
    apply interception_throws; [|done].
    rewrite (resolve_token_fallback w Htokens). unfold fetch_.
    destruct Hfail as [Hnet|(r & Hnet & Hok & Hparse)]; rewrite Hnet; [done|].
    by rewrite bind_run_ret, Hok, Hparse.
Qed.

Lemma calls_game_detail_forward (w : World) (c : FetchCall) :
  calls (chineseResponse ← fetch_ w c;
         match JSON.parse (http_body chineseResponse) with
         | Throw _ =>
             mret (json_response 500
                     (envelope 500
                        ("Chinese server returned invalid response: "
                         +:+ String.substring 0 100 (http_body chineseResponse))
                        EmptyString VNull))
         | Outside => lift Outside
         | Ret responseData =>
             responseData ← lift (strip_recommendations responseData);
             mret (json_response 200 responseData)
         end) = [c].
Proof.
  apply calls_fetch_then. intros r.
  destruct (JSON.parse (http_body r)); [|done..]. by apply calls_lift_then.
Qed.

(** C7, as the code has it, for a GET request to [/card/getGameDetail] on
    which the token interception completes. When the [app_id] parameter is
    absent or empty the answer is 400 with the envelope that holds the code
    400, the message [Missing app_id parameter], an empty [time] and [null]
    data, and nothing goes upstream. With a non-empty [app_id] one POST goes
    upstream: its body is the JSON object that holds [app_id] as a string
    and, for every other parameter name except [__proto__], the last value
    the query gives it; its headers are those of the request handed to the
    endpoint, with only [Content-Type] set. For [?app_id=8870] the body is
    [{"app_id":"8870"}]. *)
Theorem game_detail_get_synthesizes_post (w : World) (request request' : Request.t)
    (bodyText : string) (cs : list FetchCall) :
  Request.method request = "GET" →
  URL.pathname (Request.url request) = "/card/getGameDetail" →
  token_interception md5 w request = Run (Ret (request', bodyText)) cs →
  let query := URL.searchParams (Request.url request) in
  ((URL.get query "app_id" = None ∨ URL.get query "app_id" = Some EmptyString) →
   fetch md5 w request
   = Run (Ret {| Response.status := 400;
                 Response.headers :=
                   Headers_of (("Content-Type", "application/json") :: allHeaders);
                 Response.body :=
                   Some (JSON.text
                           "{'code':400,'msg':'Missing app_id parameter','time':'','data':null}") |})
         cs)
  ∧ (∀ appId,
       URL.get query "app_id" = Some appId →
       appId ≠ EmptyString →
       let forwardHeaders :=
         header_list_set (Request.headers request') "Content-Type" "application/json" in
       calls (fetch md5 w request)
       = (cs ++ [{| call_url := "https://landscape-api.vgabc.com/card/getGameDetail";
                    call_method := "POST";
                    call_headers := forwardHeaders;
                    call_body := Some (JSON.stringify (VObj (bodyParams appId query))) |}])%list
       ∧ obj_get (bodyParams appId query) "app_id" = VStr appId
       ∧ (∀ k, k ≠ "app_id" → k ≠ "__proto__" →
               obj_get (bodyParams appId query) k
               = from_option VStr VUndefined (URL.get (reverse query) k))
       ∧ (∀ name, header_name name ≠ "content-type" →
                  Headers_get forwardHeaders name
                  = Headers_get (Request.headers request') name))
  ∧ JSON.stringify (VObj (bodyParams "8870" [("app_id", "8870")]))
    = JSON.text "{'app_id':'8870'}".
Proof.
  intros Hmethod Hpath Hrun query.
  destruct (interception_preserves w request request' bodyText cs Hrun) as [_ Hsame].
  assert (Hoptions : method_is request "OPTIONS" = false).
  { unfold method_is. by rewrite Hmethod. }
  assert (Hdispatch : dispatch w (Request.url request) request' bodyText
                      = getGameDetail w (Request.url request) request' bodyText).
  { unfold dispatch. by rewrite Hpath. }
  split_and!.
  - intros Hmissing.
    apply (fetch_dispatch_ret w request request' bodyText); [done..|].
    rewrite Hdispatch. unfold getGameDetail. rewrite Hsame, Hmethod. literal_eqb.
    fold query. by destruct Hmissing as [-> | ->].
  - intros appId Happ Hnonempty forwardHeaders. split_and!.
    + rewrite (fetch_after_interception w request request' bodyText cs) by done.
      rewrite calls_try_catch_internal_error. cbn [calls]. f_equal.
      rewrite Hdispatch. unfold getGameDetail. rewrite Hsame, Hmethod. literal_eqb.
      fold query. rewrite Happ.
      destruct (String.eqb_spec appId EmptyString) as [->|_]; [done|].
      apply calls_game_detail_forward.
    + rewrite bodyParams_get by done. by literal_eqb.
    + intros k Hk Hproto. rewrite bodyParams_get by done.
      by destruct (String.eqb_spec k "app_id").
    + intros name Hname. unfold forwardHeaders, Headers_get, header_list_set.
      rewrite lookup_insert_ne; [done|]. intros Heq. apply Hname. by rewrite <- Heq.
  - by vm_compute.
Qed.

End DispatchProperties.

(** ** Response transformers *)

Section TransformerProperties.

Variable md5 : string → string.

Lemma get_prop (v : value) (k : string) : defined v → get v k = Ret (prop v k).
Proof. intros [? ?]. by destruct v. Qed.

Lemma is_steam_game_defined (game : value) :
  defined game → is_steam_game game = Ret (has_steam_appid game).
Proof. intros Hgame. unfold is_steam_game. by rewrite (get_prop _ _ Hgame). Qed.

Lemma Array_filter_defined (games : list value) :
  Forall defined games →
  Array_filter is_steam_game games
  = Ret (filter (λ game, has_steam_appid game = true) games).
Proof.
  induction 1 as [|game games Hgame _ IH]; [done|].
  cbn [Array_filter]. rewrite (is_steam_game_defined _ Hgame), IH, filter_cons.
  destruct (has_steam_appid game); by case_decide.
Qed.

Lemma mapM_game_id_entry (games : list value) :
  Forall defined games → mapM game_id_entry games = Ret (id_entry <$> games).
Proof.
  induction 1 as [|game games Hgame _ IH]; [done|].
  rewrite mapM_result_cons, IH. unfold game_id_entry.
  by rewrite !(get_prop _ _ Hgame).
Qed.

Lemma filter_steam_games_spec (d : object) (games : list value) :
  obj_get d "list" = VArr games →
  Forall defined games →
  let filtered := filter (λ game, has_steam_appid game = true) games in
  ∃ d', filter_steam_games d = Ret d'
        ∧ obj_get d' "list" = VArr filtered
        ∧ obj_get d' "total"
          = (if truthy (obj_get d "total") then total_of (length filtered)
             else obj_get d "total")
        ∧ obj_get d' "all_game_ids"
          = (if truthy (obj_get d "all_game_ids") then VArr (id_entry <$> filtered)
             else obj_get d "all_game_ids").
Proof.
  intros Hlist Hgames filtered. unfold filter_steam_games.
  rewrite Hlist. cbn [elements_for].
  change (mbind ?f (Ret games)) with (f games). cbn beta.
  rewrite (Array_filter_defined _ Hgames). fold filtered.
  change (mbind ?f (Ret filtered)) with (f filtered). cbn beta zeta.
  assert (Hfiltered : Forall defined filtered).
  { apply Forall_forall. intros game Hin. apply list_elem_of_filter in Hin as [_ Hin].
    by apply (proj1 (Forall_forall _ _) Hgames). }
  rewrite !obj_get_define. literal_eqb.
  destruct (truthy (obj_get d "total")) eqn:Htotal.
  - rewrite !obj_get_define. literal_eqb.
    destruct (truthy (obj_get d "all_game_ids")) eqn:Hids.
    + rewrite (mapM_game_id_entry _ Hfiltered). eexists. split; [done|].
      rewrite !obj_get_define. by literal_eqb.
    + eexists. split; [done|]. rewrite !obj_get_define. by literal_eqb.
  - rewrite !obj_get_define. literal_eqb.
    destruct (truthy (obj_get d "all_game_ids")) eqn:Hids.
    + rewrite (mapM_game_id_entry _ Hfiltered). eexists. split; [done|].
      rewrite !obj_get_define. by literal_eqb.
    + eexists. split; [done|]. rewrite !obj_get_define. by literal_eqb.
Qed.

(** C6, as the code has it. For an upstream answer to [/search/getGameList]
    whose [data.list] is a list of items none of which is [null], the
    returned [data.list] keeps exactly the items with a present, non-["0"],
    non-empty [steam_appid], in their order. A truthy upstream [total] is
    replaced by the single entry whose count is the length of the filtered
    list, and a truthy upstream [all_game_ids] by the list that holds, at
    each index, the [steam_appid] and the [id] of the filtered item at that
    index. A [total] or [all_game_ids] that is absent or falsy is returned
    as it was received. *)
Theorem search_list_filter_consistent (w : World) (request : Request.t)
    (bodyText : string) (r : HttpResponse) (o d : object) (games : list value) :
  network w {| call_url := "https://landscape-api.vgabc.com/search/getGameList";
               call_method := "POST";
               call_headers := Request.headers request;
               call_body := Some (body_text request bodyText) |} = Ret r →
  JSON.parse (http_body r) = Ret (VObj o) →
  obj_get o "data" = VObj d →
  obj_get d "list" = VArr games →
  Forall defined games →
  let filtered := filter (λ game, has_steam_appid game = true) games in
  ∃ d' ids,
    outcome (getGameList w request bodyText)
    = Ret (json_response 200 (VObj (obj_define o "data" (VObj d'))))
    ∧ obj_get d' "list" = VArr filtered
    ∧ obj_get d' "total"
      = (if truthy (obj_get d "total") then total_of (length filtered)
         else obj_get d "total")
    ∧ obj_get d' "all_game_ids"
      = (if truthy (obj_get d "all_game_ids") then VArr ids
         else obj_get d "all_game_ids")
    ∧ length ids = length filtered
    ∧ ∀ i game, filtered !! i = Some game →
                ids !! i = Some (VObj [("steam_app_id", prop game "steam_appid");
                                       ("game_id", prop game "id")]).
Proof.
  intros Hnet Hparse Hdata Hlist Hgames filtered.
  destruct (filter_steam_games_spec d games Hlist Hgames)
    as (d' & Hfilter & Hl & Ht & Hi).
  exists d', (id_entry <$> filtered). split_and!; [|done..| |].
  - unfold getGameList, fetch_. rewrite Hnet. cbn [mbind M_bind outcome calls].
    rewrite Hparse. cbn [lift mbind M_bind outcome calls].
    unfold steam_only. cbn [get]. rewrite Hdata.
    change (mbind ?f (Ret (VObj d))) with (f (VObj d)). cbn beta iota.
    rewrite Hlist. cbn [truthy]. by rewrite Hfilter.
  - by rewrite length_fmap.
  - intros i game Hi'. by rewrite list_lookup_fmap, Hi'.
Qed.

(** With bounds that are not negative, [slice] returns the half-open
    window. *)
Lemma Array_slice_window {A} (l : list A) (lo hi : Z) :
  (0 ≤ lo)%Z → (0 ≤ hi)%Z →
  half_open_window l (Z.to_nat lo) (Z.to_nat hi) (Array_slice l lo (Some hi)).
Proof.
  intros Hlo Hhi i. unfold Array_slice, relative_index.
  rewrite (proj2 (Z.ltb_ge lo 0) Hlo), (proj2 (Z.ltb_ge hi 0) Hhi).
  rewrite lookup_take, lookup_drop.
  destruct (decide (Z.to_nat lo + i < Z.to_nat hi)) as [Hin|Hout].
  - case_decide as Hi; [|symmetry; apply lookup_ge_None; lia].
    f_equal. lia.
  - case_decide as Hi; [|done]. apply lookup_ge_None. lia.
Qed.

Lemma pagination_example {A} (x1 x2 x3 x4 x5 x6 x7 : A) :
  let items := [x1; x2; x3; x4; x5; x6; x7] in
  Array_slice items ((2 - 1) * 3) (Some ((2 - 1) * 3 + 3)%Z) = [x4; x5; x6]
  ∧ Array_slice items ((3 - 1) * 3) (Some ((3 - 1) * 3 + 3)%Z) = [x7]
  ∧ Array_slice items ((4 - 1) * 3) (Some ((4 - 1) * 3 + 3)%Z) = [].
Proof. done. Qed.

Lemma missing_some (text : string) :
  text ≠ EmptyString → missing (Some text) = false.
Proof. intros Hne. by apply String.eqb_neq. Qed.

(** The pagination of [/card/more]. *)
Lemma card_more_page (w : World) (request : Request.t)
    (b t : object) (p s : Z) (text : string) (freeGamesData : value)
    (topics cards : list value) :
  Request.json request = Ret (VObj b) →
  truthy (obj_get b "id") = true →
  or_else (obj_get b "page") (VNum 1) = VNum p →
  or_else (obj_get b "page_size") (VNum 30) = VNum s →
  FREE_GAMES_KV_get w "free_games_data" = Some text →
  text ≠ EmptyString →
  JSON.parse text = Ret freeGamesData →
  get freeGamesData "data" = Ret (VArr topics) →
  find_topic (obj_get b "id") topics = Ret (Some (VObj t)) →
  obj_get t "card_list" = VArr cards →
  card_more w request
  = mret (json_response 200
            (envelope 0 EmptyString (unix_time w)
               (VObj [("id", obj_get t "id");
                      ("title", obj_get t "title");
                      ("aspect_ratio", obj_get t "aspect_ratio");
                      ("fixed_card_size", obj_get t "fixed_card_size");
                      ("is_play_video", obj_get t "is_play_video");
                      ("page", VNum p);
                      ("page_size", VNum s);
                      ("is_vertical", obj_get t "is_vertical");
                      ("is_text_outside", obj_get t "is_text_outside");
                      ("card_list",
                       VArr (Array_slice cards ((p - 1) * s) (Some ((p - 1) * s + s)%Z)))]))).
Proof.
  intros Hjson Hid Hpage Hsize Hstore Htext Hparse Hdata Hfind Hcards.
  unfold card_more.
  rewrite Hjson, bind_lift_ret. cbn [get]. rewrite !bind_lift_ret.
  rewrite Hid, Hpage, Hsize. cbn [negb]. rewrite Hstore, (missing_some _ Htext).
  change (default EmptyString (Some text)) with text.
  rewrite Hparse, bind_lift_ret, Hdata, bind_lift_ret.
  cbn [elements_for]. rewrite bind_lift_ret, Hfind, bind_lift_ret.
  cbn [ToNumber add_number get]. rewrite !bind_lift_ret, Hcards.
  cbn [slice]. by rewrite !bind_lift_ret.
Qed.

(** The pagination of a manifest. *)
Lemma paginate_manifest_page (d : object) (p s : Z) (items : list value) :
  obj_get d "list" = VArr items →
  ∃ d', paginate_manifest d (VNum p) (VNum s) = Ret d'
        ∧ obj_get d' "list"
          = VArr (Array_slice items ((p - 1) * s) (Some ((p - 1) * s + s)%Z))
        ∧ obj_get d' "page" = VNum p
        ∧ obj_get d' "pageSize" = VNum s
        ∧ obj_get d' "total"
          = or_else (obj_get d "total") (VNum (Z.of_nat (length items))).
Proof.
  intros Hlist. unfold paginate_manifest. rewrite Hlist. cbn [length_of].
  assert ((if truthy (obj_get d "total") then Ret (obj_get d "total")
           else Ret (VNum (Z.of_nat (length items))))
          = Ret (or_else (obj_get d "total") (VNum (Z.of_nat (length items))))) as ->.
  { unfold or_else. by destruct (truthy (obj_get d "total")). }
  eexists. split; [done|].
  rewrite !obj_get_define. by literal_eqb.
Qed.

(** The pagination of [/simulator/v2/getComponentList]. *)
Lemma component_list_page (w : World) (request : Request.t)
    (b o d : object) (p s : Z) (manifest : string) (r : HttpResponse)
    (items : list value) :
  Request.json request = Ret (VObj b) →
  truthy (obj_get b "type") = true →
  manifest_of (obj_get b "type") = Ret (Some manifest) →
  or_else (obj_get b "page") (VNum 1) = VNum p →
  or_else (obj_get b "page_size") (VNum 10) = VNum s →
  network w (get_request (GITHUB_BASE +:+ manifest)) = Ret r →
  http_ok r = true →
  JSON.parse (http_body r) = Ret (VObj o) →
  obj_get o "data" = VObj d →
  obj_get (rename_components d) "list" = VArr items →
  ∃ d', getComponentList w request
        = Run (Ret (json_response 200 (VObj (obj_define o "data" (VObj d')))))
              [get_request (GITHUB_BASE +:+ manifest)]
        ∧ obj_get d' "list"
          = VArr (Array_slice items ((p - 1) * s) (Some ((p - 1) * s + s)%Z))
        ∧ obj_get d' "page" = VNum p
        ∧ obj_get d' "pageSize" = VNum s
        ∧ obj_get d' "total"
          = or_else (obj_get (rename_components d) "total")
              (VNum (Z.of_nat (length items))).
Proof.
  intros Hjson Htype Hmanifest Hpage Hsize Hnet Hok Hparse Hdata Hlist.
  destruct (paginate_manifest_page (rename_components d) p s items Hlist)
    as (d' & Hpaginate & Hprops).
  exists d'. split; [|done].
  unfold getComponentList.
  rewrite Hjson, bind_lift_ret. cbn [get]. rewrite !bind_lift_ret.
  rewrite Htype, Hpage, Hsize, Hmanifest, bind_lift_ret.
  unfold fetch_url, fetch_. rewrite Hnet, bind_run_ret, Hok. cbn [negb].
  rewrite Hparse, bind_lift_ret.
  unfold reshape_manifest. cbn [get]. rewrite Hdata.
  change (mbind ?f (Ret (VObj d))) with (f (VObj d)). cbn beta iota zeta.
  rewrite Hlist. cbn [truthy]. by rewrite Hpaginate.
Qed.

(** C5, as the code has it, for a request on which the token interception
    completes. With [page] defaulting to 1 and [page_size] to
    the default of the endpoint (30 for [/card/more], 10 for
    [/simulator/v2/getComponentList]), both positive integers, the list
    returned is the half-open window [[(page-1)*page_size, page*page_size)]
    of the source sequence, empty when the window lies past its end.
    [/card/more] echoes [page] and [page_size] and reports no total;
    [/simulator/v2/getComponentList] echoes them as [page] and [pageSize]
    together with [total], the upstream total when truthy and the length of
    the sequence otherwise. On seven items with [page_size] 3, page 2 gives
    the items 4 to 6, page 3 one item, page 4 none. *)
Theorem pagination_window_and_echo :
  (∀ (w : World) (request request' : Request.t) (bodyText : string)
     (cs : list FetchCall) (b t : object) (p s : Z) (text : string)
     (freeGamesData : value) (topics cards : list value),
     Request.method request = "POST" →
     URL.pathname (Request.url request) = "/card/more" →
     token_interception md5 w request = Run (Ret (request', bodyText)) cs →
     Request.json request' = Ret (VObj b) →
     truthy (obj_get b "id") = true →
     or_else (obj_get b "page") (VNum 1) = VNum p →
     or_else (obj_get b "page_size") (VNum 30) = VNum s →
     (1 ≤ p)%Z → (1 ≤ s)%Z →
     FREE_GAMES_KV_get w "free_games_data" = Some text →
     text ≠ EmptyString →
     JSON.parse text = Ret freeGamesData →
     get freeGamesData "data" = Ret (VArr topics) →
     find_topic (obj_get b "id") topics = Ret (Some (VObj t)) →
     obj_get t "card_list" = VArr cards →
     let page := Array_slice cards ((p - 1) * s) (Some (p * s)%Z) in
     fetch md5 w request
     = Run (Ret {| Response.status := 200;
                   Response.headers :=
                     Headers_of (("Content-Type", "application/json") :: allHeaders);
                   Response.body :=
                     Some (JSON.stringify
                             (VObj [("code", VNum 0);
                                    ("msg", VStr EmptyString);
                                    ("time", VStr (unix_time w));
                                    ("data",
                                     VObj [("id", obj_get t "id");
                                           ("title", obj_get t "title");
                                           ("aspect_ratio", obj_get t "aspect_ratio");
                                           ("fixed_card_size", obj_get t "fixed_card_size");
                                           ("is_play_video", obj_get t "is_play_video");
                                           ("page", VNum p);
                                           ("page_size", VNum s);
                                           ("is_vertical", obj_get t "is_vertical");
                                           ("is_text_outside", obj_get t "is_text_outside");
                                           ("card_list", VArr page)])])) |}) cs
     ∧ half_open_window cards (Z.to_nat ((p - 1) * s)) (Z.to_nat (p * s)) page)
  ∧ (∀ (w : World) (request request' : Request.t) (bodyText : string)
       (cs : list FetchCall) (b o d : object) (p s : Z) (manifest : string)
       (r : HttpResponse) (items : list value),
       Request.method request = "POST" →
       URL.pathname (Request.url request) = "/simulator/v2/getComponentList" →
       token_interception md5 w request = Run (Ret (request', bodyText)) cs →
       Request.json request' = Ret (VObj b) →
       truthy (obj_get b "type") = true →
       manifest_of (obj_get b "type") = Ret (Some manifest) →
       or_else (obj_get b "page") (VNum 1) = VNum p →
       or_else (obj_get b "page_size") (VNum 10) = VNum s →
       (1 ≤ p)%Z → (1 ≤ s)%Z →
       network w (get_request (GITHUB_BASE +:+ manifest)) = Ret r →
       http_ok r = true →
       JSON.parse (http_body r) = Ret (VObj o) →
       obj_get o "data" = VObj d →
       obj_get (rename_components d) "list" = VArr items →
       let page := Array_slice items ((p - 1) * s) (Some (p * s)%Z) in
       ∃ d',
         fetch md5 w request
         = Run (Ret {| Response.status := 200;
                       Response.headers :=
                         Headers_of (("Content-Type", "application/json") :: allHeaders);
                       Response.body :=
                         Some (JSON.stringify (VObj (obj_define o "data" (VObj d')))) |})
               (cs ++ [get_request (GITHUB_BASE +:+ manifest)])
         ∧ obj_get d' "list" = VArr page
         ∧ obj_get d' "page" = VNum p
         ∧ obj_get d' "pageSize" = VNum s
         ∧ obj_get d' "total"
           = or_else (obj_get (rename_components d) "total")
               (VNum (Z.of_nat (length items)))
         ∧ half_open_window items (Z.to_nat ((p - 1) * s)) (Z.to_nat (p * s)) page)
  ∧ (∀ x1 x2 x3 x4 x5 x6 x7 : value,
       let items := [x1; x2; x3; x4; x5; x6; x7] in
       Array_slice items ((2 - 1) * 3) (Some (2 * 3)%Z) = [x4; x5; x6]
       ∧ Array_slice items ((3 - 1) * 3) (Some (3 * 3)%Z) = [x7]
       ∧ Array_slice items ((4 - 1) * 3) (Some (4 * 3)%Z) = []).
Proof.
  split_and!.
  - intros w request request' bodyText cs b t p s text freeGamesData topics cards
      Hmethod Hpath Hrun Hjson Hid Hpage Hsize Hp Hs Hstore Htext Hparse Hdata
      Hfind Hcards page.
    destruct (interception_preserves md5 w request request' bodyText cs Hrun)
      as [_ Hsame].
    split; [|apply Array_slice_window; nia].
    apply (fetch_dispatch_ret md5 w request request' bodyText); [|done|].
    { unfold method_is. by rewrite Hmethod. }
    unfold dispatch, method_is. rewrite Hpath, Hsame, Hmethod. literal_eqb.
    rewrite (card_more_page w request' b t p s text freeGamesData topics cards)
      by done.
    unfold page. by replace ((p - 1) * s + s)%Z with (p * s)%Z by lia.
  - intros w request request' bodyText cs b o d p s manifest r items
      Hmethod Hpath Hrun Hjson Htype Hmanifest Hpage Hsize Hp Hs Hnet Hok Hparse
      Hdata Hlist page.
    destruct (interception_preserves md5 w request request' bodyText cs Hrun)
      as [_ Hsame].
    destruct (component_list_page w request' b o d p s manifest r items)
      as (d' & Hrun' & Hl & Hpg & Hsz & Htotal); [done..|].
    exists d'. unfold page.
    replace (p * s)%Z with ((p - 1) * s + s)%Z by lia.
    split_and!; [|done..|].
    + rewrite (fetch_after_interception md5 w request request' bodyText cs);
        [|unfold method_is; by rewrite Hmethod|done].
      unfold dispatch, method_is. rewrite Hpath, Hsame, Hmethod. literal_eqb.
      by rewrite Hrun'.
    + replace ((p - 1) * s + s)%Z with (p * s)%Z by lia.
      apply Array_slice_window; nia.
  - done.
Qed.

End TransformerProperties.

(** * Concrete instances *)

(** A closed equation or decidable fact, settled by evaluation. *)
Ltac evaluate := vm_compute; reflexivity.
Ltac decide_true := refine (bool_decide_unpack _ _); vm_compute; exact I.

(** The order of insertion does not matter on [{a:1,b:2}] and [{b:2,a:1}],
    whatever [sign] they carry. *)
Lemma generateSignature_insertion_order_witness :
  generateSignature MD5.md5 [("a", VNum 1); ("b", VNum 2)]
  = generateSignature MD5.md5 [("b", VNum 2); ("sign", VStr "stale"); ("a", VNum 1)].
Proof.
  apply generateSignature_insertion_order.
  - decide_true.
  - decide_true.
  - vm_compute. apply perm_swap.
Defined.

Example signature_of_a_b :
  generateSignature MD5.md5 [("b", VNum 2); ("a", VNum 1)]
  = Ret "d02c2d890d7b9a973f20bd41a17fb4b9".
Proof. evaluate. Qed.

(** A request without the placeholder reaches the dispatcher as it came. *)
Lemma interception_identity_without_placeholder_witness :
  token_interception MD5.md5 Examples.w_online Examples.more_page_2
  = mret (Examples.more_page_2, json_body_text Examples.more_page_2)
  ∧ fetch MD5.md5 Examples.w_online Examples.more_page_2
    = try_catch
        (dispatch Examples.w_online (Request.url Examples.more_page_2)
           Examples.more_page_2 (json_body_text Examples.more_page_2))
        internal_error.
Proof.
  destruct (interception_identity_without_placeholder MD5.md5
              Examples.w_online Examples.more_page_2) as [Hsame Hfetch].
  - evaluate.
  - vm_compute. discriminate.
  - evaluate.
  - split; [exact Hsame|]. apply Hfetch. evaluate.
Defined.


(** The documented body evaluated: the token of the store and the digest
    of the reference implementation. *)
Example documented_body_resigned :
  token_interception MD5.md5 Examples.w_online Examples.signed_post
  = Run (Ret ({| Request.url := Request.url Examples.signed_post;
                 Request.method := "POST";
                 Request.headers :=
                   Headers_of [("Content-Type", "application/json");
                               ("token", "real-token-1")];
                 Request.body := Some Examples.signed_body |},
              Examples.signed_body)) [].
Proof. evaluate. Qed.

(** The documented body sent with the placeholder in both headers, the
    store holding a token with spaces around it: the body takes the token as
    it is, the headers take it without the spaces around the value. *)
Example padded_token_in_both_headers :
  token_interception MD5.md5 Samples.w_padded_token Samples.bearer_post
  = Run (Ret ({| Request.url := Request.url Samples.bearer_post;
                 Request.method := "POST";
                 Request.headers :=
                   Headers_of [("Content-Type", "application/json");
                               ("Authorization", "Bearer  real-token-3");
                               ("token", "real-token-3")];
                 Request.body :=
                   Some (JSON.text
                           ("{'token':' real-token-3 ',"
                            +:+ "'sign':'ccbb66993cce258978c85080edcd9d3e',"
                            +:+ "'time':'1760032301893','app_id':'585690'}")) |},
              JSON.text
                ("{'token':' real-token-3 ',"
                 +:+ "'sign':'ccbb66993cce258978c85080edcd9d3e',"
                 +:+ "'time':'1760032301893','app_id':'585690'}"))) [].
Proof. evaluate. Qed.

(** A truncated body that holds the placeholder: the answer is the generic
    500, and nothing was sent upstream. *)
Lemma malformed_body_fails_request_witness :
  fetch MD5.md5 Examples.w_online Examples.truncated_post
  = Run (Ret (json_response 500
                (VObj [("code", VNum 500);
                       ("msg", VStr "Error: Unexpected token in JSON")]))) [].
Proof.
  apply (malformed_body_fails_request MD5.md5 Examples.w_online
           Examples.truncated_post (VStr "real-token-1") "real-token-1"
           "Unexpected token in JSON" []); evaluate.
Defined.

(** An empty store and a token refresher that answers 200 with a page that
    is not JSON: the answer is the generic 500, after the one call to the
    token refresher. *)
Lemma token_exception_fails_request_witness :
  fetch MD5.md5 Examples.w_refresher_broken Examples.search_post
  = Run (Ret (json_response 500
                (VObj [("code", VNum 500);
                       ("msg", VStr "Error: Unexpected token in JSON")])))
        [token_request Examples.w_refresher_broken].
Proof.
  apply (token_exception_fails_request MD5.md5 Examples.w_refresher_broken
           Examples.search_post "Unexpected token in JSON").
  - evaluate.
  - evaluate.
  - evaluate.
  - right. eexists. split; [evaluate|]. split; evaluate.
Defined.

(** With the same empty store and a token refresher that answers 503, the
    request goes on unchanged, placeholder and signature included. *)
Example token_unavailable_forwards_original :
  token_interception MD5.md5 Examples.w_refresher_down Examples.search_post
  = Run (Ret (Examples.search_post, example_body))
        [token_request Examples.w_refresher_down].
Proof. evaluate. Qed.

(** PUT on the game-detail path is answered 405; GET on [/base/getBaseInfo]
    is served by the static host. *)
Lemma method_mismatch_response_witness :
  fetch MD5.md5 Examples.w_online Examples.put_game_detail
  = Run (Ret {| Response.status := 405;
                Response.headers :=
                  Headers_of (("Content-Type", "application/json") :: allHeaders);
                Response.body :=
                  Some (JSON.text
                          "{'code':405,'msg':'Method not allowed','time':'','data':null}") |})
        []
  ∧ fetch MD5.md5 Examples.w_online Examples.get_base_info
    = Run (Ret {| Response.status := 200;
                  Response.headers :=
                    Headers_of ([("content-type", "application/json")] ++ allHeaders);
                  Response.body := Some (JSON.text "{'code':200,'data':{'version':1}}") |})
          [github_request (Request.url Examples.get_base_info)].
Proof.
  split.
  - refine (proj1 (method_mismatch_response MD5.md5 Examples.w_online
                     Examples.put_game_detail Examples.put_game_detail
                     EmptyString [] ["GET"; "POST"] _ _ _ _) _).
    + evaluate.
    + evaluate.
    + decide_true.
    + decide_true.
    + evaluate.
  - refine (proj2 (method_mismatch_response MD5.md5 Examples.w_online
                     Examples.get_base_info Examples.get_base_info
                     EmptyString [] ["POST"] _ _ _ _) _
              {| http_status := 200;
                 http_headers := [("content-type", "application/json")];
                 http_body := JSON.text "{'code':200,'data':{'version':1}}" |} _).
    + evaluate.
    + evaluate.
    + decide_true.
    + decide_true.
    + vm_compute. discriminate.
    + evaluate.
Defined.

(** C4, as stated, fails: [/base/getBaseInfo] is a known path restricted
    to POST, and a GET to it is answered 200 with the document of the
    static host, not 405. *)
Lemma method_mismatch_not_405 :
  (URL.pathname (Request.url Examples.get_base_info), ["POST"]) ∈ dispatch_table
  ∧ (Request.method Examples.get_base_info ∉ ["POST"])
  ∧ (∃ response,
       outcome (fetch MD5.md5 Examples.w_online Examples.get_base_info) = Ret response
       ∧ Response.status response = 200%Z
       ∧ Response.body response = Some (JSON.text "{'code':200,'data':{'version':1}}")
       ∧ response ≠ method_not_allowed).
Proof.
  split; [decide_true|]. split; [decide_true|].
  eexists. split; [evaluate|]. split; [evaluate|]. split; [evaluate|].
  intros Heq. apply (f_equal Response.status) in Heq. vm_compute in Heq.
  discriminate Heq.
Qed.

(** Page 2 of size 3 over the seven cards of the stored topic, and over
    the seven components of a manifest. *)
Lemma pagination_window_and_echo_witness :
  fetch MD5.md5 Examples.w_online Examples.more_page_2
  = Run (Ret {| Response.status := 200;
                Response.headers :=
                  Headers_of (("Content-Type", "application/json") :: allHeaders);
                Response.body :=
                  Some (JSON.text
                          ("{'code':0,'msg':'','time':'1760032301','data':{'id':7,"
                           +:+ "'title':'Free','page':2,'page_size':3,"
                           +:+ "'card_list':[{'n':4},{'n':5},{'n':6}]}}")) |})
        []
  ∧ ∃ d',
      fetch MD5.md5 Examples.w_online Examples.components_post
      = Run (Ret {| Response.status := 200;
                    Response.headers :=
                      Headers_of (("Content-Type", "application/json") :: allHeaders);
                    Response.body :=
                      Some (JSON.stringify
                              (VObj [("code", VNum 200); ("data", VObj d')])) |})
            [get_request (GITHUB_BASE +:+ "/components/dxvk_manifest")]
      ∧ obj_get d' "list" = VArr [Examples.card 4; Examples.card 5; Examples.card 6]
      ∧ obj_get d' "page" = VNum 2
      ∧ obj_get d' "pageSize" = VNum 3
      ∧ obj_get d' "total" = VNum 7.
Proof.
  destruct (pagination_window_and_echo MD5.md5) as (Hmore & Hcomponents & _).
  split.
  - edestruct (Hmore Examples.w_online Examples.more_page_2) as [Hfetch _].
    + evaluate.
    + evaluate.
    + evaluate.
    + evaluate.
    + evaluate.
    + evaluate.
    + evaluate.
    + vm_compute. discriminate.
    + vm_compute. discriminate.
    + evaluate.
    + discriminate.
    + evaluate.
    + evaluate.
    + evaluate.
    + evaluate.
    + etrans; [exact Hfetch|]. evaluate.
  - edestruct (Hcomponents Examples.w_online Examples.components_post)
      as (d' & Hfetch & Hlist & Hpage & Hsize & Htotal & _).
    + evaluate.
    + evaluate.
    + evaluate.
    + evaluate.
    + evaluate.
    + evaluate.
    + evaluate.
    + evaluate.
    + vm_compute. discriminate.
    + vm_compute. discriminate.
    + evaluate.
    + evaluate.
    + evaluate.
    + evaluate.
    + evaluate.
    + exists d'. split; [exact Hfetch|]. split; [exact Hlist|].
      split; [exact Hpage|]. split; [exact Hsize|exact Htotal].
Defined.

(** C5, as stated, fails. On the seven cards of the stored topic, page 2
    of size 3 is answered by [/card/more] with [page] and [page_size] and
    no [total]; and page -1 of size 3, whose window [[-6, -3)] holds no
    position of the sequence, is answered with the cards 2 to 4, since a
    negative bound of [slice] counts from the end. *)
Lemma card_more_reports_no_total :
  fetch MD5.md5 Examples.w_online Examples.more_page_2
  = Run (Ret (json_response 200
                (envelope 0 EmptyString "1760032301"
                   (VObj (Examples.more_data 2
                            [Examples.card 4; Examples.card 5; Examples.card 6])))))
        []
  ∧ has_key (Examples.more_data 2
               [Examples.card 4; Examples.card 5; Examples.card 6]) "total" = false
  ∧ fetch MD5.md5 Examples.w_online Examples.more_page_minus_1
    = Run (Ret (json_response 200
                  (envelope 0 EmptyString "1760032301"
                     (VObj (Examples.more_data (-1)
                              [Examples.card 2; Examples.card 3; Examples.card 4])))))
          [].
Proof. split; [evaluate|]. split; evaluate. Qed.

(** The search answer of [online]: three items of which two are Steam
    games. *)
Lemma search_list_filter_consistent_witness :
  ∃ d' ids,
    outcome (getGameList Examples.w_online Examples.search_plain EmptyString)
    = Ret (json_response 200
             (VObj (obj_define Examples.search_object "data" (VObj d'))))
    ∧ obj_get d' "list" = VArr Examples.steam_games
    ∧ obj_get d' "total" = total_of 2
    ∧ obj_get d' "all_game_ids" = VArr ids
    ∧ length ids = 2
    ∧ ids !! 1 = Some (VObj [("steam_app_id", VStr "570"); ("game_id", VNum 3)]).
Proof.
  edestruct (search_list_filter_consistent Examples.w_online Examples.search_plain
               EmptyString)
    as (d' & ids & Hresponse & Hlist & Htotal & Hids & Hlength & Hentries).
  - evaluate.
  - evaluate.
  - evaluate.
  - evaluate.
  - repeat constructor; discriminate.
  - exists d', ids. split; [exact Hresponse|]. split; [exact Hlist|].
    split; [exact Htotal|]. split; [exact Hids|]. split; [exact Hlength|].
    apply (Hentries 1 (VObj [("id", VNum 3); ("steam_appid", VStr "570")])).
    evaluate.
Defined.

(** C6, as stated, fails: an upstream answer whose [total] is the number 0
    keeps that total, while the filtered list has one item. *)
Lemma zero_total_left_stale :
  fetch MD5.md5 Examples.w_zero_total Examples.search_plain
  = Run (Ret (json_response 200
                (VObj [("code", VNum 0);
                       ("data",
                        VObj [("list",
                               VArr [VObj [("id", VNum 1);
                                           ("steam_appid", VStr "730")]]);
                              ("total", VNum 0)])])))
        [{| call_url := "https://landscape-api.vgabc.com/search/getGameList";
            call_method := "POST";
            call_headers := Examples.plain_headers;
            call_body := Some (JSON.text "{'keyword':'a'}") |}].
Proof. evaluate. Qed.

(** [?app_id=8870&lang=en] becomes one POST whose body holds both
    parameters; [?app_id=] is answered 400. *)
Lemma game_detail_get_synthesizes_post_witness :
  calls (fetch MD5.md5 Examples.w_online Examples.get_game)
  = [{| call_url := "https://landscape-api.vgabc.com/card/getGameDetail";
        call_method := "POST";
        call_headers :=
          header_list_set Examples.plain_headers "Content-Type" "application/json";
        call_body := Some (JSON.text "{'app_id':'8870','lang':'en'}") |}]
  ∧ Headers_get
      (header_list_set Examples.plain_headers "Content-Type" "application/json") "token"
    = Some "client-token"
  ∧ fetch MD5.md5 Examples.w_online Examples.get_game_empty
    = Run (Ret {| Response.status := 400;
                  Response.headers :=
                    Headers_of (("Content-Type", "application/json") :: allHeaders);
                  Response.body :=
                    Some (JSON.text
                            "{'code':400,'msg':'Missing app_id parameter','time':'','data':null}") |})
          [].
Proof.
  assert (Hmethod : Request.method Examples.get_game = "GET") by evaluate.
  assert (Hpath : URL.pathname (Request.url Examples.get_game) = "/card/getGameDetail")
    by evaluate.
  assert (Hrun : token_interception MD5.md5 Examples.w_online Examples.get_game
                 = Run (Ret (Examples.get_game, EmptyString)) []) by evaluate.
  destruct (game_detail_get_synthesizes_post MD5.md5 Examples.w_online
              Examples.get_game Examples.get_game EmptyString [] Hmethod Hpath Hrun)
    as (_ & Hforward & _).
  destruct (Hforward "8870") as (Hcalls & _ & _ & Hheaders);
    [evaluate|discriminate|].
  split; [exact Hcalls|]. split.
  - etrans; [apply (Hheaders "token"); vm_compute; discriminate|evaluate].
  - refine (proj1 (game_detail_get_synthesizes_post MD5.md5
                     Examples.w_online Examples.get_game_empty
                     Examples.get_game_empty EmptyString [] _ _ _) _).
    + evaluate.
    + evaluate.
    + evaluate.
    + right. evaluate.
Defined.

(** C7, as stated, fails: with [?app_id=] the parameter is present, and
    the answer is the 400 of a missing parameter, without any call
    upstream. *)
Lemma empty_app_id_rejected :
  URL.get (URL.searchParams (Request.url Examples.get_game_empty)) "app_id"
  = Some EmptyString
  ∧ fetch MD5.md5 Examples.w_online Examples.get_game_empty
    = Run (Ret {| Response.status := 400;
                  Response.headers :=
                    Headers_of (("Content-Type", "application/json") :: allHeaders);
                  Response.body :=
                    Some (JSON.text
                            "{'code':400,'msg':'Missing app_id parameter','time':'','data':null}") |})
          [].
Proof. split; evaluate. Qed.

(** An empty free-content store: the index list and [/card/more] answer
    200 with the code 201; the index list asked for with the placeholder,
    when the token store is empty too and the token refresher answers with
    a page that is not JSON, is answered 500. *)
Lemma empty_store_answers_201_witness :
  fetch MD5.md5 Examples.w_no_games Examples.get_index
  = Run (Ret {| Response.status := 200;
                Response.headers :=
                  Headers_of (("Content-Type", "application/json") :: allHeaders);
                Response.body :=
                  Some (JSON.text
                          ("{'code':201,'msg':'No free games available at the moment, "
                           +:+ "please try again later','data':[],'time':'1760032301'}")) |})
        []
  ∧ fetch MD5.md5 Examples.w_no_games Examples.more_first_page
    = Run (Ret {| Response.status := 200;
                  Response.headers :=
                    Headers_of (("Content-Type", "application/json") :: allHeaders);
                  Response.body :=
                    Some (JSON.text
                            "{'code':201,'msg':'No data available','time':'1760032301','data':null}") |})
          []
  ∧ fetch MD5.md5 Samples.w_nothing Samples.get_index_placeholder
    = Run (Ret {| Response.status := 500;
                  Response.headers :=
                    Headers_of (("Content-Type", "application/json") :: allHeaders);
                  Response.body :=
                    Some (JSON.text
                            "{'code':500,'msg':'Error: Unexpected token in JSON'}") |})
          [token_request Samples.w_nothing].
Proof.
  split_and!.
  - refine (proj1 (proj1 (empty_store_answers_201 MD5.md5 Examples.w_no_games
                            Examples.get_index _)
                     Examples.get_index EmptyString [] _) _ _).
    + evaluate.
    + evaluate.
    + evaluate.
    + left. evaluate.
  - refine (proj2 (proj1 (empty_store_answers_201 MD5.md5 Examples.w_no_games
                            Examples.more_first_page _)
                     Examples.more_first_page (JSON.text "{'id':7}") [] _) _ _
              (VObj [("id", VNum 7)]) (VNum 7) _ _ _).
    + evaluate.
    + evaluate.
    + evaluate.
    + evaluate.
    + evaluate.
    + evaluate.
    + evaluate.
  - etrans.
    + refine (proj2 (empty_store_answers_201 MD5.md5 Samples.w_nothing
                       Samples.get_index_placeholder _) _ _ _
                "Unexpected token in JSON" _).
      * evaluate.
      * evaluate.
      * evaluate.
      * evaluate.
      * right.
        exists {| http_status := 200;
                  http_headers := [("content-type", "application/json")];
                  http_body := "<html>starting</html>" |}.
        split; [evaluate|]. split; evaluate.
    + evaluate.
Defined.

(** * Further properties of the handler *)

(** ** The signer and the re-signed body *)

Section ResignProperties.

Variable md5 : string → string.

Lemma obj_replace_keys (o : object) (k : string) (v : value) :
  (obj_replace o k v).*1 = o.*1.
Proof.
  induction o as [|[k' v'] o IH]; [done|]. cbn.
  destruct (String.eqb_spec k' k) as [->|_]; cbn; [done|]. by rewrite IH.
Qed.

Lemma define_sign_keys (o : object) (v : value) :
  filter (λ k, k ≠ "sign") (Object_keys (obj_define o "sign" v))
  = filter (λ k, k ≠ "sign") (Object_keys o).
Proof.
  unfold Object_keys, obj_define. destruct (has_key o "sign").
  - by rewrite obj_replace_keys.
  - change (array_index "sign") with (@None N). cbv iota.
    rewrite fmap_app, filter_app.
    change ([("sign", v)].*1) with ["sign"].
    rewrite filter_cons_False by (intros H; by apply H).
    by rewrite filter_nil, app_nil_r.
Qed.

(** The signer does not look at the [sign] field. *)
Lemma generateSignature_ignores_sign (o : object) (v : value) :
  generateSignature md5 (obj_define o "sign" v) = generateSignature md5 o.
Proof.
  unfold generateSignature. rewrite define_sign_keys.
  set (sortedKeys := merge_sort String.le (filter (λ k, k ≠ "sign") (Object_keys o))).
  rewrite (mapM_result_ext (key_value (obj_define o "sign" v)) (key_value o) sortedKeys);
    [done|].
  apply Forall_forall. intros key Hkey. subst sortedKeys.
  rewrite (merge_sort_Permutation String.le) in Hkey.
  apply list_elem_of_filter in Hkey as [Hne _].
  unfold key_value. rewrite obj_get_define.
  by destruct (String.eqb_spec "sign" key) as [<-|_].
Qed.

(** X1. The body that the interception writes carries its own valid
    signature: it is the serialisation of an object whose [token] is the
    real token, whose [sign] is what the signer returns on that very
    object, and whose other fields are those of the original body. *)
Theorem resigned_body_verifies (o : object) (realToken : value) (body : string) :
  resign md5 (VObj o) realToken = Ret body →
  ∃ signed sig,
    body = JSON.stringify (VObj signed)
    ∧ obj_get signed "token" = realToken
    ∧ obj_get signed "sign" = VStr sig
    ∧ generateSignature md5 signed = Ret sig
    ∧ ∀ k, k ≠ "token" → k ≠ "sign" → obj_get signed k = obj_get o k.
Proof.
  unfold resign.
  destruct (generateSignature md5 (obj_define o "token" realToken)) as [sig| |] eqn:Hsig;
    [|done..].
  intros [= <-].
  exists (obj_define (obj_define o "token" realToken) "sign" (VStr sig)), sig.
  split_and!.
  - done.
  - rewrite !obj_get_define. by literal_eqb.
  - rewrite obj_get_define. by literal_eqb.
  - by rewrite generateSignature_ignores_sign.
  - intros k Htoken Hsign. rewrite !obj_get_define.
    destruct (String.eqb_spec "sign" k) as [<-|_]; [done|].
    by destruct (String.eqb_spec "token" k) as [<-|_].
Qed.

End ResignProperties.

Lemma resigned_body_verifies_witness :
  ∃ signed sig,
    Examples.signed_body = JSON.stringify (VObj signed)
    ∧ obj_get signed "token" = VStr "real-token-1"
    ∧ obj_get signed "sign" = VStr sig
    ∧ generateSignature MD5.md5 signed = Ret sig.
Proof.
  destruct (resigned_body_verifies MD5.md5
              [("token", VStr "fake-token"); ("sign", VStr "x");
               ("time", VStr "1760032301893"); ("app_id", VStr "585690")]
              (VStr "real-token-1") Examples.signed_body)
    as (signed & sig & Hbody & Htoken & Hsign & Hverify & _).
  - evaluate.
  - exists signed, sig. split; [exact Hbody|]. split; [exact Htoken|].
    split; [exact Hsign|exact Hverify].
Defined.

(** ** Reading the token and rewriting the headers *)

Section TokenProperties.

Variable md5 : string → string.

(** X2. The token refresher is called at most once per request, and only
    when the shared store has nothing under its key: reading the token
    makes no outbound call when the store answers, and exactly the one
    fallback call when it does not, whatever that call returns. *)
Theorem resolve_token_calls (w : World) :
  calls (resolve_token w)
  = if missing (TOKEN_STORE_get w "gamehub_token") then [token_request w] else [].
Proof.
  unfold resolve_token. destruct (missing (TOKEN_STORE_get w "gamehub_token")); cbn [negb].
  - apply calls_fetch_then. intros r. destruct (http_ok r); [|done].
    by apply calls_lift_then.
  - by apply calls_lift_then.
Qed.

(** X3. A record in the store decides alone: its [token] field is the
    token, read without any outbound call; and when that field is absent
    or falsy the interception leaves the request as it is, without trying
    the token refresher. *)
Theorem token_store_first (w : World) (text : string) (tokenData : value) :
  TOKEN_STORE_get w "gamehub_token" = Some text →
  text ≠ EmptyString →
  JSON.parse text = Ret tokenData →
  defined tokenData →
  resolve_token w = Run (Ret (prop tokenData "token")) []
  ∧ (truthy (prop tokenData "token") = false →
     ∀ request,
       token_interception md5 w request = Run (Ret (request, json_body_text request)) []).
Proof.
  intros Hstore Htext Hparse Hdefined.
  assert (Hresolve : resolve_token w = Run (Ret (prop tokenData "token")) []).
  { unfold resolve_token. rewrite Hstore.
    replace (missing (Some text)) with false
      by (symmetry; by apply String.eqb_neq).
    cbn [negb]. change (default EmptyString (Some text)) with text.
    by rewrite Hparse, bind_lift_ret, (get_prop _ _ Hdefined). }
  split; [done|]. intros Hfalsy request.
  destruct (shouldReplaceToken request) eqn:Hshould.
  - by apply (interception_unresolved md5 w request (prop tokenData "token")).
  - unfold token_interception. by rewrite Hshould.
Qed.

Lemma header_step_frame (b : bool) (r : result string) (h : Headers)
    (name : string) (f : string → string) :
  let step : M Headers :=
    if b then replacement ← lift r; lift (Headers_set h name (f replacement))
    else mret h in
  calls step = []
  ∧ ∀ h', outcome step = Ret h' →
          ∀ n, header_name n ≠ header_name name →
               Headers_get h' n = Headers_get h n.
Proof.
  destruct b; cbn zeta; [|split; [done|]; by intros h' [= <-]].
  destruct r as [replacement| |]; [|by split..]. rewrite bind_lift_ret.
  split; [done|]. unfold Headers_set.
  destruct (legal_value _); [|done]. intros h' [= <-] n Hn.
  by apply Headers_get_set_other.
Qed.

(** X4. Whatever the interception does, it keeps the URL and the method
    of the request and every header other than [Authorization] and
    [token]; and the only outbound calls it makes are those that read the
    token. *)
Theorem interception_frame (w : World) (request request' : Request.t)
    (bodyText : string) (cs : list FetchCall) :
  token_interception md5 w request = Run (Ret (request', bodyText)) cs →
  Request.url request' = Request.url request
  ∧ Request.method request' = Request.method request
  ∧ (∀ name, header_name name ≠ "authorization" → header_name name ≠ "token" →
             Headers_get (Request.headers request') name
             = Headers_get (Request.headers request) name)
  ∧ cs = (if shouldReplaceToken request then calls (resolve_token w) else []).
Proof.
  intros Hrun.
  destruct (interception_preserves md5 w request request' bodyText cs Hrun)
    as [Hurl Hmethod].
  split; [done|]. split; [done|].
  revert Hrun. unfold token_interception.
  destruct (shouldReplaceToken request); [|by intros [= <- _ <-]].
  destruct (resolve_token w) as [[realToken| |] cs0]; [|done..].
  rewrite bind_run_ret. cbn [calls].
  destruct (truthy realToken); [|intros [= <- _ <-]; by rewrite app_nil_r].
  pose proof (header_step_frame
                (header_includes (Request.headers request) "Authorization" PLACEHOLDER)
                (ToString realToken) (Request.headers request) "Authorization"
                (Str.replace
                   (default EmptyString
                      (Headers_get (Request.headers request) "Authorization"))
                   PLACEHOLDER)) as [Hcalls1 Hframe1].
  cbn zeta in Hcalls1, Hframe1.
  destruct (if header_includes _ _ _ then _ else _) as [[h1| |] cs1];
    [|done..].
  cbn [calls outcome] in Hcalls1, Hframe1. subst cs1.
  specialize (Hframe1 h1 eq_refl). rewrite bind_run_ret.
  pose proof (header_step_frame
                (bool_decide (Headers_get (Request.headers request) "token"
                              = Some PLACEHOLDER))
                (ToString realToken) h1 "token" id) as [Hcalls2 Hframe2].
  cbn zeta in Hcalls2, Hframe2. unfold id in Hcalls2, Hframe2.
  destruct (if bool_decide _ then _ else _) as [[h2| |] cs2]; [|done..].
  cbn [calls outcome] in Hcalls2, Hframe2. subst cs2.
  specialize (Hframe2 h2 eq_refl). rewrite bind_run_ret.
  assert (∀ name, header_name name ≠ "authorization" → header_name name ≠ "token" →
                  Headers_get h2 name = Headers_get (Request.headers request) name)
    as Hframe.
  { intros name Hauth Htoken. by rewrite Hframe2, Hframe1. }
  destruct (_ && _);
    [destruct (JSON.parse (json_body_text request)) as [bodyJson| |];
       [|by intros [=]..];
     rewrite bind_lift_ret;
     destruct (resign md5 bodyJson realToken); [|by intros [=]..];
     rewrite bind_lift_ret
    |destruct (negb _)];
    cbn [mret M_ret outcome calls app];
    intros [= <- _ <-]; (split; [done|by rewrite app_nil_r]).
Qed.

(** X5. A request whose [token] header is the placeholder, and which
    holds it nowhere else, is rewritten in that header alone once a token
    [T] has been read: the header takes [T] without the whitespace around
    it; URL, method and the other headers are kept; the body text read by
    the interception is sent on unchanged, and a request that is not a
    JSON POST is rebuilt without a body. When [T] so trimmed holds a NUL, a
    line feed or a carriage return, the header refuses it: the interception
    throws, and the handler answers 500 without dispatching. *)
Theorem header_only_rewrite (w : World) (request : Request.t) (T : string)
    (cs : list FetchCall) :
  resolve_token w = Run (Ret (VStr T)) cs →
  T ≠ EmptyString →
  Headers_get (Request.headers request) "token" = Some PLACEHOLDER →
  header_includes (Request.headers request) "Authorization" PLACEHOLDER = false →
  Str.includes (json_body_text request) PLACEHOLDER = false →
  let stored := normalize_value T in
  trimmed T stored
  ∧ (single_line stored →
     token_interception md5 w request
     = Run (Ret ({| Request.url := Request.url request;
                    Request.method := Request.method request;
                    Request.headers :=
                      header_list_set (Request.headers request) "token" stored;
                    Request.body :=
                      if String.eqb (json_body_text request) EmptyString then None
                      else Some (json_body_text request) |},
                 json_body_text request)) cs)
  ∧ (¬ single_line stored →
     token_interception md5 w request = Run (Throw "Invalid header value") cs
     ∧ (method_is request "OPTIONS" = false →
        fetch md5 w request
        = Run (Ret {| Response.status := 500;
                      Response.headers :=
                        Headers_of (("Content-Type", "application/json") :: allHeaders);
                      Response.body :=
                        Some (JSON.text
                                "{'code':500,'msg':'Error: Invalid header value'}") |})
              cs))
  ∧ (is_json_post request = false →
     String.eqb (json_body_text request) EmptyString = true).
Proof.
  intros Hresolve HT Htoken Hauth Hbody stored.
  assert (Hshould : shouldReplaceToken request = true).
  { unfold shouldReplaceToken.
    by rewrite (bool_decide_eq_true_2 _ Htoken), orb_true_r. }
  assert (Htruthy : truthy (VStr T) = true).
  { cbn. by destruct (String.eqb_spec T EmptyString). }
  assert (Hwritable : writable (Request.headers request) T = legal_value stored).
  { unfold writable, written_values.
    rewrite Hauth, (bool_decide_eq_true_2 _ Htoken). cbn. by rewrite andb_true_r. }
  split_and!.
  - apply normalize_value_trimmed.
  - intros Hlegal%legal_value_single_line.
    rewrite (interception_resolved md5 w request (VStr T) T cs);
      [|done..|by rewrite Hwritable].
    rewrite bind_run_ret. cbn zeta. rewrite Hbody, andb_false_r.
    unfold replaced_headers. rewrite Hauth, (bool_decide_eq_true_2 _ Htoken).
    destruct (String.eqb (json_body_text request) EmptyString); cbn;
      by rewrite app_nil_r.
  - intros Hillegal.
    assert (legal_value stored = false) as Hfalse.
    { destruct (legal_value stored) eqn:Hlegal; [|done].
      by apply legal_value_single_line in Hlegal. }
    assert (token_interception md5 w request = Run (Throw "Invalid header value") cs)
      as Hthrow.
    { apply (interception_unwritable md5 w request (VStr T) T); [done..|].
      by rewrite Hwritable. }
    split; [done|]. intros Hmethod.
    by rewrite (fetch_interception_throws md5 w request _ cs Hmethod Hthrow).
  - unfold json_body_text. by intros ->.
Qed.

End TokenProperties.

(** The record of [token_store] gives the token without a call; a record
    without a [token] field turns the interception off. *)
Lemma token_store_first_witness :
  resolve_token Examples.w_online = Run (Ret (VStr "real-token-1")) []
  ∧ token_interception MD5.md5 Samples.w_no_token_field Examples.signed_post
    = Run (Ret (Examples.signed_post, example_body)) [].
Proof.
  split.
  - refine (proj1 (token_store_first MD5.md5 Examples.w_online
                     (JSON.text "{'token':'real-token-1','expires':1760035901}")
                     (VObj [("token", VStr "real-token-1"); ("expires", VNum 1760035901)])
                     _ _ _ _)).
    + evaluate.
    + discriminate.
    + evaluate.
    + split; discriminate.
  - refine (proj2 (token_store_first MD5.md5 Samples.w_no_token_field
                     (JSON.text "{'expires':1760035901}")
                     (VObj [("expires", VNum 1760035901)]) _ _ _ _) _
              Examples.signed_post).
    + evaluate.
    + discriminate.
    + evaluate.
    + split; discriminate.
    + evaluate.
Defined.

(** The re-signed example keeps its URL, its method and its
    [Content-Type]. *)
Lemma interception_frame_witness :
  ∃ request' bodyText,
    token_interception MD5.md5 Examples.w_online Examples.signed_post
    = Run (Ret (request', bodyText)) []
    ∧ Request.url request' = Request.url Examples.signed_post
    ∧ Request.method request' = "POST"
    ∧ Headers_get (Request.headers request') "Content-Type" = Some "application/json".
Proof.
  exists {| Request.url := Request.url Examples.signed_post;
            Request.method := "POST";
            Request.headers := replaced_headers Examples.json_headers "real-token-1";
            Request.body := Some Examples.signed_body |}, Examples.signed_body.
  assert (Hrun : token_interception MD5.md5 Examples.w_online Examples.signed_post
                 = Run (Ret ({| Request.url := Request.url Examples.signed_post;
                                Request.method := "POST";
                                Request.headers :=
                                  replaced_headers Examples.json_headers "real-token-1";
                                Request.body := Some Examples.signed_body |},
                             Examples.signed_body)) []) by evaluate.
  destruct (interception_frame MD5.md5 _ _ _ _ _ Hrun)
    as (Hurl & Hmethod & Hheaders & _).
  split; [exact Hrun|]. split; [exact Hurl|]. split; [exact Hmethod|].
  etrans; [apply (Hheaders "Content-Type"); vm_compute; discriminate|evaluate].
Defined.

(** A GET and a plain-text POST whose [token] header is the placeholder;
    a token with spaces around it; a token that holds a line feed. *)
Lemma header_only_rewrite_witness :
  token_interception MD5.md5 Examples.w_online Samples.get_with_placeholder
  = Run (Ret ({| Request.url := Request.url Samples.get_with_placeholder;
                 Request.method := "GET";
                 Request.headers :=
                   header_list_set Examples.json_headers "token" "real-token-1";
                 Request.body := None |}, EmptyString)) []
  ∧ token_interception MD5.md5 Examples.w_online Samples.text_post
    = Run (Ret ({| Request.url := Request.url Samples.text_post;
                   Request.method := "POST";
                   Request.headers :=
                     header_list_set (Request.headers Samples.text_post)
                       "token" "real-token-1";
                   Request.body := None |}, EmptyString)) []
  ∧ token_interception MD5.md5 Samples.w_padded_token Samples.get_with_placeholder
    = Run (Ret ({| Request.url := Request.url Samples.get_with_placeholder;
                   Request.method := "GET";
                   Request.headers :=
                     header_list_set Examples.json_headers "token" "real-token-3";
                   Request.body := None |}, EmptyString)) []
  ∧ fetch MD5.md5 Samples.w_broken_token Samples.get_with_placeholder
    = Run (Ret {| Response.status := 500;
                  Response.headers :=
                    Headers_of (("Content-Type", "application/json") :: allHeaders);
                  Response.body :=
                    Some (JSON.text
                            "{'code':500,'msg':'Error: Invalid header value'}") |})
          [].
Proof.
  split_and!.
  - refine (proj1 (proj2 (header_only_rewrite MD5.md5 Examples.w_online
                            Samples.get_with_placeholder "real-token-1" []
                            _ _ _ _ _)) _); try evaluate; try discriminate.
    by apply legal_value_single_line.
  - refine (proj1 (proj2 (header_only_rewrite MD5.md5 Examples.w_online
                            Samples.text_post "real-token-1" [] _ _ _ _ _)) _);
      try evaluate; try discriminate.
    by apply legal_value_single_line.
  - refine (proj1 (proj2 (header_only_rewrite MD5.md5 Samples.w_padded_token
                            Samples.get_with_placeholder " real-token-3 " []
                            _ _ _ _ _)) _); try evaluate; try discriminate.
    by apply legal_value_single_line.
  - refine (proj2 (proj1 (proj2 (proj2
              (header_only_rewrite MD5.md5 Samples.w_broken_token
                 Samples.get_with_placeholder
                 (String "r" (String "e" (String "a" (String "l" (String "010"
                    (String "t" (String "o" (String "k" (String "e" (String "n"
                       EmptyString)))))))))) []
                 _ _ _ _ _))) _) _); try evaluate; try discriminate.
    intros Hline%legal_value_single_line. discriminate Hline.
Defined.


(** ** The fixed headers *)

Section HeaderProperties.

Variable md5 : string → string.

Lemma carries_content_type (status : Z) (type : string) (body : option string) :
  carries_all_headers
    {| Response.status := status;
       Response.headers := Headers_of (("Content-Type", type) :: allHeaders);
       Response.body := body |}.
Proof. repeat constructor. Qed.

Lemma carries_json_response (status : Z) (v : value) :
  carries_all_headers (json_response status v).
Proof. apply carries_content_type. Qed.

Lemma uniform_ret (response : Response.t) :
  carries_all_headers response → uniform (mret response).
Proof. intros Hcarries r [= <-]. done. Qed.

Lemma uniform_json (status : Z) (v : value) : uniform (mret (json_response status v)).
Proof. apply uniform_ret, carries_json_response. Qed.

Lemma uniform_bind {A} (m : M A) (k : A → M Response.t) :
  (∀ a, uniform (k a)) → uniform (m ≫= k).
Proof.
  intros Hk response. destruct m as [[a| |] cs]; cbn; [|done..]. apply Hk.
Qed.

Lemma uniform_try_catch (m : M Response.t) (h : string → M Response.t) :
  uniform m → (∀ e, uniform (h e)) → uniform (try_catch m h).
Proof.
  intros Hm Hh response. destruct m as [[a|e|] cs]; cbn; [apply Hm|apply Hh|done].
Qed.

Lemma uniform_outside : uniform (lift Outside).
Proof. by intros response. Qed.

Ltac uniform_step :=
  first
    [ apply uniform_json
    | apply uniform_outside
    | apply uniform_ret, carries_content_type
    | apply uniform_bind; intros ?
    | apply uniform_try_catch; [|intros ?]
    | match goal with
      | |- uniform (if ?b then _ else _) => destruct b
      | |- uniform (match ?x with _ => _ end) => destruct x
      | |- uniform (let '(_, _) := ?x in _) => destruct x
      end ].

Lemma uniform_getGameDetail w url request bodyText :
  uniform (getGameDetail w url request bodyText).
Proof. unfold getGameDetail. repeat uniform_step. Qed.

Lemma uniform_getGameList w request bodyText : uniform (getGameList w request bodyText).
Proof. unfold getGameList. repeat uniform_step. Qed.

Lemma uniform_getNewsList w request : uniform (getNewsList w request).
Proof. unfold getNewsList. repeat uniform_step. Qed.

Lemma uniform_getNewsGuideDetail w request : uniform (getNewsGuideDetail w request).
Proof. unfold getNewsGuideDetail. repeat uniform_step. Qed.

Lemma uniform_getIndexList w request : uniform (getIndexList w request).
Proof. unfold getIndexList. repeat uniform_step. Qed.

Lemma uniform_card_more w request : uniform (card_more w request).
Proof. unfold card_more. repeat uniform_step. Qed.

Lemma uniform_forward_as_is w upstream request bodyText :
  uniform (forward_as_is w upstream request bodyText).
Proof. unfold forward_as_is. repeat uniform_step. Qed.

Lemma uniform_static_json w location failure : uniform (static_json w location failure).
Proof. unfold static_json. repeat uniform_step. Qed.

Lemma uniform_getSteamHost w : uniform (getSteamHost w).
Proof. unfold getSteamHost. repeat uniform_step. Qed.

Lemma uniform_getGameIcon w : uniform (getGameIcon w).
Proof. unfold getGameIcon. repeat uniform_step. Qed.

Lemma uniform_getComponentList w request : uniform (getComponentList w request).
Proof. unfold getComponentList. repeat uniform_step. Qed.

Lemma dispatch_uniform_or_relayed w url request bodyText response :
  outcome (dispatch w url request bodyText) = Ret response →
  carries_all_headers response ∨ relayed w url response.
Proof.
  unfold dispatch.
  repeat match goal with
         | |- context [if ?b then _ else _] => destruct b
         end;
    try (intros Hout; left; revert response Hout;
         first [ apply uniform_getGameDetail | apply uniform_getGameList
               | apply uniform_getNewsList | apply uniform_getNewsGuideDetail
               | apply uniform_getIndexList | apply uniform_card_more
               | apply uniform_forward_as_is | apply uniform_static_json
               | apply uniform_getSteamHost | apply uniform_getGameIcon
               | apply uniform_getComponentList ]).
  unfold proxy_to_github, fetch_url, fetch_. fold (github_request url).
  destruct (network w (github_request url)) as [r| |] eqn:Hnet; cbn; [|done..].
  intros [= <-]. right. by exists r.
Qed.

(** X6. The handler never throws, and each of its responses either
    carries every fixed CORS and no-cache header with exactly its fixed
    value, or is the answer of the static host relayed by the fall-through
    (its status and body, the fixed headers appended to its own). *)
Theorem responses_carry_fixed_headers (w : World) (request : Request.t) :
  (∀ message, outcome (fetch md5 w request) ≠ Throw message)
  ∧ (∀ response,
       outcome (fetch md5 w request) = Ret response →
       carries_all_headers response ∨ relayed w (Request.url request) response).
Proof.
  unfold fetch. destruct (method_is request "OPTIONS").
  { split; [done|]. intros response [= <-]. left. repeat constructor. }
  destruct (token_interception md5 w request) as [[[request' bodyText]| |] cs];
    cbn [mbind M_bind outcome calls].
  - destruct (dispatch w (Request.url request) request' bodyText)
      as [[r|e|] cs'] eqn:Hdispatch; cbn.
    + split; [done|]. intros response [= <-].
      apply (dispatch_uniform_or_relayed w (Request.url request) request' bodyText).
      by rewrite Hdispatch.
    + split; [done|]. intros response [= <-]. left. apply carries_json_response.
    + split; [done|]. done.
  - split; [done|]. intros response [= <-]. left. apply carries_json_response.
  - split; [done|]. done.
Qed.

End HeaderProperties.

(** The answer to the signed example carries the fixed headers. *)
Lemma responses_carry_fixed_headers_witness :
  carries_all_headers
    {| Response.status := 200;
       Response.headers := Headers_of (("Content-Type", "application/json") :: allHeaders);
       Response.body := Some (JSON.text "{'code':0,'data':{'name':'g'}}") |}.
Proof.
  destruct (proj2 (responses_carry_fixed_headers MD5.md5 Examples.w_online
                     Examples.signed_post)
              {| Response.status := 200;
                 Response.headers :=
                   Headers_of (("Content-Type", "application/json") :: allHeaders);
                 Response.body := Some (JSON.text "{'code':0,'data':{'name':'g'}}") |})
    as [Hcarries|(r & Hnet & Hrelayed)].
  - evaluate.
  - exact Hcarries.
  - vm_compute in Hnet. injection Hnet as <-.
    apply (f_equal Response.status) in Hrelayed. vm_compute in Hrelayed.
    discriminate Hrelayed.
Defined.


(** ** The fall-through *)

Section ProxyProperties.

Variable md5 : string → string.

Lemma dispatch_unknown_path (w : World) (url : URL.t) (request : Request.t)
    (bodyText : string) :
  URL.pathname url ∉ dispatch_table.*1 →
  dispatch w url request bodyText = proxy_to_github w url.
Proof.
  intros Hnot. unfold dispatch_table in Hnot. cbn [fmap list_fmap fst] in Hnot.
  repeat (apply not_elem_of_cons in Hnot as [?%String.eqb_neq Hnot]).
  unfold dispatch.
  repeat match goal with
         | H : String.eqb (URL.pathname url) _ = false |- _ => rewrite H; clear H
         end.
  done.
Qed.

(** X7. A request for a path that the dispatch table does not know. A
    preflight is answered 200 without a body and without any call. When the
    token interception throws, the response is the generic 500 and nothing
    goes to the static host. Otherwise the request is answered by the
    static host: exactly one plain GET goes out, for the same path under
    the static base, carrying neither the headers nor the body of the
    client; the status and the body of the answer are those of the
    response, and when that GET is rejected the response is the generic
    500. *)
Theorem unknown_path_is_relayed (w : World) (request : Request.t) :
  URL.pathname (Request.url request) ∉ dispatch_table.*1 →
  let upstream :=
    {| call_url := GITHUB_BASE +:+ URL.pathname (Request.url request);
       call_method := "GET";
       call_headers := ∅;
       call_body := None |} in
  let failure (message : string) :=
    {| Response.status := 500;
       Response.headers :=
         Headers_of (("Content-Type", "application/json") :: allHeaders);
       Response.body :=
         Some (JSON.stringify
                 (VObj [("code", VNum 500);
                        ("msg", VStr ("Error: " +:+ message))])) |} in
  (Request.method request = "OPTIONS" →
   fetch md5 w request
   = Run (Ret {| Response.status := 200;
                 Response.headers := Headers_of allHeaders;
                 Response.body := None |}) [])
  ∧ (Request.method request ≠ "OPTIONS" →
     (∀ message cs,
        token_interception md5 w request = Run (Throw message) cs →
        fetch md5 w request = Run (Ret (failure message)) cs)
     ∧ (∀ request' bodyText cs,
          token_interception md5 w request = Run (Ret (request', bodyText)) cs →
          calls (fetch md5 w request) = (cs ++ [upstream])%list
          ∧ (∀ r, network w upstream = Ret r →
                  outcome (fetch md5 w request)
                  = Ret {| Response.status := http_status r;
                           Response.headers :=
                             Headers_of (http_headers r ++ allHeaders);
                           Response.body := Some (http_body r) |})
          ∧ (∀ message, network w upstream = Throw message →
                        outcome (fetch md5 w request) = Ret (failure message)))).
Proof.
  intros Hpath upstream failure. split.
  - intros Hmethod. unfold fetch, method_is. by rewrite Hmethod.
  - intros Hmethod%String.eqb_neq. fold (method_is request "OPTIONS") in Hmethod.
    split.
    + intros message cs Hthrow.
      by rewrite (fetch_interception_throws md5 w request message cs Hmethod Hthrow).
    + intros request' bodyText cs Hrun.
      rewrite (fetch_after_interception md5 w request request' bodyText cs) by done.
      rewrite (dispatch_unknown_path w (Request.url request) request' bodyText Hpath).
      unfold proxy_to_github, fetch_url, fetch_, get_request. fold upstream.
      destruct (network w upstream) as [r|e|]; cbn.
      * split; [done|]. split; [by intros ? [= <-]|done].
      * split; [by rewrite app_nil_r|]. split; [done|by intros ? [= <-]].
      * done.
Qed.

End ProxyProperties.

(** A document of the static host, asked for with the placeholder in the
    [token] header: the host sees neither header nor token. The same
    document asked for when the token cannot be read: the generic 500,
    after the one call to the token refresher. *)
Lemma unknown_path_is_relayed_witness :
  calls (fetch MD5.md5 Examples.w_online Samples.get_manifest)
  = [{| call_url := GITHUB_BASE +:+ "/components/dxvk_manifest";
        call_method := "GET";
        call_headers := ∅;
        call_body := None |}]
  ∧ outcome (fetch MD5.md5 Examples.w_online Samples.get_manifest)
    = Ret {| Response.status := 200;
             Response.headers :=
               Headers_of ([("content-type", "application/json")] ++ allHeaders);
             Response.body := Some Examples.manifest |}
  ∧ fetch MD5.md5 Examples.w_refresher_broken Samples.get_manifest
    = Run (Ret {| Response.status := 500;
                  Response.headers :=
                    Headers_of (("Content-Type", "application/json") :: allHeaders);
                  Response.body :=
                    Some (JSON.text
                            "{'code':500,'msg':'Error: Unexpected token in JSON'}") |})
          [token_request Examples.w_refresher_broken].
Proof.
  assert (Hpath : URL.pathname (Request.url Samples.get_manifest)
                  ∉ dispatch_table.*1) by decide_true.
  assert (Hmethod : Request.method Samples.get_manifest ≠ "OPTIONS")
    by (vm_compute; discriminate).
  destruct (proj2 (proj2 (unknown_path_is_relayed MD5.md5 Examples.w_online
                            Samples.get_manifest Hpath) Hmethod)
              {| Request.url := Request.url Samples.get_manifest;
                 Request.method := "GET";
                 Request.headers :=
                   header_list_set Examples.json_headers "token" "real-token-1";
                 Request.body := None |} EmptyString [])
    as (Hcalls & Hanswer & _).
  - evaluate.
  - split; [exact Hcalls|]. split.
    + apply (Hanswer {| http_status := 200;
                        http_headers := [("content-type", "application/json")];
                        http_body := Examples.manifest |}).
      evaluate.
    + etrans.
      * apply (proj1 (proj2 (unknown_path_is_relayed MD5.md5
                               Examples.w_refresher_broken Samples.get_manifest Hpath)
                        Hmethod)
                 "Unexpected token in JSON" [token_request Examples.w_refresher_broken]).
        evaluate.
      * evaluate.
Defined.

(** ** The game-detail endpoint *)

Section GameDetailProperties.

Lemma obj_get_delete (o : object) (k k' : string) :
  obj_get (obj_delete o k) k' = if String.eqb k k' then VUndefined else obj_get o k'.
Proof.
  unfold obj_delete. induction o as [|[k1 v1] o IH].
  - cbn. by destruct (String.eqb k k').
  - rewrite filter_cons. cbn [fst]. destruct (decide (k1 ≠ k)) as [Hne|Heq].
    + cbn [obj_get]. rewrite IH.
      destruct (String.eqb_spec k1 k') as [->|_]; [|done].
      by destruct (String.eqb_spec k k') as [->|_].
    + apply dec_stable in Heq as ->. rewrite IH. cbn [obj_get].
      by destruct (String.eqb_spec k k').
Qed.

Lemma has_key_delete (o : object) (k : string) : has_key (obj_delete o k) k = false.
Proof.
  unfold has_key, obj_delete. apply bool_decide_eq_false.
  intros Hin. apply list_elem_of_fmap in Hin as [[k1 v1] [-> Hin]].
  apply list_elem_of_filter in Hin as [Hne _]. by apply Hne.
Qed.

Lemma has_key_delete_other (o : object) (k k' : string) :
  has_key o k' = false → has_key (obj_delete o k) k' = false.
Proof.
  unfold has_key, obj_delete. intros Hnot%bool_decide_eq_false.
  apply bool_decide_eq_false. intros Hin. apply Hnot.
  apply list_elem_of_fmap in Hin as [kv [-> Hin]].
  apply list_elem_of_filter in Hin as [_ Hin].
  apply list_elem_of_fmap. by exists kv.
Qed.

Lemma substring_prefix (n : nat) (s : string) :
  String.length (String.substring 0 n s) = (n `min` String.length s)%nat
  ∧ String.prefix (String.substring 0 n s) s = true.
Proof.
  revert s. induction n as [|n IH]; intros [|c s]; cbn; try done.
  destruct (IH s) as [Hlen Hpre]. split; [by rewrite Hlen|].
  by destruct (Ascii.ascii_dec c c).
Qed.

(** X8. The game-detail endpoint strips exactly two fields. For a POST
    whose upstream answer is a JSON object with an object under [data], the
    response has status 200, whatever the upstream status, and is the
    answer with [recommend_game] and [card_line_data] removed from [data];
    every other field of [data] and of the answer keeps its value. *)
Theorem game_detail_strips_two_fields (w : World) (url : URL.t)
    (request : Request.t) (bodyText : string) (r : HttpResponse) (o d : object) :
  Request.method request = "POST" →
  let upstream :=
    {| call_url := "https://landscape-api.vgabc.com/card/getGameDetail";
       call_method := "POST";
       call_headers :=
         header_list_set (Request.headers request) "Content-Type" "application/json";
       call_body := Some (body_text request bodyText) |} in
  network w upstream = Ret r →
  JSON.parse (http_body r) = Ret (VObj o) →
  obj_get o "data" = VObj d →
  let stripped := obj_delete (obj_delete d "recommend_game") "card_line_data" in
  getGameDetail w url request bodyText
  = Run (Ret (json_response 200 (VObj (obj_define o "data" (VObj stripped)))))
        [upstream]
  ∧ has_key stripped "recommend_game" = false
  ∧ has_key stripped "card_line_data" = false
  ∧ (∀ k, k ≠ "recommend_game" → k ≠ "card_line_data" →
          obj_get stripped k = obj_get d k)
  ∧ (∀ k, k ≠ "data" →
          obj_get (obj_define o "data" (VObj stripped)) k = obj_get o k).
Proof.
  intros Hmethod upstream Hnet Hparse Hdata stripped. split_and!.
  - unfold getGameDetail. rewrite Hmethod. literal_eqb.
    rewrite Headers_set_content_type, bind_lift_ret.
    unfold fetch_. fold upstream. rewrite Hnet, bind_run_ret, Hparse.
    assert (strip_recommendations (VObj o)
            = Ret (VObj (obj_define o "data" (VObj stripped)))) as ->.
    { unfold strip_recommendations. cbn [get]. by rewrite Hdata. }
    by rewrite bind_lift_ret.
  - apply has_key_delete_other, has_key_delete.
  - apply has_key_delete.
  - intros k Hk1 Hk2. unfold stripped. rewrite !obj_get_delete.
    destruct (String.eqb_spec "card_line_data" k) as [<-|_]; [done|].
    by destruct (String.eqb_spec "recommend_game" k) as [<-|_].
  - intros k Hk. rewrite obj_get_define.
    by destruct (String.eqb_spec "data" k) as [<-|_].
Qed.

(** X9. When the upstream answer to the game-detail endpoint is not JSON,
    the response is a 500 whose body is the envelope with code 500, an
    empty [time], [null] data and a message that quotes the answer: the
    fixed text followed by the first 100 characters of the answer, all of
    it when it is shorter. *)
Theorem game_detail_invalid_answer (w : World) (url : URL.t)
    (request : Request.t) (bodyText : string) (r : HttpResponse) (message : string) :
  Request.method request = "POST" →
  let upstream :=
    {| call_url := "https://landscape-api.vgabc.com/card/getGameDetail";
       call_method := "POST";
       call_headers :=
         header_list_set (Request.headers request) "Content-Type" "application/json";
       call_body := Some (body_text request bodyText) |} in
  network w upstream = Ret r →
  JSON.parse (http_body r) = Throw message →
  let snippet := String.substring 0 100 (http_body r) in
  getGameDetail w url request bodyText
  = Run (Ret {| Response.status := 500;
                Response.headers :=
                  Headers_of (("Content-Type", "application/json") :: allHeaders);
                Response.body :=
                  Some (JSON.stringify
                          (VObj [("code", VNum 500);
                                 ("msg",
                                  VStr ("Chinese server returned invalid response: "
                                        +:+ snippet));
                                 ("time", VStr EmptyString);
                                 ("data", VNull)])) |})
        [upstream]
  ∧ String.length snippet = (100 `min` String.length (http_body r))%nat
  ∧ String.prefix snippet (http_body r) = true.
Proof.
  intros Hmethod upstream Hnet Hparse snippet.
  split; [|apply substring_prefix].
  unfold getGameDetail. rewrite Hmethod. literal_eqb.
  rewrite Headers_set_content_type, bind_lift_ret.
  unfold fetch_. fold upstream. by rewrite Hnet, bind_run_ret, Hparse.
Qed.

End GameDetailProperties.
Lemma game_detail_strips_two_fields_witness :
  let stripped := obj_delete (obj_delete [("name", VStr "g"); ("recommend_game", VArr [VNum 1])]
                                "recommend_game") "card_line_data" in
  getGameDetail Examples.w_online (Examples.url "/card/getGameDetail" [])
    Samples.detail_post Samples.detail_body
  = Run (Ret (json_response 200
                (VObj (obj_define
                         [("code", VNum 0);
                          ("data", VObj [("name", VStr "g");
                                         ("recommend_game", VArr [VNum 1])])]
                         "data" (VObj stripped)))))
        [{| call_url := "https://landscape-api.vgabc.com/card/getGameDetail";
            call_method := "POST";
            call_headers :=
              header_list_set Examples.plain_headers "Content-Type" "application/json";
            call_body := Some Samples.detail_body |}]
  ∧ has_key stripped "recommend_game" = false
  ∧ has_key stripped "card_line_data" = false
  ∧ (∀ k, k ≠ "recommend_game" → k ≠ "card_line_data" →
          obj_get stripped k
          = obj_get [("name", VStr "g"); ("recommend_game", VArr [VNum 1])] k)
  ∧ (∀ k, k ≠ "data" →
          obj_get (obj_define
                     [("code", VNum 0);
                      ("data", VObj [("name", VStr "g");
                                     ("recommend_game", VArr [VNum 1])])]
                     "data" (VObj stripped)) k
          = obj_get [("code", VNum 0);
                     ("data", VObj [("name", VStr "g");
                                    ("recommend_game", VArr [VNum 1])])] k).
Proof.
  refine (game_detail_strips_two_fields Examples.w_online
            (Examples.url "/card/getGameDetail" []) Samples.detail_post
            Samples.detail_body
            {| http_status := 200;
               http_headers := [("content-type", "application/json")];
               http_body := JSON.text "{'code':0,'data':{'name':'g','recommend_game':[1]}}" |}
            [("code", VNum 0);
             ("data", VObj [("name", VStr "g"); ("recommend_game", VArr [VNum 1])])]
            [("name", VStr "g"); ("recommend_game", VArr [VNum 1])] _ _ _ _);
    evaluate.
Defined.

Lemma game_detail_invalid_answer_witness :
  getGameDetail Samples.w_detail_html (Examples.url "/card/getGameDetail" [])
    Samples.detail_post Samples.detail_body
  = Run (Ret {| Response.status := 500;
                Response.headers :=
                  Headers_of (("Content-Type", "application/json") :: allHeaders);
                Response.body :=
                  Some (JSON.text
                          ("{'code':500,'msg':'Chinese server returned invalid response: "
                           +:+ "<html>Bad Gateway</html>','time':'','data':null}")) |})
        [{| call_url := "https://landscape-api.vgabc.com/card/getGameDetail";
            call_method := "POST";
            call_headers :=
              header_list_set Examples.plain_headers "Content-Type" "application/json";
            call_body := Some Samples.detail_body |}]
  ∧ String.length "<html>Bad Gateway</html>" = 24%nat
  ∧ String.prefix "<html>Bad Gateway</html>" "<html>Bad Gateway</html>" = true.
Proof.
  refine (game_detail_invalid_answer Samples.w_detail_html
            (Examples.url "/card/getGameDetail" []) Samples.detail_post
            Samples.detail_body
            {| http_status := 502;
               http_headers := [("content-type", "application/json")];
               http_body := "<html>Bad Gateway</html>" |}
            "Unexpected token in JSON" _ _ _);
    evaluate.
Defined.

(** ** Statuses and outbound calls of the endpoints *)

Section StatusProperties.

Lemma within_json (statuses : list Z) (status : Z) (v : value) :
  status ∈ statuses → answers_within statuses (mret (json_response status v)).
Proof. intros Hin response [= <-]. done. Qed.

Lemma within_outside (statuses : list Z) : answers_within statuses (lift Outside).
Proof. by intros response. Qed.

Lemma within_bind {A} (statuses : list Z) (m : M A) (k : A → M Response.t) :
  (∀ a, answers_within statuses (k a)) → answers_within statuses (m ≫= k).
Proof.
  intros Hk response. destruct m as [[a| |] cs]; cbn; [|done..]. apply Hk.
Qed.

Lemma within_try_catch (statuses : list Z) (m : M Response.t)
    (handler : string → M Response.t) :
  answers_within statuses m →
  (∀ e, answers_within statuses (handler e)) →
  answers_within statuses (try_catch m handler).
Proof.
  intros Hm Hh response. destruct m as [[a|e|] cs]; cbn; [apply Hm|apply Hh|done].
Qed.

Lemma try_catch_contains {A} (m : M A) (handler : string → M A) :
  (∀ e e', outcome (handler e) ≠ Throw e') →
  ∀ e, outcome (try_catch m handler) ≠ Throw e.
Proof.
  intros Hh e. destruct m as [[a|e0|] cs]; cbn; [done|apply Hh|done].
Qed.

Ltac within_step :=
  first
    [ apply within_json; set_solver
    | apply within_outside
    | apply within_bind; intros ?
    | apply within_try_catch; [|intros ?]
    | match goal with
      | |- answers_within _ (if ?b then _ else _) => destruct b
      | |- answers_within _ (match ?x with _ => _ end) => destruct x
      end ].

Lemma at_most_ret {A} (n : nat) (a : A) : issues_at_most n (mret a).
Proof. unfold issues_at_most. cbn. lia. Qed.

Lemma at_most_lift {A} (n : nat) (r : result A) : issues_at_most n (lift r).
Proof. unfold issues_at_most. cbn. lia. Qed.

Lemma at_most_fetch (n : nat) (w : World) (c : FetchCall) :
  issues_at_most (S n) (fetch_ w c).
Proof. unfold issues_at_most. cbn. lia. Qed.

Lemma at_most_bind {A B} (i j : nat) (m : M A) (k : A → M B) :
  issues_at_most i m → (∀ a, issues_at_most j (k a)) →
  issues_at_most (i + j) (m ≫= k).
Proof.
  unfold issues_at_most. intros Hm Hk. destruct m as [[a| |] cs]; cbn in *; [|lia..].
  rewrite length_app. specialize (Hk a). lia.
Qed.

Lemma at_most_try_catch {A} (n : nat) (m : M A) (handler : string → M A) :
  issues_at_most n m → (∀ e, issues_at_most 0 (handler e)) →
  issues_at_most n (try_catch m handler).
Proof.
  unfold issues_at_most. intros Hm Hh. destruct m as [[a|e|] cs]; cbn in *; [done| |done].
  rewrite length_app. specialize (Hh e). lia.
Qed.

Ltac at_most_step :=
  first
    [ apply at_most_ret
    | apply at_most_lift
    | match goal with
      | |- issues_at_most ?n (mbind _ (lift _)) =>
          apply (at_most_bind 0 n); [apply at_most_lift|intros ?]
      | |- issues_at_most (S ?n) (mbind _ (fetch_ _ _)) =>
          apply (at_most_bind 1 n); [apply at_most_fetch|intros ?]
      | |- issues_at_most (S ?n) (mbind _ (fetch_url _ _)) =>
          apply (at_most_bind 1 n); [apply at_most_fetch|intros ?]
      | |- issues_at_most ?n (mbind _ (if ?b then _ else _)) =>
          apply (at_most_bind 0 n); [destruct b|intros ?]
      | |- issues_at_most _ (try_catch _ _) =>
          apply at_most_try_catch; [|intros ?]
      | |- issues_at_most _ (if ?b then _ else _) => destruct b
      | |- issues_at_most _ (match ?x with _ => _ end) => destruct x
      end ].

(** X10. The endpoints served from the key-value store never reach the
    network and never throw: [/card/getIndexList] issues no outbound call
    and answers 200 or 500, [/card/more] issues none and answers 200, 400,
    404 or 500, whatever the store and the request hold. *)
Theorem cache_endpoints_answer_locally (w : World) (request : Request.t) :
  (issues_at_most 0 (getIndexList w request)
   ∧ answers_within [200; 500]%Z (getIndexList w request)
   ∧ ∀ e, outcome (getIndexList w request) ≠ Throw e)
  ∧ (issues_at_most 0 (card_more w request)
     ∧ answers_within [200; 400; 404; 500]%Z (card_more w request)
     ∧ ∀ e, outcome (card_more w request) ≠ Throw e).
Proof.
  split; split_and!.
  - unfold getIndexList. repeat at_most_step.
  - unfold getIndexList. repeat within_step.
  - by apply try_catch_contains.
  - unfold card_more. repeat at_most_step.
  - unfold card_more. repeat within_step.
  - by apply try_catch_contains.
Qed.

Section Endpoints.

Variables (w : World) (url : URL.t) (request : Request.t).
Variables (bodyText upstream location failure : string).

Lemma at_most_getGameDetail : issues_at_most 1 (getGameDetail w url request bodyText).
Proof. unfold getGameDetail. repeat at_most_step. Qed.

Lemma at_most_getGameList : issues_at_most 1 (getGameList w request bodyText).
Proof. unfold getGameList. repeat at_most_step. Qed.

Lemma at_most_getNewsList : issues_at_most 1 (getNewsList w request).
Proof. unfold getNewsList. repeat at_most_step. Qed.

Lemma at_most_getNewsGuideDetail : issues_at_most 1 (getNewsGuideDetail w request).
Proof. unfold getNewsGuideDetail. repeat at_most_step. Qed.

Lemma at_most_forward_as_is : issues_at_most 1 (forward_as_is w upstream request bodyText).
Proof. unfold forward_as_is. repeat at_most_step. Qed.

Lemma at_most_static_json : issues_at_most 1 (static_json w location failure).
Proof. unfold static_json. repeat at_most_step. Qed.

Lemma at_most_getSteamHost : issues_at_most 1 (getSteamHost w).
Proof. unfold getSteamHost. repeat at_most_step. Qed.

Lemma at_most_getGameIcon : issues_at_most 0 (getGameIcon w).
Proof. unfold getGameIcon. repeat at_most_step. Qed.

Lemma at_most_getComponentList : issues_at_most 1 (getComponentList w request).
Proof. unfold getComponentList. repeat at_most_step. Qed.

Lemma at_most_card_more : issues_at_most 0 (card_more w request).
Proof. unfold card_more. repeat at_most_step. Qed.

Lemma at_most_getIndexList : issues_at_most 0 (getIndexList w request).
Proof. unfold getIndexList. repeat at_most_step. Qed.

Lemma at_most_proxy_to_github : issues_at_most 1 (proxy_to_github w url).
Proof. unfold proxy_to_github. repeat at_most_step. Qed.

End Endpoints.

Lemma at_most_weaken {A} (i j : nat) (m : M A) :
  (i ≤ j)%nat → issues_at_most i m → issues_at_most j m.
Proof. unfold issues_at_most. lia. Qed.

Lemma at_most_dispatch (w : World) (url : URL.t) (request : Request.t)
    (bodyText : string) :
  issues_at_most 1 (dispatch w url request bodyText).
Proof.
  unfold dispatch.
  repeat match goal with
         | |- context [if ?b then _ else _] => destruct b
         end;
    first [ apply at_most_getGameDetail | apply at_most_getGameList
          | apply at_most_getNewsList | apply at_most_getNewsGuideDetail
          | apply at_most_forward_as_is | apply at_most_static_json
          | apply at_most_getSteamHost | apply at_most_getComponentList
          | apply at_most_proxy_to_github
          | apply (at_most_weaken 0 1); [lia|];
            first [ apply at_most_getIndexList | apply at_most_card_more
                  | apply at_most_getGameIcon ] ].
Qed.

Lemma at_most_resolve_token (w : World) : issues_at_most 1 (resolve_token w).
Proof. unfold resolve_token. repeat at_most_step. Qed.

Lemma at_most_token_interception (md5 : string → string) (w : World)
    (request : Request.t) :
  issues_at_most (if shouldReplaceToken request then 1 else 0)
    (token_interception md5 w request).
Proof.
  unfold token_interception. destruct (shouldReplaceToken request); [|apply at_most_ret].
  apply (at_most_bind 1 0); [apply at_most_resolve_token|intros realToken].
  repeat at_most_step.
Qed.

Lemma within_returns_or_throws (statuses : list Z) (m : M Response.t) :
  answers_within statuses m → returns_or_throws statuses m.
Proof.
  intros Hwithin. unfold returns_or_throws.
  destruct (outcome m) as [response|message|] eqn:Hout.
  - left. exists response. split; [done|]. by apply Hwithin.
  - right. left. by exists message.
  - by right; right.
Qed.

(** X12. No endpoint relays an upstream status, and each issues at most
    one outbound call: every endpoint either returns a response whose
    status is in its own short list (only 200 for the search, the news
    list, the two forwarded endpoints and the game icons), or throws,
    whatever the upstream answers; and what an endpoint throws, the handler
    answers with the generic 500. *)
Theorem endpoint_statuses (md5 : string → string) (w : World) (url : URL.t)
    (request : Request.t) (bodyText upstream location failure : string) :
  (issues_at_most 1 (getGameDetail w url request bodyText)
   ∧ returns_or_throws [200; 400; 405; 500]%Z (getGameDetail w url request bodyText))
  ∧ (issues_at_most 1 (getGameList w request bodyText)
   ∧ returns_or_throws [200]%Z (getGameList w request bodyText))
  ∧ (issues_at_most 1 (getNewsList w request)
   ∧ returns_or_throws [200]%Z (getNewsList w request))
  ∧ (issues_at_most 1 (getNewsGuideDetail w request)
   ∧ returns_or_throws [200; 400; 404]%Z (getNewsGuideDetail w request))
  ∧ (issues_at_most 1 (forward_as_is w upstream request bodyText)
   ∧ returns_or_throws [200]%Z (forward_as_is w upstream request bodyText))
  ∧ (issues_at_most 1 (static_json w location failure)
   ∧ returns_or_throws [200; 500]%Z (static_json w location failure))
  ∧ (issues_at_most 1 (getSteamHost w)
   ∧ returns_or_throws [200; 500]%Z (getSteamHost w))
  ∧ (issues_at_most 0 (getGameIcon w)
   ∧ returns_or_throws [200]%Z (getGameIcon w))
  ∧ (issues_at_most 1 (getComponentList w request)
   ∧ returns_or_throws [200; 400; 500]%Z (getComponentList w request))
  ∧ (∀ (original : Request.t) (cs : list FetchCall) (message : string),
       method_is original "OPTIONS" = false →
       token_interception md5 w original = Run (Ret (request, bodyText)) cs →
       outcome (dispatch w (Request.url original) request bodyText) = Throw message →
       outcome (fetch md5 w original)
       = Ret {| Response.status := 500;
                Response.headers :=
                  Headers_of (("Content-Type", "application/json") :: allHeaders);
                Response.body :=
                  Some (JSON.stringify
                          (VObj [("code", VNum 500);
                                 ("msg", VStr ("Error: " +:+ message))])) |}).
Proof.
  split_and!.
  - apply at_most_getGameDetail.
  - apply within_returns_or_throws. unfold getGameDetail. repeat within_step.
  - apply at_most_getGameList.
  - apply within_returns_or_throws. unfold getGameList. repeat within_step.
  - apply at_most_getNewsList.
  - apply within_returns_or_throws. unfold getNewsList. repeat within_step.
  - apply at_most_getNewsGuideDetail.
  - apply within_returns_or_throws. unfold getNewsGuideDetail. repeat within_step.
  - apply at_most_forward_as_is.
  - apply within_returns_or_throws. unfold forward_as_is. repeat within_step.
  - apply at_most_static_json.
  - apply within_returns_or_throws. unfold static_json. repeat within_step.
  - apply at_most_getSteamHost.
  - apply within_returns_or_throws. unfold getSteamHost. repeat within_step.
    intros response [= <-]. set_solver.
  - apply at_most_getGameIcon.
  - apply within_returns_or_throws. unfold getGameIcon. repeat within_step.
  - apply at_most_getComponentList.
  - apply within_returns_or_throws. unfold getComponentList. repeat within_step.
  - intros original cs message Hmethod Hrun Hthrow.
    rewrite (fetch_after_interception md5 w original request bodyText cs) by done.
    by rewrite Hthrow.
Qed.

(** X13. One request costs at most two outbound calls: at most one to
    read the token and at most one for the endpoint; a request that holds
    no placeholder costs at most one, and a preflight none. *)
Theorem handler_issues_at_most_two_calls (md5 : string → string) (w : World)
    (request : Request.t) :
  issues_at_most 2 (fetch md5 w request)
  ∧ (shouldReplaceToken request = false → issues_at_most 1 (fetch md5 w request))
  ∧ (Request.method request = "OPTIONS" → calls (fetch md5 w request) = []).
Proof.
  assert (∀ n, issues_at_most n (token_interception md5 w request) →
               issues_at_most (n + 1) (fetch md5 w request)) as Hfetch.
  { intros n Hn. unfold fetch. destruct (method_is request "OPTIONS").
    { apply at_most_ret. }
    apply at_most_try_catch; [|intros e; apply at_most_ret].
    apply (at_most_bind n 1); [done|]. intros [request' bodyText].
    apply at_most_dispatch. }
  pose proof (at_most_token_interception md5 w request) as Hread. split_and!.
  - apply (Hfetch 1%nat). destruct (shouldReplaceToken request); [done|].
    by apply (at_most_weaken 0 1); [lia|].
  - intros Hnone. rewrite Hnone in Hread. by apply (Hfetch 0%nat).
  - intros Hmethod. unfold fetch, method_is. by rewrite Hmethod.
Qed.

End StatusProperties.

(** Page 2 of the stored topic is answered 200. *)
Lemma cache_endpoints_answer_locally_witness :
  Response.status
    (json_response 200
       (envelope 0 EmptyString "1760032301"
          (VObj (Examples.more_data 2
                   [Examples.card 4; Examples.card 5; Examples.card 6]))))
  ∈ [200; 400; 404; 500]%Z.
Proof.
  apply (proj1 (proj2 (proj2 (cache_endpoints_answer_locally
                                Examples.w_online Examples.more_page_2)))).
  evaluate.
Defined.

(** A request that holds no placeholder costs at most one call. *)
Lemma handler_issues_at_most_two_calls_witness :
  issues_at_most 1 (fetch MD5.md5 Examples.w_online Examples.more_page_2).
Proof.
  apply (proj1 (proj2 (handler_issues_at_most_two_calls
                         MD5.md5 Examples.w_online Examples.more_page_2))).
  evaluate.
Defined.

(** The base information of the static host is answered 200; a search
    whose upstream answers with a page is answered 500 by the handler. *)
Lemma endpoint_statuses_witness :
  returns_or_throws [200; 500]%Z
    (static_json Examples.w_online (GITHUB_BASE +:+ "/base/getBaseInfo")
       "Failed to fetch base info")
  ∧ outcome (fetch MD5.md5 Samples.w_search_html Examples.search_plain)
    = Ret {| Response.status := 500;
             Response.headers :=
               Headers_of (("Content-Type", "application/json") :: allHeaders);
             Response.body :=
               Some (JSON.text
                       "{'code':500,'msg':'Error: Unexpected token in JSON'}") |}.
Proof.
  split.
  - apply (proj2 (proj1 (proj2 (proj2 (proj2 (proj2 (proj2
             (endpoint_statuses MD5.md5 Examples.w_online
                (Examples.url "/base/getBaseInfo" [])
                Examples.get_base_info EmptyString EmptyString
                (GITHUB_BASE +:+ "/base/getBaseInfo") "Failed to fetch base info")))))))).
  - etrans.
    + apply (proj2 (proj2 (proj2 (proj2 (proj2 (proj2 (proj2 (proj2 (proj2
               (endpoint_statuses MD5.md5 Samples.w_search_html
                  (Request.url Examples.search_plain) Examples.search_plain
                  (JSON.text "{'keyword':'a'}") EmptyString EmptyString
                  EmptyString)))))))))
               Examples.search_plain [] "Unexpected token in JSON");
        evaluate.
    + evaluate.
Defined.

(** ** The index list *)

Section IndexListProperties.

Lemma Array_slice_prefix {A} (l : list A) (n : Z) :
  (0 ≤ n)%Z → Array_slice l 0 (Some n) = take (Z.to_nat n) l.
Proof.
  intros Hn. unfold Array_slice, relative_index.
  destruct (Z.ltb_spec n 0) as [?|_]; [lia|].
  destruct (Z.ltb_spec 0 0) as [?|_]; [lia|].
  rewrite (Z.min_l 0) by lia. change (Z.to_nat 0) with 0%nat. rewrite drop_0.
  rewrite Z.sub_0_r.
  destruct (decide (n ≤ Z.of_nat (length l))%Z).
  - by rewrite Z.min_l by lia.
  - rewrite Z.min_r by lia. rewrite Nat2Z.id.
    rewrite (take_ge l (length l)) by lia.
    by rewrite (take_ge l (Z.to_nat n)) by lia.
Qed.

Lemma Array_slice_whole {A} (l : list A) : Array_slice l 0 None = l.
Proof.
  unfold Array_slice, relative_index.
  destruct (Z.ltb_spec 0 0) as [?|_]; [lia|].
  rewrite (Z.min_l 0) by lia. change (Z.to_nat 0) with 0%nat. rewrite drop_0.
  rewrite Z.sub_0_r, Nat2Z.id.
  by rewrite (take_ge l (length l)) by lia.
Qed.

Lemma initial_cards_first (topic shown : value) :
  first_cards topic = Some shown → initial_cards topic = Ret shown.
Proof.
  destruct topic as [| | | | | |t]; try done. unfold first_cards, initial_cards.
  cbn [get]. change (mbind ?f (Ret ?x)) with (f x). cbv beta.
  destruct (obj_get t "card_list") as [| | | | |cards|]; try done.
  destruct (obj_get t "display_card_num") as [| | |n| | |]; try done.
  - intros [= <-]. cbn. by rewrite Array_slice_whole.
  - destruct (Z.leb_spec 0 n) as [Hn|]; [|done]. intros [= <-]. cbn.
    by rewrite Array_slice_prefix.
Qed.

Lemma Array_map_first (topics shown : list value) :
  mapM first_cards topics = Some shown → Array_map initial_cards topics = Ret shown.
Proof.
  revert shown. induction topics as [|topic topics IH]; intros shown.
  - by intros [= <-].
  - cbn. destruct (first_cards topic) as [first|] eqn:Hfirst; [|done]. cbn.
    destruct (mapM first_cards topics) as [rest|]; [|done]. cbn. intros [= <-].
    by rewrite (initial_cards_first _ _ Hfirst), (IH rest).
Qed.

(** X11. The index list shows the first cards of each topic. When the
    store holds an object whose [data] is a list of topics, each with a
    list of cards and a non-negative [display_card_num] or none, the answer
    is that object with every topic's [card_list] cut to its first
    [display_card_num] cards (all of them without the number), every other
    field as stored, and no outbound call is issued. *)
Theorem index_list_shows_first_cards (w : World) (request : Request.t)
    (text : string) (o : object) (topics shown : list value) :
  FREE_GAMES_KV_get w "free_games_data" = Some text →
  text ≠ EmptyString →
  JSON.parse text = Ret (VObj o) →
  obj_get o "data" = VArr topics →
  mapM first_cards topics = Some shown →
  getIndexList w request
  = Run (Ret (json_response 200 (VObj (obj_define o "data" (VArr shown))))) []
  ∧ length shown = length topics
  ∧ ∀ k, k ≠ "data" → obj_get (obj_define o "data" (VArr shown)) k = obj_get o k.
Proof.
  intros Hstore Htext Hparse Hdata Hshown. split_and!.
  - unfold getIndexList. rewrite Hstore. unfold missing.
    destruct (String.eqb_spec text EmptyString) as [?|_]; [done|].
    change (default EmptyString (Some text)) with text.
    rewrite Hparse, bind_lift_ret. cbn [get]. rewrite Hdata, bind_lift_ret.
    cbn [elements_for]. rewrite bind_lift_ret.
    by rewrite (Array_map_first _ _ Hshown), bind_lift_ret.
  - symmetry. by eapply Forall2_length, mapM_Some_1.
  - intros k Hk. rewrite obj_get_define.
    by destruct (String.eqb_spec "data" k) as [<-|_].
Qed.

End IndexListProperties.

(** The stored topic shows two of its seven cards. *)
Lemma index_list_shows_first_cards_witness :
  getIndexList Examples.w_online Examples.get_index
  = Run (Ret (json_response 200
                (VObj (obj_define
                         [("data",
                           VArr [VObj [("id", VNum 7); ("title", VStr "Free");
                                       ("display_card_num", VNum 2);
                                       ("card_list", VArr (Examples.card <$> [1; 2; 3; 4; 5; 6; 7]%Z))]])]
                         "data"
                         (VArr [VObj [("id", VNum 7); ("title", VStr "Free");
                                      ("display_card_num", VNum 2);
                                      ("card_list", VArr [Examples.card 1; Examples.card 2])]])))))
        []
  ∧ length [VObj [("id", VNum 7); ("title", VStr "Free");
                  ("display_card_num", VNum 2);
                  ("card_list", VArr [Examples.card 1; Examples.card 2])]] = 1
  ∧ ∀ k, k ≠ "data" →
         obj_get (obj_define
                    [("data",
                      VArr [VObj [("id", VNum 7); ("title", VStr "Free");
                                  ("display_card_num", VNum 2);
                                  ("card_list", VArr (Examples.card <$> [1; 2; 3; 4; 5; 6; 7]%Z))]])]
                    "data"
                    (VArr [VObj [("id", VNum 7); ("title", VStr "Free");
                                 ("display_card_num", VNum 2);
                                 ("card_list", VArr [Examples.card 1; Examples.card 2])]])) k
         = obj_get
             [("data",
               VArr [VObj [("id", VNum 7); ("title", VStr "Free");
                           ("display_card_num", VNum 2);
                           ("card_list", VArr (Examples.card <$> [1; 2; 3; 4; 5; 6; 7]%Z))]])] k.
Proof.
  refine (index_list_shows_first_cards Examples.w_online Examples.get_index
            Examples.topics
            [("data",
              VArr [VObj [("id", VNum 7); ("title", VStr "Free");
                          ("display_card_num", VNum 2);
                          ("card_list", VArr (Examples.card <$> [1; 2; 3; 4; 5; 6; 7]%Z))]])]
            [VObj [("id", VNum 7); ("title", VStr "Free");
                   ("display_card_num", VNum 2);
                   ("card_list", VArr (Examples.card <$> [1; 2; 3; 4; 5; 6; 7]%Z))]]
            [VObj [("id", VNum 7); ("title", VStr "Free");
                   ("display_card_num", VNum 2);
                   ("card_list", VArr [Examples.card 1; Examples.card 2])]]
            _ _ _ _ _); try evaluate.
  vm_compute. discriminate.
Defined.

(** ** Forwarded requests and static documents *)

Section ForwardProperties.

Variable md5 : string → string.

Lemma body_text_json_body_text (request : Request.t) :
  body_text request (json_body_text request) = Request.text request.
Proof.
  unfold body_text, json_body_text. destruct (is_json_post request); [|done].
  by destruct (String.eqb_spec (Request.text request) EmptyString) as [->|_].
Qed.

Lemma dispatch_forwarded_call (w : World) (url : URL.t) (request : Request.t)
    (bodyText : string) :
  URL.pathname url ∈ ["/card/getGameDetail"; "/search/getGameList";
                      "/simulator/executeScript"; "/cloud/game/check_user_timer"] →
  Request.method request = "POST" →
  calls (dispatch w url request bodyText)
  = [{| call_url := "https://landscape-api.vgabc.com" +:+ URL.pathname url;
        call_method := "POST";
        call_headers :=
          if String.eqb (URL.pathname url) "/card/getGameDetail"
          then header_list_set (Request.headers request) "Content-Type" "application/json"
          else Request.headers request;
        call_body := Some (body_text request bodyText) |}].
Proof.
  intros Hpath Hmethod. unfold dispatch, method_is. rewrite Hmethod.
  repeat (apply elem_of_cons in Hpath as [->|Hpath]); [..|by apply elem_of_nil in Hpath];
    literal_eqb; unfold getGameDetail, getGameList, forward_as_is; rewrite ?Hmethod;
    literal_eqb; apply calls_fetch_then; intros r.
  - destruct (JSON.parse (http_body r)); [|done..]. by apply calls_lift_then.
  - apply calls_lift_then. intros v. by apply calls_lift_then.
  - by apply calls_lift_then.
  - by apply calls_lift_then.
Qed.

(** X14. A POST without the placeholder to one of the four forwarded
    paths goes upstream verbatim: the handler issues exactly one call, a
    POST to the same path on the upstream host, with the client's body text
    and the client's headers, the game-detail endpoint alone setting
    [Content-Type]. *)
Theorem forwarded_verbatim (w : World) (request : Request.t) :
  URL.pathname (Request.url request)
  ∈ ["/card/getGameDetail"; "/search/getGameList";
     "/simulator/executeScript"; "/cloud/game/check_user_timer"] →
  Request.method request = "POST" →
  shouldReplaceToken request = false →
  calls (fetch md5 w request)
  = [{| call_url :=
          "https://landscape-api.vgabc.com" +:+ URL.pathname (Request.url request);
        call_method := "POST";
        call_headers :=
          if String.eqb (URL.pathname (Request.url request)) "/card/getGameDetail"
          then header_list_set (Request.headers request) "Content-Type" "application/json"
          else Request.headers request;
        call_body := Some (Request.text request) |}].
Proof.
  intros Hpath Hmethod Hnone.
  assert (token_interception md5 w request
          = Run (Ret (request, json_body_text request)) []) as Hrun.
  { unfold token_interception. by rewrite Hnone. }
  assert (method_is request "OPTIONS" = false) as Hoptions.
  { unfold method_is. by rewrite Hmethod. }
  rewrite (fetch_after_interception md5 w request request (json_body_text request) []
             Hoptions Hrun).
  rewrite calls_try_catch_internal_error. cbn [calls app].
  rewrite dispatch_forwarded_call by done.
  by rewrite body_text_json_body_text.
Qed.

(** X15. The method never changes which static document is fetched: for
    [/base/getBaseInfo] and [/game/getDnsIpPool] the endpoint and the
    fall-through issue the same single call, the plain GET for the same
    path on the static host. *)
Theorem static_documents_same_call (w : World) (url : URL.t) (request : Request.t)
    (bodyText : string) :
  URL.pathname url ∈ ["/base/getBaseInfo"; "/game/getDnsIpPool"] →
  calls (dispatch w url request bodyText) = [github_request url].
Proof.
  intros Hpath. unfold dispatch, github_request, proxy_to_github.
  repeat (apply elem_of_cons in Hpath as [->|Hpath]); [..|by apply elem_of_nil in Hpath];
    literal_eqb; destruct (method_is request "POST");
    unfold static_json, fetch_url;
    apply calls_fetch_then; intros r; try done.
  - destruct (negb (http_ok r)); [done|]. by apply calls_lift_then.
  - destruct (negb (http_ok r)); [done|]. by apply calls_lift_then.
Qed.

End ForwardProperties.

(** The search without the placeholder goes upstream as it came. *)
Lemma forwarded_verbatim_witness :
  calls (fetch MD5.md5 Examples.w_online Examples.search_plain)
  = [{| call_url := "https://landscape-api.vgabc.com" +:+ "/search/getGameList";
        call_method := "POST";
        call_headers := Examples.plain_headers;
        call_body := Some (JSON.text "{'keyword':'a'}") |}].
Proof.
  refine (forwarded_verbatim MD5.md5 Examples.w_online Examples.search_plain _ _ _).
  - set_solver.
  - reflexivity.
  - evaluate.
Defined.

(** A GET and a POST for the base information fetch the same document. *)
Lemma static_documents_same_call_witness :
  calls (dispatch Examples.w_online (Examples.url "/base/getBaseInfo" [])
           Examples.get_base_info EmptyString)
  = [github_request (Examples.url "/base/getBaseInfo" [])].
Proof.
  refine (static_documents_same_call Examples.w_online
            (Examples.url "/base/getBaseInfo" []) Examples.get_base_info
            EmptyString _).
  set_solver.
Defined.

(** ** The component list *)

Section ComponentProperties.

Lemma numeric_head_go (x : N) (s : string) :
  numeric_head s = true → numeric_head (pretty_N_go x s) = true.
Proof.
  revert s. induction (N.lt_wf_0 x) as [x _ IH]; intros s Hs.
  assert (x = 0 ∨ 0 < x)%N as [->|?] by lia.
  - by rewrite pretty_N_go_0.
  - rewrite pretty_N_go_step by done. apply IH.
    { by apply N.div_lt. }
    unfold pretty_N_char. by repeat case_match.
Qed.

Lemma numeric_head_pretty (n : Z) : numeric_head (pretty n) = true.
Proof.
  destruct n as [|p|p]; [done| |done].
  unfold pretty, pretty_Z, pretty, pretty_positive, pretty, pretty_N.
  case_decide; [done|]. rewrite pretty_N_go_step by lia.
  apply numeric_head_go. unfold pretty_N_char. by repeat case_match.
Qed.

Lemma manifest_of_number (n : Z) :
  manifest_of (VNum n)
  = Ret (if bool_decide (1 ≤ n ≤ 7)%Z
         then URL.get TYPE_TO_MANIFEST (pretty n) else None).
Proof.
  unfold manifest_of. cbn [ToString]. change (mbind ?f (Ret ?x)) with (f x). cbv beta.
  destruct (bool_decide (1 ≤ n ≤ 7)%Z) eqn:Hrange;
    [apply bool_decide_eq_true in Hrange|apply bool_decide_eq_false in Hrange].
  - assert (n = 1 ∨ n = 2 ∨ n = 3 ∨ n = 4 ∨ n = 5 ∨ n = 6 ∨ n = 7)%Z
      as Hn by lia.
    by destruct Hn as [->|[->|[->|[->|[->|[->| ->]]]]]].
  - assert (URL.get TYPE_TO_MANIFEST (pretty n) = None) as ->.
    { assert (∀ m : Z, n ≠ m → String.eqb (pretty m) (pretty n) = false) as Hne.
      { intros m Hm. apply String.eqb_neq. intros Heq. apply Hm.
        symmetry. by apply (inj pretty). }
      change TYPE_TO_MANIFEST
        with [ (pretty 1%Z, "/components/box64_manifest");
               (pretty 2%Z, "/components/drivers_manifest");
               (pretty 3%Z, "/components/dxvk_manifest");
               (pretty 4%Z, "/components/vkd3d_manifest");
               (pretty 5%Z, "/components/games_manifest");
               (pretty 6%Z, "/components/libraries_manifest");
               (pretty 7%Z, "/components/steam_manifest") ].
      cbn [URL.get]. by rewrite !Hne by lia. }
    rewrite bool_decide_eq_false_2; [done|].
    intros Hin. pose proof (numeric_head_pretty n) as Hhead.
    unfold Object_prototype_names in Hin.
    repeat (apply elem_of_cons in Hin as [Heq|Hin]; [by rewrite Heq in Hhead|]).
    by apply elem_of_nil in Hin.
Qed.

(** X16. The component list accepts the integer types 1 to 7 and no
    other: any other integer, 0 included, is answered 400 without an
    outbound call, and a type between 1 and 7 costs exactly one call, the
    plain GET for its manifest on the static host. *)
Theorem component_type_range (w : World) (request : Request.t) (b : object) (n : Z) :
  Request.json request = Ret (VObj b) →
  obj_get b "type" = VNum n →
  (¬ (1 ≤ n ≤ 7)%Z →
   getComponentList w request
   = Run (Ret (json_response 400
                 (VObj [("code", VNum 400); ("msg", VStr "Invalid type parameter")])))
         [])
  ∧ ((1 ≤ n ≤ 7)%Z →
     ∃ manifest,
       URL.get TYPE_TO_MANIFEST (pretty n) = Some manifest
       ∧ calls (getComponentList w request)
         = [get_request (GITHUB_BASE +:+ manifest)]).
Proof.
  intros Hjson Htype.
  assert (getComponentList w request
          = manifest ← (if truthy (VNum n) then lift (manifest_of (VNum n))
                        else mret None);
            match manifest with
            | None =>
                mret (json_response 400
                        (VObj [("code", VNum 400);
                               ("msg", VStr "Invalid type parameter")]))
            | Some manifest =>
                response ← fetch_url w (GITHUB_BASE +:+ manifest);
                if negb (http_ok response) then
                  mret (json_response 500
                          (VObj [("code", VNum 500);
                                 ("msg", VStr "Failed to fetch manifest")]))
                else
                  manifestData ← lift (JSON.parse (http_body response));
                  manifestData ←
                    lift (reshape_manifest manifestData
                            (or_else (obj_get b "page") (VNum 1))
                            (or_else (obj_get b "page_size") (VNum 10)));
                  mret (json_response 200 manifestData)
            end) as ->.
  { unfold getComponentList. rewrite Hjson, bind_lift_ret. cbn [get].
    by rewrite !bind_lift_ret, Htype. }
  rewrite manifest_of_number. split.
  - intros Hout. rewrite bool_decide_eq_false_2 by done.
    by destruct (truthy (VNum n)).
  - intros Hin. rewrite bool_decide_eq_true_2 by done.
    assert (truthy (VNum n) = true) as ->.
    { cbn. destruct (Z.eqb_spec n 0); [lia|done]. }
    assert (∃ manifest, URL.get TYPE_TO_MANIFEST (pretty n) = Some manifest)
      as [manifest Hmanifest].
    { assert (n = 1 ∨ n = 2 ∨ n = 3 ∨ n = 4 ∨ n = 5 ∨ n = 6 ∨ n = 7)%Z
        as Hn by lia.
      destruct Hn as [->|[->|[->|[->|[->|[->| ->]]]]]]; by eexists. }
    exists manifest. split; [done|]. rewrite Hmanifest, bind_lift_ret.
    apply calls_fetch_then. intros r. destruct (negb (http_ok r)); [done|].
    apply calls_lift_then. intros v. by apply calls_lift_then.
Qed.

End ComponentProperties.

(** Type 3 asks for the DXVK manifest; type 8 is refused. *)
Lemma component_type_range_witness :
  (∃ manifest,
     URL.get TYPE_TO_MANIFEST (pretty 3%Z) = Some manifest
     ∧ calls (getComponentList Examples.w_online Examples.components_post)
       = [get_request (GITHUB_BASE +:+ manifest)])
  ∧ getComponentList Examples.w_online Samples.components_type_8
    = Run (Ret (json_response 400
                  (VObj [("code", VNum 400); ("msg", VStr "Invalid type parameter")])))
          [].
Proof.
  split.
  - refine (proj2 (component_type_range Examples.w_online Examples.components_post
                     [("type", VNum 3); ("page", VNum 2); ("page_size", VNum 3)] 3
                     _ _) _); [evaluate|evaluate|lia].
  - refine (proj1 (component_type_range Examples.w_online Samples.components_type_8
                     [("type", VNum 8)] 8 _ _) _); [evaluate|evaluate|lia].
Defined.


(** ** The news endpoints *)

Section NewsProperties.

(** X17. What the news endpoints ask of the aggregator. The list is
    asked with [page] and [page_size] as the body gives them, 1 and 4
    standing in for a missing or falsy one; the detail endpoint answers 400
    without an outbound call when the body has no truthy [id], and
    otherwise asks for the detail under the [id] rendered as it is. *)
Theorem news_requests (w : World) (request : Request.t) (b : object) :
  Request.json request = Ret (VObj b) →
  (∀ page pageSize,
     ToString (or_else (obj_get b "page") (VNum 1)) = Ret page →
     ToString (or_else (obj_get b "page_size") (VNum 4)) = Ret pageSize →
     calls (getNewsList w request)
     = [get_request (NEWS_AGGREGATOR_URL +:+ "/api/news/list?page=" +:+ page
                     +:+ "&page_size=" +:+ pageSize)])
  ∧ (truthy (obj_get b "id") = false →
     getNewsGuideDetail w request
     = Run (Ret (json_response 400
                   (envelope 400 "Missing id parameter" EmptyString VNull)))
           [])
  ∧ (∀ newsId,
       truthy (obj_get b "id") = true →
       ToString (obj_get b "id") = Ret newsId →
       calls (getNewsGuideDetail w request)
       = [get_request (NEWS_AGGREGATOR_URL +:+ "/api/news/detail/" +:+ newsId)]).
Proof.
  intros Hjson. split_and!.
  - intros page pageSize Hpage Hsize. unfold getNewsList.
    rewrite Hjson, bind_lift_ret. cbn [get].
    rewrite !bind_lift_ret, Hpage, bind_lift_ret, Hsize, bind_lift_ret.
    apply calls_fetch_then. intros r. destruct (negb (http_ok r)); [done|].
    by apply calls_lift_then.
  - intros Hid. unfold getNewsGuideDetail.
    rewrite Hjson, bind_lift_ret. cbn [get]. by rewrite bind_lift_ret, Hid.
  - intros newsId Hid Hrender. unfold getNewsGuideDetail.
    rewrite Hjson, bind_lift_ret. cbn [get].
    rewrite bind_lift_ret, Hid. cbn [negb]. rewrite Hrender, bind_lift_ret.
    apply calls_fetch_then. intros r. destruct (negb (http_ok r)); [done|].
    by apply calls_lift_then.
Qed.

End NewsProperties.

(** A body with page 0 asks for page 1 with 4 items. *)
Lemma news_requests_witness :
  calls (getNewsList Examples.w_online Samples.news_page_0)
  = [get_request (NEWS_AGGREGATOR_URL +:+ "/api/news/list?page=" +:+ "1"
                  +:+ "&page_size=" +:+ "4")]
  ∧ getNewsGuideDetail Examples.w_online Samples.news_page_0
    = Run (Ret (json_response 400
                  (envelope 400 "Missing id parameter" EmptyString VNull)))
          [].
Proof.
  split.
  - refine (proj1 (news_requests Examples.w_online Samples.news_page_0
                     [("page", VNum 0)] _) "1" "4" _ _); evaluate.
  - refine (proj1 (proj2 (news_requests Examples.w_online Samples.news_page_0
                            [("page", VNum 0)] _)) _); evaluate.
Defined.

(** ** The letter case of the signature *)

Section CaseProperties.

Lemma lower_char_not_upper (c : ascii) : upper_case (Str.lower_char c) = false.
Proof. by destruct c as [[] [] [] [] [] [] [] []]. Qed.

Lemma toLowerCase_not_upper (s : string) :
  Forall (λ c, upper_case c = false)
    (String.list_ascii_of_string (Str.toLowerCase s)).
Proof.
  induction s as [|c s IH]; cbn; constructor; [|done]. apply lower_char_not_upper.
Qed.

Lemma mapM_result_Forall {A B} (f : A → result B) (l : list A) (ys : list B) :
  mapM f l = Ret ys → Forall (λ x, ∃ y, f x = Ret y) l.
Proof.
  revert ys. induction l as [|x l IH]; intros ys; [constructor|].
  rewrite mapM_result_cons. destruct (f x) as [y| |] eqn:Hx; [|done..]. cbn.
  destruct (mapM f l) as [k| |] eqn:Hl; [|done..]. intros _.
  constructor; [by exists y|by apply (IH k)].
Qed.

(** X18. The signature is the digest in lower case, whatever [md5]
    returns: it is the digest of the sign string of the canonical pairs
    with every upper-case letter replaced by its lower-case letter, and it
    holds no upper-case letter. *)
Theorem signature_is_lower_case (md5 : string → string) (params : object)
    (signature : string) :
  generateSignature md5 params = Ret signature →
  ∃ kvs,
    canonical_pairs params kvs
    ∧ lower_case (md5 (sign_string kvs)) signature
    ∧ Forall (λ c, upper_case c = false) (String.list_ascii_of_string signature).
Proof.
  intros Hsign.
  set (sortedKeys :=
         merge_sort String.le (filter (λ k, k ≠ "sign") (Object_keys params))).
  assert (Hperm : sortedKeys ≡ₚ filter (λ k, k ≠ "sign") (Object_keys params))
    by apply (merge_sort_Permutation String.le).
  assert (Hrendered : Forall (λ k, ∃ s, ToString (obj_get params k) = Ret s) sortedKeys).
  { revert Hsign. unfold generateSignature. fold sortedKeys.
    destruct (mapM (key_value params) sortedKeys) as [pairs| |] eqn:Hmap; [|done..].
    intros _. apply mapM_result_Forall in Hmap.
    eapply Forall_impl; [exact Hmap|]. intros k [y Hy]. unfold key_value in Hy.
    destruct (ToString (obj_get params k)) as [rendered| |]; [|done..].
    by exists rendered. }
  destruct (mapM_key_value params sortedKeys Hrendered) as (kvs & Hkeys & Hvals & Hmap).
  exists kvs. revert Hsign. unfold generateSignature. fold sortedKeys.
  rewrite Hmap. change (mbind ?f (Ret ?x)) with (f x). cbv beta. intros [= <-].
  split_and!.
  - split_and!; [by rewrite Hkeys| |done].
    rewrite Hkeys. apply (StronglySorted_merge_sort String.le).
  - apply toLowerCase_lower_case.
  - apply toLowerCase_not_upper.
Qed.

End CaseProperties.

(** The signature of the documented body when the digest comes in upper
    case. *)
Lemma signature_is_lower_case_witness :
  ∃ kvs,
    canonical_pairs Examples.signed_fields kvs
    ∧ lower_case (Samples.upper_hex (MD5.md5 (sign_string kvs)))
        "0a370c273ef7d9eb08346085518094fd"
    ∧ Forall (λ c, upper_case c = false)
        (String.list_ascii_of_string "0a370c273ef7d9eb08346085518094fd").
Proof.
  refine (signature_is_lower_case (λ text, Samples.upper_hex (MD5.md5 text))
            Examples.signed_fields "0a370c273ef7d9eb08346085518094fd" _).
  evaluate.
Defined.

(** ** The Steam hosts *)

Section SteamHostProperties.

(** X19. The Steam hosts are served from another document than the one
    the fall-through reaches: a GET for [/game/getSteamHost] fetches
    [/game/getSteamHost/index] on the static host and returns its text
    unchanged as [text/plain] with status 200, while any other method
    fetches [/game/getSteamHost] itself. *)
Theorem steam_host_document (w : World) (url : URL.t) (request : Request.t)
    (bodyText : string) :
  URL.pathname url = "/game/getSteamHost" →
  calls (dispatch w url request bodyText)
  = [get_request
       (GITHUB_BASE +:+ (if method_is request "GET" then "/game/getSteamHost/index"
                         else "/game/getSteamHost"))]
  ∧ ∀ r, method_is request "GET" = true →
         network w (get_request (GITHUB_BASE +:+ "/game/getSteamHost/index")) = Ret r →
         http_ok r = true →
         outcome (dispatch w url request bodyText)
         = Ret {| Response.status := 200;
                  Response.headers :=
                    Headers_of (("Content-Type", "text/plain") :: allHeaders);
                  Response.body := Some (http_body r) |}.
Proof.
  intros Hpath. unfold dispatch, proxy_to_github. rewrite Hpath. literal_eqb.
  destruct (method_is request "GET"); unfold getSteamHost, fetch_url; split.
  - apply calls_fetch_then. intros r. by destruct (negb (http_ok r)).
  - intros r _ Hnet Hok. unfold fetch_. by rewrite Hnet, bind_run_ret, Hok.
  - by apply calls_fetch_then.
  - done.
Qed.

End SteamHostProperties.

(** The hosts file of the static host is returned as it is. *)
Lemma steam_host_document_witness :
  calls (dispatch Samples.w_hosts (Examples.url "/game/getSteamHost" [])
           Samples.get_hosts EmptyString)
  = [get_request (GITHUB_BASE +:+ "/game/getSteamHost/index")]
  ∧ outcome (dispatch Samples.w_hosts (Examples.url "/game/getSteamHost" [])
               Samples.get_hosts EmptyString)
    = Ret {| Response.status := 200;
             Response.headers :=
               Headers_of (("Content-Type", "text/plain") :: allHeaders);
             Response.body := Some "23.1.2.3 store.steampowered.com" |}.
Proof.
  destruct (steam_host_document Samples.w_hosts (Examples.url "/game/getSteamHost" [])
              Samples.get_hosts EmptyString eq_refl) as [Hcalls Hanswer].
  split; [exact Hcalls|].
  refine (Hanswer {| http_status := 200;
                     http_headers := [("content-type", "application/json")];
                     http_body := "23.1.2.3 store.steampowered.com" |} _ _ _);
    evaluate.
Defined.
